(** * browser_cookie3: cookie extraction from Chrome and Firefox stores

    A shallow embedding of [__init__.py] (classes [Chrome] and [Firefox],
    [create_cookie], [create_local_copy], [chrome], [firefox], [load]) and of
    the parts of the Python runtime the module runs on: exceptions and
    [try]/[except], dynamically typed values with [str.lower] and the binary64
    sum of [datetime.timestamp], [http.cookiejar], the naive [datetime]
    arithmetic, the [pyaes] block feeder, [configparser] with its
    interpolation, and a small relational store standing for [sqlite3].

    Everything the module obtains from the host (files, globbing, the
    environment, the keyring, the clock and the time zone, the cipher and the
    codecs) is a field of one record, [Host.world]; the functions of the module
    take that record as their first argument.  The same record holds what the
    libraries do outside the fragment written out here: the answer of the
    database engine to a statement that the domain filter has bent out of its
    shape, or on a table with cells that it cannot compare or hand over, and
    [str.format] on a template with other fields than [{0}]. *)

From Stdlib Require Import ZArith List String Ascii Bool Lia Arith.
From Stdlib Require Import DecimalString DecimalZ DecimalPos SpecFloat.
Import ListNotations.

Local Open Scope string_scope.
Local Open Scope list_scope.

(* ===================================================================== *)
(** ** Python values, exceptions, [try]/[except] *)
(* ===================================================================== *)

Module Py.

(** Exception classes that the module raises, catches or lets through. *)
Inductive pyclass : Type :=
| BrowserCookieError      (* class BrowserCookieError(Exception) of the module *)
| OperationalError        (* sqlite3.OperationalError *)
| ProgrammingError        (* sqlite3.ProgrammingError *)
| DatabaseError           (* sqlite3.DatabaseError *)
| OverflowError
| OSError
| ValueError
| UnicodeDecodeError      (* subclass of ValueError *)
| JSONDecodeError         (* subclass of ValueError *)
| TypeError
| AttributeError
| KeyError
| NameError
| UnboundLocalError       (* subclass of NameError *)
| RuntimeError
| RecursionError          (* subclass of RuntimeError *)
| IndexError
| LZ4BlockError           (* lz4.block.LZ4BlockError, a direct subclass of Exception *)
| ConfigParserError       (* configparser.Error *)
| InterpolationSyntaxError          (* configparser, below InterpolationError *)
| InterpolationMissingOptionError   (* configparser, below InterpolationError *)
| InterpolationDepthError.          (* configparser, below InterpolationError *)

Definition pyclass_eqb (c d : pyclass) : bool :=
  match c, d with
  | BrowserCookieError, BrowserCookieError
  | OperationalError, OperationalError
  | ProgrammingError, ProgrammingError
  | DatabaseError, DatabaseError
  | OverflowError, OverflowError
  | OSError, OSError
  | ValueError, ValueError
  | UnicodeDecodeError, UnicodeDecodeError
  | JSONDecodeError, JSONDecodeError
  | TypeError, TypeError
  | AttributeError, AttributeError
  | KeyError, KeyError
  | NameError, NameError
  | UnboundLocalError, UnboundLocalError
  | RuntimeError, RuntimeError
  | RecursionError, RecursionError
  | IndexError, IndexError
  | LZ4BlockError, LZ4BlockError
  | ConfigParserError, ConfigParserError
  | InterpolationSyntaxError, InterpolationSyntaxError
  | InterpolationMissingOptionError, InterpolationMissingOptionError
  | InterpolationDepthError, InterpolationDepthError => true
  | _, _ => false
  end.

(** The nearest base class among the classes above, [None] standing for
    [Exception]: no class above has two of the others over it. *)
Definition base (c : pyclass) : option pyclass :=
  match c with
  | OperationalError => Some DatabaseError
  | ProgrammingError => Some DatabaseError
  | InterpolationSyntaxError => Some ConfigParserError
  | InterpolationMissingOptionError => Some ConfigParserError
  | InterpolationDepthError => Some ConfigParserError
  | UnicodeDecodeError => Some ValueError
  | JSONDecodeError => Some ValueError
  | UnboundLocalError => Some NameError
  | RecursionError => Some RuntimeError
  | _ => None
  end.

Definition issubclass (c d : pyclass) : bool :=
  pyclass_eqb c d ||
  match base c with
  | Some b => pyclass_eqb b d
  | None => false
  end.

Record exn : Type := mkExn { exn_class : pyclass; exn_msg : string }.

Definition isinstance (e : exn) (c : pyclass) : bool := issubclass (exn_class e) c.

(** Outcome of running a piece of Python: a value or a raised exception. *)
Inductive result (A : Type) : Type :=
| Ok (a : A)
| Raise (e : exn).
Arguments Ok {A} a.
Arguments Raise {A} e.

Definition bind {A B} (c : result A) (k : A -> result B) : result B :=
  match c with
  | Ok a => k a
  | Raise e => Raise e
  end.

Definition raise {A} (c : pyclass) (msg : string) : result A := Raise (mkExn c msg).

(** [try: body  except (classes) as e: handler e]. *)
Definition try_except {A} (body : result A) (classes : list pyclass)
    (handler : exn -> result A) : result A :=
  match body with
  | Ok a => Ok a
  | Raise e => if existsb (isinstance e) classes then handler e else Raise e
  end.

Definition bytes := list Byte.byte.

Definition b_ (s : string) : bytes := list_byte_of_string s.

Definition byte_val (b : Byte.byte) : N := Byte.to_N b.

Fixpoint bytes_eqb (a b : bytes) : bool :=
  match a, b with
  | [], [] => true
  | x :: a', y :: b' => Byte.eqb x y && bytes_eqb a' b'
  | _, _ => false
  end.

(** Python objects that reach the module: cells of a store row ([None], [int],
    [str], [bytes]) and decoded JSON documents ([None], [bool], [int], [str],
    [list], [dict] with [str] keys).  A [str] is kept as its UTF-8 bytes.
    [float] cells and JSON numbers with a fraction are left out. *)
#[warnings="-register-all"]
Inductive pyval : Type :=
| PNone
| PBool (b : bool)
| PInt (z : Z)
| PStr (s : string)
| PBytes (b : bytes)
| PList (l : list pyval)
| PDict (d : list (string * pyval)).

(** A byte of the form 10xxxxxx continues a UTF-8 sequence. *)
Definition is_continuation (c : ascii) : bool :=
  let n := N_of_ascii c in (128 <=? n)%N && (n <? 192)%N.

(** Number of code points of a [str] held as UTF-8. *)
Fixpoint str_len (s : string) : nat :=
  match s with
  | EmptyString => 0
  | String c s' => if is_continuation c then str_len s' else S (str_len s')
  end.

(** The text of one double quote. *)
Definition dquote : string := String (ascii_of_nat 34) EmptyString.

(** [bool(v)]. *)
Definition truthy (v : pyval) : bool :=
  match v with
  | PNone => false
  | PBool b => b
  | PInt z => negb (z =? 0)%Z
  | PStr s => negb (String.eqb s "")
  | PBytes b => negb (bytes_eqb b [])
  | PList l => match l with [] => false | _ => true end
  | PDict d => match d with [] => false | _ => true end
  end.

(** [len(v)]. *)
Definition len (v : pyval) : result nat :=
  match v with
  | PStr s => Ok (str_len s)
  | PBytes b => Ok (List.length b)
  | PList l => Ok (List.length l)
  | PDict d => Ok (List.length d)
  | PNone | PBool _ | PInt _ => raise TypeError "object has no len()"
  end.

(** [v != 0]. *)
Definition ne_zero (v : pyval) : bool :=
  match v with
  | PInt z => negb (z =? 0)%Z
  | PBool b => b
  | _ => true
  end.

(** [v == ""]. *)
Definition eq_empty_str (v : pyval) : bool :=
  match v with
  | PStr s => String.eqb s ""
  | _ => false
  end.

Definition is_space (c : ascii) : bool :=
  let n := N_of_ascii c in ((9 <=? n) && (n <=? 13) || (n =? 32))%N.

Fixpoint lstrip (s : string) : string :=
  match s with
  | String c s' => if is_space c then lstrip s' else s
  | EmptyString => EmptyString
  end.

Fixpoint rev_string (acc s : string) : string :=
  match s with
  | EmptyString => acc
  | String c s' => rev_string (String c acc) s'
  end.

Definition strip (s : string) : string :=
  rev_string "" (lstrip (rev_string "" (lstrip s))).

Definition is_digit (c : ascii) : bool :=
  let n := N_of_ascii c in ((48 <=? n) && (n <=? 57))%N.

(** Digits of an integer literal, single underscores between digits removed;
    [None] when the text is not of that form. *)
Fixpoint literal_digits (after_digit : bool) (s : string) : option string :=
  match s with
  | EmptyString => if after_digit then Some EmptyString else None
  | String c s' =>
      if is_digit c then option_map (String c) (literal_digits true s')
      else if Ascii.eqb c "_" then
        if after_digit then
          match s' with
          | String d _ => if is_digit d then literal_digits false s' else None
          | EmptyString => None
          end
        else None
      else None
  end.

(** [int(text)] for a decimal literal: surrounding white space, a sign, digits. *)
Definition int_of_text (s : string) : option Z :=
  match strip s with
  | String c s' =>
      if Ascii.eqb c "-" then
        match literal_digits false s' with
        | Some ds => option_map (fun d => Z.opp (Z.of_uint d)) (NilZero.uint_of_string ds)
        | None => None
        end
      else if Ascii.eqb c "+" then
        match literal_digits false s' with
        | Some ds => option_map Z.of_uint (NilZero.uint_of_string ds)
        | None => None
        end
      else
        match literal_digits false (String c s') with
        | Some ds => option_map Z.of_uint (NilZero.uint_of_string ds)
        | None => None
        end
  | EmptyString => None
  end.

(** [int(v)]. *)
Definition int (v : pyval) : result Z :=
  match v with
  | PInt z => Ok z
  | PBool b => Ok (if b then 1 else 0)%Z
  | PStr s =>
      match int_of_text s with
      | Some z => Ok z
      | None => raise ValueError "invalid literal for int() with base 10"
      end
  | PBytes b =>
      match int_of_text (string_of_list_byte b) with
      | Some z => Ok z
      | None => raise ValueError "invalid literal for int() with base 10"
      end
  | PNone | PList _ | PDict _ =>
      raise TypeError "int() argument must be a string, a bytes-like object or a real number"
  end.

(** [str(z)] for an [int]. *)
Definition str_of_int (z : Z) : string := NilZero.string_of_int (Z.to_int z).

(** A [float], held as the number it stands for: [fl_mantissa * 2 ^ fl_exponent].
    The floats that arithmetic gives are binary64 numbers ([binary64] below);
    the float of an integer is that integer, as binary64 has it up to 2^53. *)
Record pyfloat : Type := mkFloat { fl_mantissa : Z; fl_exponent : Z }.

(** [int(x)] for a float: truncation towards zero. *)
Definition int_of_float (x : pyfloat) : Z :=
  if (0 <=? fl_exponent x)%Z then (fl_mantissa x * 2 ^ fl_exponent x)%Z
  else Z.quot (fl_mantissa x) (2 ^ (- fl_exponent x)).

(** The number a finite binary64 stands for. *)
Definition binary64 (x : spec_float) : pyfloat :=
  match x with
  | S754_finite sign m e => mkFloat (if sign then Z.neg m else Z.pos m) e
  | _ => mkFloat 0 0
  end.

(** The binary64 nearest to an integer (ties to even). *)
Definition b64_of_Z (z : Z) : spec_float := binary_normalize 53 1024 z 0 false.

(** [seconds + microsecond / 1e6] as C computes it on doubles: the division
    is rounded, then the sum is. *)
Definition seconds_plus_micros (seconds microsecond : Z) : pyfloat :=
  binary64 (SFadd 53 1024 (b64_of_Z seconds)
              (SFdiv 53 1024 (b64_of_Z microsecond) (b64_of_Z 1000000))).

(** [float(text)], for the texts that are decimal integer literals: the only
    text the module itself converts is [str(int)]. *)
Definition float_of_text (s : string) : option pyfloat :=
  option_map (fun d => mkFloat (Z.of_int d) 0) (NilZero.int_of_string s).

(** [host.startswith('.')]. *)
Definition startswith_dot (v : pyval) : result bool :=
  match v with
  | PStr s => Ok (String.prefix "." s)
  | PBytes _ => raise TypeError "startswith first arg must be bytes or a tuple of bytes, not str"
  | _ => raise AttributeError "object has no attribute 'startswith'"
  end.

(** ASCII letters in lower case, as [bytes.lower] has them. *)
Definition lower_ascii (c : ascii) : ascii :=
  let n := N_of_ascii c in
  if ((65 <=? n) && (n <=? 90))%N then ascii_of_N (n + 32) else c.

Fixpoint lower_str (s : string) : string :=
  match s with
  | EmptyString => EmptyString
  | String c s' => String (lower_ascii c) (lower_str s')
  end.

(** The scalar value that the bytes of one character encode in UTF-8; [None]
    for other bytes, those of a surrogate among them. *)
Definition utf8_decode (chunk : string) : option N :=
  let cont (b : N) : bool := ((128 <=? b) && (b <=? 191))%N in
  match map N_of_ascii (list_ascii_of_string chunk) with
  | [a] => if (a <? 128)%N then Some a else None
  | [a; b] =>
      if ((194 <=? a) && (a <=? 223))%N && cont b
      then Some ((a - 192) * 64 + (b - 128))%N
      else None
  | [a; b; c] =>
      let n := ((a - 224) * 4096 + (b - 128) * 64 + (c - 128))%N in
      if ((224 <=? a) && (a <=? 239))%N && cont b && cont c
         && (2048 <=? n)%N && negb ((55296 <=? n) && (n <=? 57343))%N
      then Some n
      else None
  | [a; b; c; d] =>
      let n := ((a - 240) * 262144 + (b - 128) * 4096 + (c - 128) * 64 + (d - 128))%N in
      if ((240 <=? a) && (a <=? 244))%N && cont b && cont c && cont d
         && ((65536 <=? n) && (n <=? 1114111))%N
      then Some n
      else None
  | _ => None
  end.

Definition utf8_encode (n : N) : string :=
  if (n <? 128)%N then String (ascii_of_N n) ""
  else if (n <? 2048)%N then
    String (ascii_of_N (192 + n / 64))
      (String (ascii_of_N (128 + n mod 64)) "")
  else if (n <? 65536)%N then
    String (ascii_of_N (224 + n / 4096))
      (String (ascii_of_N (128 + (n / 64) mod 64))
         (String (ascii_of_N (128 + n mod 64)) ""))
  else
    String (ascii_of_N (240 + (n / 262144) mod 8))
      (String (ascii_of_N (128 + (n / 4096) mod 64))
         (String (ascii_of_N (128 + (n / 64) mod 64))
            (String (ascii_of_N (128 + n mod 64)) ""))).

(** The lower-case mapping of the characters outside ASCII (Unicode 14.0, the
    tables of CPython 3.11), in runs: the characters [first], [first + step],
    ... up to [last] map to [target], [target + step], ...  [U+0130] and
    [U+03A3] are apart. *)
Definition lower_table : list (N * N * N * N) :=
  [
   (192, 214, 1, 224); (216, 222, 1, 248); (256, 302, 2, 257); (306, 310, 2, 307); (313, 327, 2,
   314); (330, 374, 2, 331); (376, 376, 1, 255); (377, 381, 2, 378); (385, 385, 1, 595); (386, 388,
   2, 387); (390, 390, 1, 596); (391, 391, 1, 392); (393, 394, 1, 598); (395, 395, 1, 396); (398,
   398, 1, 477); (399, 399, 1, 601); (400, 400, 1, 603); (401, 401, 1, 402); (403, 403, 1, 608);
   (404, 404, 1, 611); (406, 406, 1, 617); (407, 407, 1, 616); (408, 408, 1, 409); (412, 412, 1,
   623); (413, 413, 1, 626); (415, 415, 1, 629); (416, 420, 2, 417); (422, 422, 1, 640); (423, 423,
   1, 424); (425, 425, 1, 643); (428, 428, 1, 429); (430, 430, 1, 648); (431, 431, 1, 432); (433,
   434, 1, 650); (435, 437, 2, 436); (439, 439, 1, 658); (440, 440, 1, 441); (444, 444, 1, 445);
   (452, 452, 1, 454); (453, 453, 1, 454); (455, 455, 1, 457); (456, 456, 1, 457); (458, 458, 1,
   460); (459, 475, 2, 460); (478, 494, 2, 479); (497, 497, 1, 499); (498, 500, 2, 499); (502, 502,
   1, 405); (503, 503, 1, 447); (504, 542, 2, 505); (544, 544, 1, 414); (546, 562, 2, 547); (570,
   570, 1, 11365); (571, 571, 1, 572); (573, 573, 1, 410); (574, 574, 1, 11366); (577, 577, 1,
   578); (579, 579, 1, 384); (580, 580, 1, 649); (581, 581, 1, 652); (582, 590, 2, 583); (880, 882,
   2, 881); (886, 886, 1, 887); (895, 895, 1, 1011); (902, 902, 1, 940); (904, 906, 1, 941); (908,
   908, 1, 972); (910, 911, 1, 973); (913, 929, 1, 945); (932, 939, 1, 964); (975, 975, 1, 983);
   (984, 1006, 2, 985); (1012, 1012, 1, 952); (1015, 1015, 1, 1016); (1017, 1017, 1, 1010); (1018,
   1018, 1, 1019); (1021, 1023, 1, 891); (1024, 1039, 1, 1104); (1040, 1071, 1, 1072); (1120, 1152,
   2, 1121); (1162, 1214, 2, 1163); (1216, 1216, 1, 1231); (1217, 1229, 2, 1218); (1232, 1326, 2,
   1233); (1329, 1366, 1, 1377); (4256, 4293, 1, 11520); (4295, 4295, 1, 11559); (4301, 4301, 1,
   11565); (5024, 5103, 1, 43888); (5104, 5109, 1, 5112); (7312, 7354, 1, 4304); (7357, 7359, 1,
   4349); (7680, 7828, 2, 7681); (7838, 7838, 1, 223); (7840, 7934, 2, 7841); (7944, 7951, 1,
   7936); (7960, 7965, 1, 7952); (7976, 7983, 1, 7968); (7992, 7999, 1, 7984); (8008, 8013, 1,
   8000); (8025, 8031, 2, 8017); (8040, 8047, 1, 8032); (8072, 8079, 1, 8064); (8088, 8095, 1,
   8080); (8104, 8111, 1, 8096); (8120, 8121, 1, 8112); (8122, 8123, 1, 8048); (8124, 8124, 1,
   8115); (8136, 8139, 1, 8050); (8140, 8140, 1, 8131); (8152, 8153, 1, 8144); (8154, 8155, 1,
   8054); (8168, 8169, 1, 8160); (8170, 8171, 1, 8058); (8172, 8172, 1, 8165); (8184, 8185, 1,
   8056); (8186, 8187, 1, 8060); (8188, 8188, 1, 8179); (8486, 8486, 1, 969); (8490, 8490, 1, 107);
   (8491, 8491, 1, 229); (8498, 8498, 1, 8526); (8544, 8559, 1, 8560); (8579, 8579, 1, 8580);
   (9398, 9423, 1, 9424); (11264, 11311, 1, 11312); (11360, 11360, 1, 11361); (11362, 11362, 1,
   619); (11363, 11363, 1, 7549); (11364, 11364, 1, 637); (11367, 11371, 2, 11368); (11373, 11373,
   1, 593); (11374, 11374, 1, 625); (11375, 11375, 1, 592); (11376, 11376, 1, 594); (11378, 11378,
   1, 11379); (11381, 11381, 1, 11382); (11390, 11391, 1, 575); (11392, 11490, 2, 11393); (11499,
   11501, 2, 11500); (11506, 11506, 1, 11507); (42560, 42604, 2, 42561); (42624, 42650, 2, 42625);
   (42786, 42798, 2, 42787); (42802, 42862, 2, 42803); (42873, 42875, 2, 42874); (42877, 42877, 1,
   7545); (42878, 42886, 2, 42879); (42891, 42891, 1, 42892); (42893, 42893, 1, 613); (42896,
   42898, 2, 42897); (42902, 42920, 2, 42903); (42922, 42922, 1, 614); (42923, 42923, 1, 604);
   (42924, 42924, 1, 609); (42925, 42925, 1, 620); (42926, 42926, 1, 618); (42928, 42928, 1, 670);
   (42929, 42929, 1, 647); (42930, 42930, 1, 669); (42931, 42931, 1, 43859); (42932, 42946, 2,
   42933); (42948, 42948, 1, 42900); (42949, 42949, 1, 642); (42950, 42950, 1, 7566); (42951,
   42953, 2, 42952); (42960, 42960, 1, 42961); (42966, 42968, 2, 42967); (42997, 42997, 1, 42998);
   (65313, 65338, 1, 65345); (66560, 66599, 1, 66600); (66736, 66771, 1, 66776); (66928, 66938, 1,
   66967); (66940, 66954, 1, 66979); (66956, 66962, 1, 66995); (66964, 66965, 1, 67003); (68736,
   68786, 1, 68800); (71840, 71871, 1, 71872); (93760, 93791, 1, 93792); (125184, 125217, 1,
   125218)
  ]%N.

(** The characters that are case-ignorable. *)
Definition case_ignorable_table : list (N * N) :=
  [
   (39, 39); (46, 46); (58, 58); (94, 94); (96, 96); (168, 168); (173, 173); (175, 175); (180,
   180); (183, 184); (688, 879); (884, 885); (890, 890); (900, 901); (903, 903); (1155, 1161);
   (1369, 1369); (1375, 1375); (1425, 1469); (1471, 1471); (1473, 1474); (1476, 1477); (1479,
   1479); (1524, 1524); (1536, 1541); (1552, 1562); (1564, 1564); (1600, 1600); (1611, 1631);
   (1648, 1648); (1750, 1757); (1759, 1768); (1770, 1773); (1807, 1807); (1809, 1809); (1840,
   1866); (1958, 1968); (2027, 2037); (2042, 2042); (2045, 2045); (2070, 2093); (2137, 2139);
   (2184, 2184); (2192, 2193); (2200, 2207); (2249, 2306); (2362, 2362); (2364, 2364); (2369,
   2376); (2381, 2381); (2385, 2391); (2402, 2403); (2417, 2417); (2433, 2433); (2492, 2492);
   (2497, 2500); (2509, 2509); (2530, 2531); (2558, 2558); (2561, 2562); (2620, 2620); (2625,
   2626); (2631, 2632); (2635, 2637); (2641, 2641); (2672, 2673); (2677, 2677); (2689, 2690);
   (2748, 2748); (2753, 2757); (2759, 2760); (2765, 2765); (2786, 2787); (2810, 2815); (2817,
   2817); (2876, 2876); (2879, 2879); (2881, 2884); (2893, 2893); (2901, 2902); (2914, 2915);
   (2946, 2946); (3008, 3008); (3021, 3021); (3072, 3072); (3076, 3076); (3132, 3132); (3134,
   3136); (3142, 3144); (3146, 3149); (3157, 3158); (3170, 3171); (3201, 3201); (3260, 3260);
   (3263, 3263); (3270, 3270); (3276, 3277); (3298, 3299); (3328, 3329); (3387, 3388); (3393,
   3396); (3405, 3405); (3426, 3427); (3457, 3457); (3530, 3530); (3538, 3540); (3542, 3542);
   (3633, 3633); (3636, 3642); (3654, 3662); (3761, 3761); (3764, 3772); (3782, 3782); (3784,
   3789); (3864, 3865); (3893, 3893); (3895, 3895); (3897, 3897); (3953, 3966); (3968, 3972);
   (3974, 3975); (3981, 3991); (3993, 4028); (4038, 4038); (4141, 4144); (4146, 4151); (4153,
   4154); (4157, 4158); (4184, 4185); (4190, 4192); (4209, 4212); (4226, 4226); (4229, 4230);
   (4237, 4237); (4253, 4253); (4348, 4348); (4957, 4959); (5906, 5908); (5938, 5939); (5970,
   5971); (6002, 6003); (6068, 6069); (6071, 6077); (6086, 6086); (6089, 6099); (6103, 6103);
   (6109, 6109); (6155, 6159); (6211, 6211); (6277, 6278); (6313, 6313); (6432, 6434); (6439,
   6440); (6450, 6450); (6457, 6459); (6679, 6680); (6683, 6683); (6742, 6742); (6744, 6750);
   (6752, 6752); (6754, 6754); (6757, 6764); (6771, 6780); (6783, 6783); (6823, 6823); (6832,
   6862); (6912, 6915); (6964, 6964); (6966, 6970); (6972, 6972); (6978, 6978); (7019, 7027);
   (7040, 7041); (7074, 7077); (7080, 7081); (7083, 7085); (7142, 7142); (7144, 7145); (7149,
   7149); (7151, 7153); (7212, 7219); (7222, 7223); (7288, 7293); (7376, 7378); (7380, 7392);
   (7394, 7400); (7405, 7405); (7412, 7412); (7416, 7417); (7468, 7530); (7544, 7544); (7579,
   7679); (8125, 8125); (8127, 8129); (8141, 8143); (8157, 8159); (8173, 8175); (8189, 8190);
   (8203, 8207); (8216, 8217); (8228, 8228); (8231, 8231); (8234, 8238); (8288, 8292); (8294,
   8303); (8305, 8305); (8319, 8319); (8336, 8348); (8400, 8432); (11388, 11389); (11503, 11505);
   (11631, 11631); (11647, 11647); (11744, 11775); (11823, 11823); (12293, 12293); (12330, 12333);
   (12337, 12341); (12347, 12347); (12441, 12446); (12540, 12542); (40981, 40981); (42232, 42237);
   (42508, 42508); (42607, 42610); (42612, 42621); (42623, 42623); (42652, 42655); (42736, 42737);
   (42752, 42785); (42864, 42864); (42888, 42890); (42994, 42996); (43000, 43001); (43010, 43010);
   (43014, 43014); (43019, 43019); (43045, 43046); (43052, 43052); (43204, 43205); (43232, 43249);
   (43263, 43263); (43302, 43309); (43335, 43345); (43392, 43394); (43443, 43443); (43446, 43449);
   (43452, 43453); (43471, 43471); (43493, 43494); (43561, 43566); (43569, 43570); (43573, 43574);
   (43587, 43587); (43596, 43596); (43632, 43632); (43644, 43644); (43696, 43696); (43698, 43700);
   (43703, 43704); (43710, 43711); (43713, 43713); (43741, 43741); (43756, 43757); (43763, 43764);
   (43766, 43766); (43867, 43871); (43881, 43883); (44005, 44005); (44008, 44008); (44013, 44013);
   (64286, 64286); (64434, 64450); (65024, 65039); (65043, 65043); (65056, 65071); (65106, 65106);
   (65109, 65109); (65279, 65279); (65287, 65287); (65294, 65294); (65306, 65306); (65342, 65342);
   (65344, 65344); (65392, 65392); (65438, 65439); (65507, 65507); (65529, 65531); (66045, 66045);
   (66272, 66272); (66422, 66426); (67456, 67461); (67463, 67504); (67506, 67514); (68097, 68099);
   (68101, 68102); (68108, 68111); (68152, 68154); (68159, 68159); (68325, 68326); (68900, 68903);
   (69291, 69292); (69446, 69456); (69506, 69509); (69633, 69633); (69688, 69702); (69744, 69744);
   (69747, 69748); (69759, 69761); (69811, 69814); (69817, 69818); (69821, 69821); (69826, 69826);
   (69837, 69837); (69888, 69890); (69927, 69931); (69933, 69940); (70003, 70003); (70016, 70017);
   (70070, 70078); (70089, 70092); (70095, 70095); (70191, 70193); (70196, 70196); (70198, 70199);
   (70206, 70206); (70367, 70367); (70371, 70378); (70400, 70401); (70459, 70460); (70464, 70464);
   (70502, 70508); (70512, 70516); (70712, 70719); (70722, 70724); (70726, 70726); (70750, 70750);
   (70835, 70840); (70842, 70842); (70847, 70848); (70850, 70851); (71090, 71093); (71100, 71101);
   (71103, 71104); (71132, 71133); (71219, 71226); (71229, 71229); (71231, 71232); (71339, 71339);
   (71341, 71341); (71344, 71349); (71351, 71351); (71453, 71455); (71458, 71461); (71463, 71467);
   (71727, 71735); (71737, 71738); (71995, 71996); (71998, 71998); (72003, 72003); (72148, 72151);
   (72154, 72155); (72160, 72160); (72193, 72202); (72243, 72248); (72251, 72254); (72263, 72263);
   (72273, 72278); (72281, 72283); (72330, 72342); (72344, 72345); (72752, 72758); (72760, 72765);
   (72767, 72767); (72850, 72871); (72874, 72880); (72882, 72883); (72885, 72886); (73009, 73014);
   (73018, 73018); (73020, 73021); (73023, 73029); (73031, 73031); (73104, 73105); (73109, 73109);
   (73111, 73111); (73459, 73460); (78896, 78904); (92912, 92916); (92976, 92982); (92992, 92995);
   (94031, 94031); (94095, 94111); (94176, 94177); (94179, 94180); (110576, 110579); (110581,
   110587); (110589, 110590); (113821, 113822); (113824, 113827); (118528, 118573); (118576,
   118598); (119143, 119145); (119155, 119170); (119173, 119179); (119210, 119213); (119362,
   119364); (121344, 121398); (121403, 121452); (121461, 121461); (121476, 121476); (121499,
   121503); (121505, 121519); (122880, 122886); (122888, 122904); (122907, 122913); (122915,
   122916); (122918, 122922); (123184, 123197); (123566, 123566); (123628, 123631); (125136,
   125142); (125252, 125259); (127995, 127999); (917505, 917505); (917536, 917631); (917760,
   917999)
  ]%N.

(** The cased characters that are not case-ignorable. *)
Definition cased_table : list (N * N) :=
  [
   (65, 90); (97, 122); (170, 170); (181, 181); (186, 186); (192, 214); (216, 246); (248, 442);
   (444, 447); (452, 659); (661, 687); (880, 883); (886, 887); (891, 893); (895, 895); (902, 902);
   (904, 906); (908, 908); (910, 929); (931, 1013); (1015, 1153); (1162, 1327); (1329, 1366);
   (1376, 1416); (4256, 4293); (4295, 4295); (4301, 4301); (4304, 4346); (4349, 4351); (5024,
   5109); (5112, 5117); (7296, 7304); (7312, 7354); (7357, 7359); (7424, 7467); (7531, 7543);
   (7545, 7578); (7680, 7957); (7960, 7965); (7968, 8005); (8008, 8013); (8016, 8023); (8025,
   8025); (8027, 8027); (8029, 8029); (8031, 8061); (8064, 8116); (8118, 8124); (8126, 8126);
   (8130, 8132); (8134, 8140); (8144, 8147); (8150, 8155); (8160, 8172); (8178, 8180); (8182,
   8188); (8450, 8450); (8455, 8455); (8458, 8467); (8469, 8469); (8473, 8477); (8484, 8484);
   (8486, 8486); (8488, 8488); (8490, 8493); (8495, 8500); (8505, 8505); (8508, 8511); (8517,
   8521); (8526, 8526); (8544, 8575); (8579, 8580); (9398, 9449); (11264, 11387); (11390, 11492);
   (11499, 11502); (11506, 11507); (11520, 11557); (11559, 11559); (11565, 11565); (42560, 42605);
   (42624, 42651); (42786, 42863); (42865, 42887); (42891, 42894); (42896, 42954); (42960, 42961);
   (42963, 42963); (42965, 42969); (42997, 42998); (43002, 43002); (43824, 43866); (43872, 43880);
   (43888, 43967); (64256, 64262); (64275, 64279); (65313, 65338); (65345, 65370); (66560, 66639);
   (66736, 66771); (66776, 66811); (66928, 66938); (66940, 66954); (66956, 66962); (66964, 66965);
   (66967, 66977); (66979, 66993); (66995, 67001); (67003, 67004); (68736, 68786); (68800, 68850);
   (71840, 71903); (93760, 93823); (119808, 119892); (119894, 119964); (119966, 119967); (119970,
   119970); (119973, 119974); (119977, 119980); (119982, 119993); (119995, 119995); (119997,
   120003); (120005, 120069); (120071, 120074); (120077, 120084); (120086, 120092); (120094,
   120121); (120123, 120126); (120128, 120132); (120134, 120134); (120138, 120144); (120146,
   120485); (120488, 120512); (120514, 120538); (120540, 120570); (120572, 120596); (120598,
   120628); (120630, 120654); (120656, 120686); (120688, 120712); (120714, 120744); (120746,
   120770); (120772, 120779); (122624, 122633); (122635, 122654); (125184, 125251); (127280,
   127305); (127312, 127337); (127344, 127369)
  ]%N.

Definition in_run (c : N) (r : N * N * N * N) : bool :=
  let '(first, last, step, _) := r in
  ((first <=? c) && (c <=? last) && ((c - first) mod step =? 0))%N.

(** The characters that a character becomes in lower case, when it changes. *)
Definition to_lower (c : N) : option (list N) :=
  if (c <? 128)%N then
    if ((65 <=? c) && (c <=? 90))%N then Some [(c + 32)%N] else None
  else if (c =? 304)%N then Some [105%N; 775%N]
  else
    match find (in_run c) lower_table with
    | Some (first, _, _, target) => Some [(target + (c - first))%N]
    | None => None
    end.

Definition in_ranges (t : list (N * N)) (c : option N) : bool :=
  match c with
  | Some n => existsb (fun r => ((fst r <=? n) && (n <=? snd r))%N) t
  | None => false
  end.

(** The first character that is not case-ignorable. *)
Fixpoint skip_case_ignorable (l : list (option N)) : option (option N) :=
  match l with
  | [] => None
  | c :: l' => if in_ranges case_ignorable_table c then skip_case_ignorable l' else Some c
  end.

(** The context Final_Sigma of a capital sigma: a cased character before it
    and none after it, case-ignorable characters apart.  [before] has the
    nearest character first. *)
Definition final_sigma (before after : list (option N)) : bool :=
  match skip_case_ignorable before with
  | Some c => in_ranges cased_table c
  | None => false
  end
  && match skip_case_ignorable after with
     | Some c => negb (in_ranges cased_table c)
     | None => true
     end.

(** One character in lower case, between the characters [before] it (the
    nearest first) and those after it ([rest]); bytes that are no character
    are lowered as ASCII. *)
Definition lower_char (before : list (option N)) (rest : list string) (ch : string) : string :=
  match utf8_decode ch with
  | None => lower_str ch
  | Some n =>
      if (n =? 931)%N then
        utf8_encode (if final_sigma before (map utf8_decode rest) then 962 else 963)%N
      else
        match to_lower n with
        | Some l => fold_right (fun t acc => String.append (utf8_encode t) acc) EmptyString l
        | None => ch
        end
  end.

(** [s.lower()], character by character. *)
Fixpoint lower_chars (before : list (option N)) (chars : list string) : string :=
  match chars with
  | [] => EmptyString
  | ch :: rest =>
      String.append (lower_char before rest ch)
        (lower_chars (utf8_decode ch :: before) rest)
  end.

Fixpoint assoc {V} (k : string) (d : list (string * V)) : option V :=
  match d with
  | [] => None
  | (k', v) :: d' => if String.eqb k k' then Some v else assoc k d'
  end.

(** [v.get(key, default)]. *)
Definition get (v : pyval) (key : string) (default : pyval) : result pyval :=
  match v with
  | PDict d => Ok (match assoc key d with Some x => x | None => default end)
  | _ => raise AttributeError "object has no attribute 'get'"
  end.

(** Code points of a [str], each as a one-character [str]. *)
Fixpoint codepoints (cur : option string) (s : string) : list string :=
  match s with
  | EmptyString => match cur with Some c => [c] | None => [] end
  | String c s' =>
      if is_continuation c then
        codepoints (Some (match cur with Some p => String.append p (String c "") | None => String c "" end)) s'
      else
        match cur with
        | Some p => p :: codepoints (Some (String c "")) s'
        | None => codepoints (Some (String c "")) s'
        end
  end.

Definition str_lower (s : string) : string := lower_chars [] (codepoints None s).

(** [v.lower()]. *)
Definition lower (v : pyval) : result pyval :=
  match v with
  | PStr s => Ok (PStr (str_lower s))
  | PBytes b => Ok (PBytes (list_byte_of_string (lower_str (string_of_list_byte b))))
  | _ => raise AttributeError "object has no attribute 'lower'"
  end.

(** The items of [for x in v]. *)
Definition iter (v : pyval) : result (list pyval) :=
  match v with
  | PList l => Ok l
  | PDict d => Ok (map (fun kv => PStr (fst kv)) d)
  | PStr s => Ok (map PStr (codepoints None s))
  | PBytes b => Ok (map (fun x => PInt (Z.of_N (byte_val x))) b)
  | PNone | PBool _ | PInt _ => raise TypeError "object is not iterable"
  end.

(** Keys of a [dict] must be hashable; [True == 1] and [False == 0]. *)
Definition hashable (v : pyval) : bool :=
  match v with
  | PList _ | PDict _ => false
  | _ => true
  end.

Definition key_eqb (a b : pyval) : bool :=
  match a, b with
  | PNone, PNone => true
  | PBool x, PBool y => Bool.eqb x y
  | PBool x, PInt z | PInt z, PBool x => (z =? (if x then 1 else 0))%Z
  | PInt x, PInt y => (x =? y)%Z
  | PStr x, PStr y => String.eqb x y
  | PBytes x, PBytes y => bytes_eqb x y
  | _, _ => false
  end.

(** A [dict] in insertion order: assigning to a present key keeps its place. *)
Definition dict (V : Type) : Type := list (pyval * V).

Fixpoint dict_get {V} (k : pyval) (d : dict V) : option V :=
  match d with
  | [] => None
  | (k', v) :: d' => if key_eqb k k' then Some v else dict_get k d'
  end.

Fixpoint dict_set {V} (k : pyval) (v : V) (d : dict V) : dict V :=
  match d with
  | [] => [(k, v)]
  | (k', v') :: d' => if key_eqb k k' then (k', v) :: d' else (k', v') :: dict_set k v d'
  end.

(** ** [bytes.decode('utf-8')] (strict) *)

Definition in_range (lo hi : N) (b : Byte.byte) : bool :=
  ((lo <=? byte_val b) && (byte_val b <=? hi))%N.

Fixpoint utf8_valid (surrogatepass : bool) (fuel : nat) (l : bytes) : bool :=
  match fuel with
  | O => match l with [] => true | _ => false end
  | S fuel' =>
      match l with
      | [] => true
      | a :: r =>
          if in_range 0 127 a then utf8_valid surrogatepass fuel' r
          else if in_range 194 223 a then
            match r with
            | b :: r' => in_range 128 191 b && utf8_valid surrogatepass fuel' r'
            | _ => false
            end
          else if in_range 224 239 a then
            match r with
            | b :: c :: r' =>
                (if (byte_val a =? 224)%N then in_range 160 191 b
                 else if (byte_val a =? 237)%N && negb surrogatepass then in_range 128 159 b
                 else in_range 128 191 b)
                && in_range 128 191 c && utf8_valid surrogatepass fuel' r'
            | _ => false
            end
          else if in_range 240 244 a then
            match r with
            | b :: c :: d :: r' =>
                (if (byte_val a =? 240)%N then in_range 144 191 b
                 else if (byte_val a =? 244)%N then in_range 128 143 b
                 else in_range 128 191 b)
                && in_range 128 191 c && in_range 128 191 d && utf8_valid surrogatepass fuel' r'
            | _ => false
            end
          else false
      end
  end.

Definition decode_utf8 (l : bytes) : result string :=
  if utf8_valid false (List.length l) l then Ok (string_of_list_byte l)
  else raise UnicodeDecodeError "'utf-8' codec can't decode byte".

(** [l.decode('utf-8', 'surrogatepass')], as [json.loads] decodes [bytes]. *)
Definition decode_utf8_surrogatepass (l : bytes) : result string :=
  if utf8_valid true (List.length l) l then Ok (string_of_list_byte l)
  else raise UnicodeDecodeError "'utf-8' codec can't decode byte".

(** ** Printing: an outcome together with the lines written to stdout *)

Definition out (A : Type) : Type := (result A * list string)%type.

Definition oret {A} (a : A) : out A := (Ok a, []).

Definition lift {A} (r : result A) : out A := (r, []).

Definition print (line : string) : out unit := (Ok tt, [line]).

Definition obind {A B} (c : out A) (k : A -> out B) : out B :=
  match fst c with
  | Ok a => (fst (k a), snd c ++ snd (k a))
  | Raise e => (Raise e, snd c)
  end.

(** [try: body  except (classes) as e: handler e  else: orelse x]. *)
Definition try_except_else {A B} (body : result A) (classes : list pyclass)
    (handler : exn -> out B) (orelse : A -> out B) : out B :=
  match body with
  | Ok a => orelse a
  | Raise e => if existsb (isinstance e) classes then handler e else (Raise e, [])
  end.

(** [try: body  except (classes): handler], for a body that prints. *)
Definition otry_except {A} (body : out A) (classes : list pyclass)
    (handler : exn -> out A) : out A :=
  match fst body with
  | Ok a => body
  | Raise e =>
      if existsb (isinstance e) classes
      then (fst (handler e), snd body ++ snd (handler e))
      else body
  end.

End Py.

Export Py.

Declare Scope py_scope.
Delimit Scope py_scope with py.
Notation "x <- c ;; k" := (Py.bind c (fun x => k))
  (at level 61, c at next level, right associativity) : py_scope.
Notation "' pat <- c ;; k" := (Py.bind c (fun x => match x with pat => k end))
  (at level 61, pat pattern, c at next level, right associativity) : py_scope.
Notation "x <<- c ;; k" := (Py.obind c (fun x => k))
  (at level 61, c at next level, right associativity) : py_scope.
Local Open Scope py_scope.

(* ===================================================================== *)
(** ** [pyaes]: CBC mode of operation and the block feeder *)
(* ===================================================================== *)

Module Pyaes.
Section Cipher.

(** [AES(key).decrypt(block)], the block cipher itself, is taken as given. *)
Variable aes_decrypt_block : bytes -> bytes -> bytes.

Definition xor_byte (x y : Byte.byte) : Byte.byte :=
  match Byte.of_N (N.lxor (Byte.to_N x) (Byte.to_N y)) with
  | Some b => b
  | None => Byte.x00
  end.

(** [[ (p ^ l) for (p, l) in zip(a, b) ]]. *)
Definition xor_bytes (a b : bytes) : bytes :=
  map (fun pl => xor_byte (fst pl) (snd pl)) (combine a b).

Record AESModeOfOperationCBC : Type := mkCBC {
  cbc_key : bytes;
  last_cipherblock : bytes
}.

(** [AESModeOfOperationCBC(key, iv)]. *)
Definition new_cbc (key iv : bytes) : result AESModeOfOperationCBC :=
  if negb (List.length iv =? 16)%nat
  then raise ValueError "initialization vector must be 16 bytes"
  else if negb ((List.length key =? 16) || (List.length key =? 24) || (List.length key =? 32))%nat
  then raise ValueError "Invalid key size"
  else Ok (mkCBC key iv).

(** [AESModeOfOperationCBC.decrypt]: one block, chained on the previous one. *)
Definition cbc_decrypt (m : AESModeOfOperationCBC) (ciphertext : bytes)
  : result (bytes * AESModeOfOperationCBC) :=
  if negb (List.length ciphertext =? 16)%nat
  then raise ValueError "ciphertext block must be 16 bytes"
  else Ok (xor_bytes (aes_decrypt_block (cbc_key m) ciphertext) (last_cipherblock m),
           mkCBC (cbc_key m) ciphertext).

(** [strip_PKCS7_padding]: [data[:-pad]] with [pad] the last byte. *)
Definition strip_PKCS7_padding (data : bytes) : result bytes :=
  if negb (List.length data mod 16 =? 0)%nat then raise ValueError "invalid length"
  else
    match rev data with
    | [] => raise IndexError "index out of range"
    | lastb :: _ =>
        let pad := N.to_nat (byte_val lastb) in
        if (16 <? pad)%nat then raise ValueError "invalid padding byte"
        else if (pad =? 0)%nat then Ok []
        else Ok (firstn (List.length data - pad) data)
    end.

(** [_block_final_decrypt] with the default padding. *)
Definition block_final_decrypt (m : AESModeOfOperationCBC) (data : bytes)
  : result (bytes * AESModeOfOperationCBC) :=
  '(p, m') <- cbc_decrypt m data ;;
  r <- strip_PKCS7_padding p ;;
  Ok (r, m').

(** [_block_can_consume]. *)
Definition block_can_consume (size : nat) : nat :=
  if (16 <=? size)%nat then 16 else 0.

(** A [Decrypter]: the mode of operation and the bytes kept back; the buffer
    is [None] once the feeder has been finished. *)
Record Decrypter : Type := mkDecrypter {
  d_mode : AESModeOfOperationCBC;
  d_buffer : option bytes
}.

Definition new_decrypter (m : AESModeOfOperationCBC) : Decrypter :=
  mkDecrypter m (Some []).

(** The [while len(self._buffer) > 16] loop of [BlockFeeder.feed].  Each turn
    removes 16 bytes, so [fuel] = the length of the buffer is never exhausted
    before the loop condition fails. *)
Fixpoint feed_loop (fuel : nat) (m : AESModeOfOperationCBC) (buffer acc : bytes)
  : result (bytes * AESModeOfOperationCBC * bytes) :=
  match fuel with
  | O => Ok (acc, m, buffer)
  | S fuel' =>
      if (16 <? List.length buffer)%nat then
        let can_consume := block_can_consume (List.length buffer - 16) in
        if (can_consume =? 0)%nat then Ok (acc, m, buffer)
        else
          '(p, m') <- cbc_decrypt m (firstn can_consume buffer) ;;
          feed_loop fuel' m' (skipn can_consume buffer) (acc ++ p)
      else Ok (acc, m, buffer)
  end.

(** [BlockFeeder.feed(data)]; [data = None] finishes the feeder. *)
Definition feed (d : Decrypter) (data : option bytes) : result (bytes * Decrypter) :=
  match d_buffer d with
  | None => raise ValueError "already finished feeder"
  | Some buffer =>
      match data with
      | None =>
          '(r, m') <- block_final_decrypt (d_mode d) buffer ;;
          Ok (r, mkDecrypter m' None)
      | Some data =>
          let buffer' := buffer ++ data in
          '(acc, m', rest) <- feed_loop (List.length buffer') (d_mode d) buffer' [] ;;
          Ok (acc, mkDecrypter m' (Some rest))
      end
  end.

End Cipher.
End Pyaes.

(* ===================================================================== *)
(** ** [datetime]: naive date arithmetic and [timestamp()] *)
(* ===================================================================== *)

Module Datetime.

Definition MAXORDINAL : Z := 3652059.        (* date(9999, 12, 31).toordinal() *)
Definition ordinal_1601 : Z := 584389.       (* date(1601, 1, 1).toordinal() *)
Definition ordinal_1970 : Z := 719163.       (* date(1970, 1, 1).toordinal() *)
Definition us_per_day : Z := 86400 * 1000000.

(** A naive [datetime]: proleptic ordinal of the day and microsecond of the day. *)
Record datetime : Type := mkDatetime { dt_ordinal : Z; dt_us_of_day : Z }.

(** A normalised [timedelta]. *)
Record timedelta : Type := mkTimedelta { td_days : Z; td_us_of_day : Z }.

Definition epoch_start : datetime := mkDatetime ordinal_1601 0.   (* datetime(1601,1,1) *)

(** [timedelta(microseconds=n)]. *)
Definition timedelta_of_microseconds (n : Z) : result timedelta :=
  let days := (n / us_per_day)%Z in
  if (999999999 <? Z.abs days)%Z
  then raise OverflowError "days; must have magnitude <= 999999999"
  else Ok (mkTimedelta days (n mod us_per_day)).

(** [datetime + timedelta]. *)
Definition add (d : datetime) (delta : timedelta) : result datetime :=
  let us := (dt_us_of_day d + td_us_of_day delta)%Z in
  let days := (dt_ordinal d + td_days delta + us / us_per_day)%Z in
  if ((0 <? days) && (days <=? MAXORDINAL))%Z
  then Ok (mkDatetime days (us mod us_per_day))
  else raise OverflowError "date value out of range".

(** Seconds from 1970-01-01T00:00:00 to the wall-clock reading [d]. *)
Definition wall_seconds (d : datetime) : Z :=
  ((dt_ordinal d - ordinal_1970) * 86400 + dt_us_of_day d / 1000000)%Z.

Section Zone.

(** The platform's [localtime]: from seconds since the epoch to the local
    wall-clock reading (as seconds since 1970-01-01T00:00:00 of that reading);
    it raises [OSError] or [OverflowError] outside the platform's range. *)
Variable localtime : Z -> result Z.

Definition max_fold_seconds : Z := 24 * 3600.

(** [local(u)]: the platform's reading, which [utc_to_seconds] refuses when
    its year is not one of 1 to 9999. *)
Definition local (u : Z) : result Z :=
  lt <- localtime u ;;
  let ordinal := (lt / 86400 + ordinal_1970)%Z in
  if ((0 <? ordinal) && (ordinal <=? MAXORDINAL))%Z then Ok lt
  else raise ValueError "year is out of range".

(** [local_to_seconds] of a naive datetime with [fold = 0]: solve
    [t = local(u)] for [u]. *)
Definition local_to_seconds (t : Z) : result Z :=
  lt <- local t ;;
  let a := (lt - t)%Z in
  let u1 := (t - a)%Z in
  t1 <- local u1 ;;
  let second_try (b : Z) : result Z :=
    let u2 := (t - b)%Z in
    t2 <- local u2 ;;
    if (t2 =? t)%Z then Ok u2
    else if (t1 =? t)%Z then Ok u1
    else Ok (Z.max u1 u2) in
  if (t1 =? t)%Z then
    let u2 := (u1 - max_fold_seconds)%Z in
    lt2 <- local u2 ;;
    let b := (lt2 - u2)%Z in
    if (a =? b)%Z then Ok u1 else second_try b
  else second_try (t1 - u1)%Z.

(** [d.timestamp()] for a naive [d]: the reading is taken as local time, and
    the microseconds are added in binary64. *)
Definition timestamp (d : datetime) : result pyfloat :=
  s <- local_to_seconds (wall_seconds d) ;;
  Ok (seconds_plus_micros s (dt_us_of_day d mod 1000000)).

End Zone.
End Datetime.

(* ===================================================================== *)
(** ** [http.cookiejar]: [Cookie] and [CookieJar] *)
(* ===================================================================== *)

Module CookieJar.

(** The value given for [expires]: an object or a float. *)
Inductive expires_arg : Type :=
| EVal (v : pyval)
| EFloat (x : pyfloat).

(** [float(v)]. *)
Definition float (v : pyval) : result pyfloat :=
  match v with
  | PInt z => Ok (mkFloat z 0)
  | PBool b => Ok (mkFloat (if b then 1 else 0) 0)
  | PStr s =>
      match float_of_text s with
      | Some x => Ok x
      | None => raise ValueError "could not convert string to float"
      end
  | PBytes b =>
      match float_of_text (string_of_list_byte b) with
      | Some x => Ok x
      | None => raise ValueError "could not convert string to float"
      end
  | PNone | PList _ | PDict _ =>
      raise TypeError "float() argument must be a string or a real number"
  end.

(** The attributes of [http.cookiejar.Cookie] that the module gives a value
    other than [None], [0] or [{}].  A cookie with [expires = None] is a
    session cookie. *)
Record Cookie : Type := mkCookie {
  name : pyval;
  value : pyval;
  domain : pyval;
  domain_specified : bool;
  domain_initial_dot : bool;
  path : pyval;
  secure : pyval;
  expires : option Z;
  discard : bool
}.

(** [Cookie.__init__]: [if expires is not None: expires = int(float(expires))]
    and [self.domain = domain.lower()]. *)
Definition Cookie_init (name value domain : pyval) (domain_specified domain_initial_dot : bool)
    (path secure : pyval) (expires : expires_arg) (discard : bool) : result Cookie :=
  expires' <- match expires with
              | EVal PNone => Ok None
              | EVal v => x <- float v ;; Ok (Some (int_of_float x))
              | EFloat x => Ok (Some (int_of_float x))
              end ;;
  domain' <- lower domain ;;
  Ok (mkCookie name value domain' domain_specified domain_initial_dot path secure expires' discard).

(** [Cookie.is_expired(now)]. *)
Definition is_expired (c : Cookie) (now : Z) : bool :=
  match expires c with
  | Some e => (e <=? now)%Z
  | None => false
  end.

(** [CookieJar._cookies]: domain, then path, then name. *)
Definition jar : Type := dict (dict (dict Cookie)).

Definition empty : jar := [].

Definition hash_check (v : pyval) : result unit :=
  if hashable v then Ok tt else raise TypeError "unhashable type".

(** [CookieJar.set_cookie]. *)
Definition set_cookie (cj : jar) (c : Cookie) : result jar :=
  _ <- hash_check (domain c) ;;
  let c2 := match dict_get (domain c) cj with Some d => d | None => [] end in
  _ <- hash_check (path c) ;;
  let c3 := match dict_get (path c) c2 with Some d => d | None => [] end in
  _ <- hash_check (name c) ;;
  Ok (dict_set (domain c) (dict_set (path c) (dict_set (name c) c c3) c2) cj).

(** [iter(cj)]: every cookie, domain by domain, path by path. *)
Definition cookies (cj : jar) : list Cookie :=
  flat_map (fun dp => flat_map (fun pn => map snd (snd pn)) (snd dp)) cj.

(** The cookie stored under a (domain, path, name) key. *)
Definition lookup (cj : jar) (d p n : pyval) : option Cookie :=
  match dict_get d cj with
  | Some c2 => match dict_get p c2 with
               | Some c3 => dict_get n c3
               | None => None
               end
  | None => None
  end.

Fixpoint set_cookies (cj : jar) (l : list Cookie) : result jar :=
  match l with
  | [] => Ok cj
  | c :: l' => cj' <- set_cookie cj c ;; set_cookies cj' l'
  end.

End CookieJar.

(* ===================================================================== *)
(** ** The relational store *)
(* ===================================================================== *)

Module Sqlite.

(** A table: its column names and its rows, one cell per column. *)
Record table : Type := mkTable {
  t_name : string;
  t_columns : list string;
  t_rows : list (list pyval)
}.

Definition database : Type := list table.

(** A statement of the module: its text, as the module builds it, and the
    parts of [SELECT q_columns FROM q_table WHERE q_where like "%q_filter%"],
    the shape the text has while the filter leaves the quoted token whole. *)
Record query : Type := mkQuery {
  q_text : string;
  q_columns : list string;
  q_table : string;
  q_where : string;
  q_filter : string
}.

(** Names of tables and columns are compared without the case of ASCII
    letters. *)
Definition name_eqb (a b : string) : bool := String.eqb (lower_str a) (lower_str b).

(** The characters LIKE reads from a text in UTF-8: its code points. *)
Definition chars (s : string) : list string := codepoints None s.

(** [text LIKE pattern], character by character: [%] any sequence, [_] any one
    character, ASCII letters compared without case. *)
Fixpoint like (pattern text : list string) : bool :=
  match pattern with
  | [] => match text with [] => true | _ => false end
  | p :: pattern' =>
      if String.eqb p "%" then
        (fix star (t : list string) : bool :=
           like pattern' t ||
           match t with
           | [] => false
           | _ :: t' => star t'
           end) text
      else
        match text with
        | [] => false
        | c :: text' =>
            (String.eqb p "_" || name_eqb p c) && like pattern' text'
        end
  end.

(** LIKE reads its operands as C strings: a text ends before its first NUL. *)
Fixpoint until_nul (s : string) : string :=
  match s with
  | EmptyString => EmptyString
  | String c s' => if Ascii.eqb c Ascii.zero then EmptyString else String c (until_nul s')
  end.

Definition valid_text (s : string) : bool :=
  utf8_valid false (String.length s) (list_byte_of_string s).

(** The text a cell is compared as by LIKE: [NULL] matches nothing, and
    neither does a BLOB on an engine built with [LIKE_DOESNT_MATCH_BLOBS]. *)
Definition cell_text (like_matches_blobs : bool) (v : pyval) : option string :=
  match v with
  | PStr s => Some (until_nul s)
  | PBytes b => if like_matches_blobs then Some (until_nul (string_of_list_byte b)) else None
  | PInt z => Some (str_of_int z)
  | _ => None
  end.

(** The cells whose comparison is written out here: NULL, an INTEGER, a TEXT
    (which [sqlite3] hands over as a [str], so it is UTF-8), and a BLOB that
    is not compared at all or holds UTF-8. *)
Definition readable_cell (like_matches_blobs : bool) (v : pyval) : bool :=
  match v with
  | PNone | PInt _ => true
  | PStr s => valid_text s
  | PBytes b => negb like_matches_blobs || valid_text (string_of_list_byte b)
  | _ => false
  end.

Definition cell_like (like_matches_blobs : bool) (pattern : string) (v : pyval) : bool :=
  match cell_text like_matches_blobs v with
  | Some s => like (chars pattern) (chars s)
  | None => false
  end.

(** The cells [fetchall] hands over as they are: a TEXT becomes a [str], which
    it can when it is UTF-8. *)
Definition fetchable (v : pyval) : bool :=
  match v with
  | PStr s => valid_text s
  | _ => true
  end.

(** The filters that leave the quoted token of the statement whole and within
    what the engine takes for a pattern: UTF-8 without a double quote and
    without NUL, of at most 50000 bytes with its two [%] (the engine's
    [SQLITE_MAX_LIKE_PATTERN_LENGTH]). *)
Definition plain_filter (d : string) : bool :=
  valid_text d
  && forallb (fun c => negb (Ascii.eqb c (ascii_of_nat 34)) && negb (Ascii.eqb c Ascii.zero))
       (list_ascii_of_string d)
  && (Z.of_nat (String.length d) + 2 <=? 50000)%Z.

Fixpoint index_of (c : string) (cols : list string) : option nat :=
  match cols with
  | [] => None
  | c' :: cols' => if name_eqb c c' then Some 0%nat
                   else option_map S (index_of c cols')
  end.

Fixpoint find_table (n : string) (db : database) : option table :=
  match db with
  | [] => None
  | t :: db' => if name_eqb n (t_name t) then Some t else find_table n db'
  end.

(** Positions of the named columns, or the first name that is no column. *)
Fixpoint resolve (cols : list string) (t : table) : result (list nat) :=
  match cols with
  | [] => Ok []
  | c :: cols' =>
      match index_of c (t_columns t) with
      | Some i => l <- resolve cols' t ;; Ok (i :: l)
      | None => raise OperationalError (String.append "no such column: " c)
      end
  end.

Definition project (idx : list nat) (row : list pyval) : list pyval :=
  map (fun i => nth i row PNone) idx.

(** [cur.execute(q)] and, when it returns, [cur.fetchall()], for a statement
    with a plain filter: [Raise] is an error of [execute], [Ok] the rows that
    [fetchall] returns.  The names are resolved first, those of the result
    before those of the condition.  The quoted token ["%q_filter%"] is an
    identifier to the engine: it stands for the text only when no column has
    that name, and when the engine takes double-quoted strings at all.
    [None]: the outcome is not written out here (the token names a column, a
    cell of the compared column is not readable, or a cell of a row to return
    is not fetchable). *)
Definition execute (double_quoted_strings like_matches_blobs : bool)
    (db : database) (q : query) : option (result (list (list pyval))) :=
  match find_table (q_table q) db with
  | None => Some (raise OperationalError (String.append "no such table: " (q_table q)))
  | Some t =>
      match resolve (q_columns q) t with
      | Raise e => Some (Raise e)
      | Ok idx =>
          match index_of (q_where q) (t_columns t) with
          | None => Some (raise OperationalError (String.append "no such column: " (q_where q)))
          | Some w =>
              let pattern := String.append "%" (String.append (q_filter q) "%") in
              match index_of pattern (t_columns t) with
              | Some _ => None
              | None =>
                  if negb double_quoted_strings then
                    Some (raise OperationalError (String.append "no such column: " pattern))
                  else if forallb (fun row => readable_cell like_matches_blobs (nth w row PNone))
                            (t_rows t)
                  then
                    let rows :=
                      map (project idx)
                        (filter (fun row => cell_like like_matches_blobs pattern
                                              (nth w row PNone))
                           (t_rows t)) in
                    if forallb (forallb fetchable) rows then Some (Ok rows) else None
                  else None
              end
          end
      end
  end.

End Sqlite.

(* ===================================================================== *)
(** ** The host *)
(* ===================================================================== *)

Module Host.

Inductive reg_type : Type := REG_SZ | REG_EXPAND_SZ | REG_OTHER.

(** A parsed profile manifest: option names are lower-cased by the parser. *)
Record config : Type := mkConfig {
  cfg_defaults : list (string * string);
  cfg_sections : list (string * list (string * string))
}.

Record world : Type := mkWorld {
  sys_platform : string;
  (** the bytes of the file at a path, [None] when no file can be read there *)
  file_bytes : string -> option bytes;
  (** the paths that exist but cannot be opened and read as a file *)
  path_unreadable : string -> bool;
  glob_glob : string -> list string;
  expanduser : string -> string;
  expandvars : string -> string;
  getenv : string -> option string;
  path_join : string -> string -> string;
  path_dirname : string -> string;
  (** [QueryValueEx] of the Chrome policy key; [None] when the lookup raises [OSError] *)
  registry_UserDataDir : option (string * reg_type);
  keyring_get_password : string -> string -> option string;
  (** [PBKDF2(password, salt, iterations).read(n)] *)
  PBKDF2_read : bytes -> bytes -> Z -> nat -> bytes;
  aes_decrypt_block : bytes -> bytes -> bytes;
  (** [CryptUnprotectData]: the unsealed blob, [None] when the call fails *)
  CryptUnprotectData : bytes -> option bytes;
  (** [lz4.block.decompress]: it raises [ValueError] on a bad size header and
      [LZ4BlockError] on a block that does not decompress *)
  lz4_block_decompress : bytes -> result bytes;
  (** [json.loads] of a text: it raises [JSONDecodeError] on a text that is no
      JSON document and [RecursionError] on one that is nested too deep *)
  json_loads : string -> result pyval;
  (** [json.loads] of bytes that are not taken for UTF-8: they start with a
      byte order mark, or as a text in UTF-16 or UTF-32 does *)
  json_loads_bytes : bytes -> result pyval;
  (** the database a file of one byte or more holds; [None] when the file is
      not a database *)
  sqlite_database : bytes -> option Sqlite.database;
  (** whether the engine takes a double-quoted token that names no column for
      a string (off in a build with [SQLITE_DQS=0]) *)
  sqlite_double_quoted_strings : bool;
  (** whether LIKE compares BLOBs (off in a build with
      [SQLITE_LIKE_DOESNT_MATCH_BLOBS]) *)
  sqlite_like_matches_blobs : bool;
  (** [cur.execute(text)] on a file and, when it returns, [cur.fetchall()],
      for the statements whose outcome is not written out in [Sqlite.execute] *)
  sqlite_execute : bytes -> string -> result (result (list (list pyval)));
  (** [template.format(arg)] for a template with other braces than [{0}] *)
  str_format : string -> string -> result string;
  (** the sections of one manifest file *)
  ini_parse : bytes -> result config;
  (** [int(time.time())] *)
  time_time : Z;
  localtime : Z -> result Z
}.

Definition path_exists (w : world) (p : string) : bool :=
  match file_bytes w p with Some _ => true | None => path_unreadable w p end.

(** [open(p, 'rb').read()]. *)
Definition open_read (w : world) (p : string) : result bytes :=
  match file_bytes w p with
  | Some b => Ok b
  | None => raise OSError "cannot open the file"
  end.

(** [os.getenv(name, '')]. *)
Definition getenv_or_empty (w : world) (n : string) : string :=
  match getenv w n with Some v => v | None => "" end.

Definition update_options (new old : list (string * string)) : list (string * string) :=
  fold_left (fun acc kv =>
    if match assoc (fst kv) acc with Some _ => true | None => false end
    then map (fun kv' => if String.eqb (fst kv') (fst kv) then kv else kv') acc
    else acc ++ [kv]) new old.

Definition merge_section (acc : list (string * list (string * string)))
    (s : string * list (string * string)) : list (string * list (string * string)) :=
  match assoc (fst s) acc with
  | Some _ => map (fun s' => if String.eqb (fst s') (fst s)
                             then (fst s', update_options (snd s) (snd s')) else s') acc
  | None => acc ++ [s]
  end.

(** [config.read(filenames)]: files that are not there are passed over. *)
Fixpoint config_read (w : world) (filenames : list string) (c : config) : result config :=
  match filenames with
  | [] => Ok c
  | f :: rest =>
      match file_bytes w f with
      | None => config_read w rest c
      | Some b =>
          c' <- ini_parse w b ;;
          config_read w rest
            (mkConfig (update_options (cfg_defaults c') (cfg_defaults c))
                      (fold_left merge_section (cfg_sections c') (cfg_sections c)))
      end
  end.

(** [optionxform], which is [str.lower]. *)
Definition optionxform (name : string) : string := str_lower name.

Definition MAX_INTERPOLATION_DEPTH : nat := 10.

(** Where [_interpolate_some] is in a value: in plain text, after a [%],
    inside the name of [%(name)s], after its closing parenthesis. *)
Inductive scan : Type :=
| Plain
| Percent
| Name (acc : string)
| Closed (acc : string).

Fixpoint contains_percent (s : string) : bool :=
  match s with
  | EmptyString => false
  | String c s' => Ascii.eqb c "%" || contains_percent s'
  end.

(** [BasicInterpolation.before_get], the interpolation of [ConfigParser()]:
    [%%] is a percent sign, [%(name)s] the value of the option [name] of the
    section or of the defaults, itself interpolated when it holds a percent
    sign, down to [MAX_INTERPOLATION_DEPTH] levels; any other [%] is an
    error.  [depth_left] levels may still be entered. *)
Fixpoint interpolate (depth_left : nat) (map : string -> option string) (value : string)
    {struct depth_left} : result string :=
  match depth_left with
  | O => raise InterpolationDepthError "Recursion limit exceeded in value substitution"
  | S depth_left' =>
      (fix interpolate_some (at_ : scan) (rest : string) {struct rest} : result string :=
         match rest with
         | EmptyString =>
             match at_ with
             | Plain => Ok EmptyString
             | Percent =>
                 raise InterpolationSyntaxError "'%' must be followed by '%' or '('"
             | Name _ | Closed _ =>
                 raise InterpolationSyntaxError "bad interpolation variable reference"
             end
         | String c rest' =>
             match at_ with
             | Plain =>
                 if Ascii.eqb c "%" then interpolate_some Percent rest'
                 else r <- interpolate_some Plain rest' ;; Ok (String c r)
             | Percent =>
                 if Ascii.eqb c "%" then r <- interpolate_some Plain rest' ;; Ok (String "%" r)
                 else if Ascii.eqb c "(" then interpolate_some (Name EmptyString) rest'
                 else raise InterpolationSyntaxError "'%' must be followed by '%' or '('"
             | Name acc =>
                 if Ascii.eqb c ")" then
                   if String.eqb acc EmptyString
                   then raise InterpolationSyntaxError "bad interpolation variable reference"
                   else interpolate_some (Closed acc) rest'
                 else interpolate_some (Name (String.append acc (String c EmptyString))) rest'
             | Closed acc =>
                 if Ascii.eqb c "s" then
                   match map (optionxform acc) with
                   | None => raise InterpolationMissingOptionError "Bad value substitution"
                   | Some v =>
                       x <- (if contains_percent v then interpolate depth_left' map v
                             else Ok v) ;;
                       r <- interpolate_some Plain rest' ;;
                       Ok (String.append x r)
                   end
                 else raise InterpolationSyntaxError "bad interpolation variable reference"
             end
         end) Plain value
  end.

(** [config[section][key]]: [KeyError] when the section, or the option in the
    section and in the defaults, is missing; else the value of the option,
    interpolated. *)
Definition config_getitem (c : config) (section key : string) : result string :=
  let k := optionxform key in
  match assoc section (cfg_sections c) with
  | None => raise KeyError section
  | Some opts =>
      let map (name : string) : option string :=
        match assoc name opts with
        | Some v => Some v
        | None => assoc name (cfg_defaults c)
        end in
      match map k with
      | Some v => interpolate MAX_INTERPOLATION_DEPTH map v
      | None => raise KeyError key
      end
  end.

(** The database that [sqlite3] finds in a file: an empty file is a database
    without tables. *)
Definition database_of (w : world) (file : bytes) : option Sqlite.database :=
  match file with
  | [] => Some []
  | _ => sqlite_database w file
  end.

(** A cursor that has executed a statement: what [fetchall] will give. *)
Definition cursor : Type := result (list (list pyval)).

(** [cur.fetchall()]. *)
Definition fetchall (cur : cursor) : result (list (list pyval)) := cur.

(** [cur.execute(q)] on a cursor of [sqlite3.connect(file)].  A filter that is
    not plain bends the statement out of its shape: the engine is asked with
    the text.  Else the file is read when the names are resolved. *)
Definition sqlite_query (w : world) (file : bytes) (q : Sqlite.query) : result cursor :=
  if Sqlite.plain_filter (Sqlite.q_filter q) then
    match database_of w file with
    | None => raise DatabaseError "file is not a database"
    | Some db =>
        match Sqlite.execute (sqlite_double_quoted_strings w) (sqlite_like_matches_blobs w)
                db q with
        | Some r => rows <- r ;; Ok (Ok rows)
        | None => sqlite_execute w file (Sqlite.q_text q)
        end
    end
  else sqlite_execute w file (Sqlite.q_text q).

End Host.

Import Host.

(* ===================================================================== *)
(** ** The module [__init__.py] *)
(* ===================================================================== *)

(** A [cookie_file] argument: absent, one path, or a list of candidate paths. *)
Inductive path_arg : Type :=
| PathNone
| PathStr (s : string)
| PathList (l : list string).

Definition path_truthy (a : path_arg) : bool :=
  match a with
  | PathNone => false
  | PathStr s => negb (String.eqb s "")
  | PathList l => match l with [] => false | _ => true end
  end.

(** [a or b]. *)
Definition por (a b : path_arg) : path_arg := if path_truthy a then a else b.

(** [a or b] for two lists. *)
Definition lor {A} (a b : list A) : list A := match a with [] => b | _ => a end.

(** [template.format(arg)] for a template whose only field is [{0}]. *)
Fixpoint format0 (template arg : string) : string :=
  match template with
  | String "{" (String "0" (String "}" rest)) => String.append arg (format0 rest arg)
  | String c rest => String c (format0 rest arg)
  | EmptyString => EmptyString
  end.

(** The template has no brace but those of [{0}]. *)
Fixpoint only_field_0 (template : string) : bool :=
  match template with
  | String "{" (String "0" (String "}" rest)) => only_field_0 rest
  | String c rest => negb (Ascii.eqb c "{") && negb (Ascii.eqb c "}") && only_field_0 rest
  | EmptyString => true
  end.

(** [template.format(arg)]. *)
Definition format (w : world) (template arg : string) : result string :=
  if only_field_0 template then Ok (format0 template arg)
  else str_format w template arg.

(** [create_local_copy]: the temporary copy is represented by its bytes. *)
Definition create_local_copy (w : world) (cookie_file : string) : result bytes :=
  if path_exists w cookie_file then open_read w cookie_file
  else raise BrowserCookieError (String.append "Can not find cookie file at: " cookie_file).

Definition windows_group_policy_path (w : world) : path_arg :=
  match registry_UserDataDir w with
  | None => PathNone
  | Some (user_data_dir, type_) =>
      match type_ with
      | REG_EXPAND_SZ =>
          PathStr (path_join w (path_join w (expandvars w user_data_dir) "Default") "Cookies")
      | REG_SZ =>
          PathStr (path_join w (path_join w user_data_dir "Default") "Cookies")
      | REG_OTHER => PathNone
      end
  end.

(** [buffer.value] of a [c_char] array: the bytes before the first NUL. *)
Fixpoint c_char_value (b : bytes) : bytes :=
  match b with
  | [] => []
  | x :: b' => if Byte.eqb x Byte.x00 then [] else x :: c_char_value b'
  end.

(** [crypt_unprotect_data(cipher_text)], second component of its result. *)
Definition crypt_unprotect_data (w : world) (cipher_text : pyval) : result bytes :=
  _ <- len cipher_text ;;
  match cipher_text with
  | PBytes blob_in =>
      match CryptUnprotectData w blob_in with
      | None => raise RuntimeError "Failed to decrypt the cipher text with DPAPI"
      | Some blob_out => Ok (c_char_value blob_out)
      end
  | _ => raise TypeError "create_string_buffer: bytes expected"
  end.

(** [create_cookie]. *)
Definition create_cookie (host path secure : pyval) (expires : CookieJar.expires_arg)
    (name value : pyval) : result CookieJar.Cookie :=
  domain_specified <- startswith_dot host ;;
  domain_initial_dot <- startswith_dot host ;;
  CookieJar.Cookie_init name value host domain_specified domain_initial_dot
    path secure expires false.

Module Chrome.

Record t : Type := mk {
  salt : bytes;
  iv : bytes;
  length : nat;
  domain_name : string;
  key : option bytes;            (* set on darwin and linux only *)
  tmp_cookie_file : bytes
}.

Definition the_salt : bytes := b_ "saltysalt".
Definition the_iv : bytes := repeat Byte.x20 16.

Definition __init__ (w : world) (cookie_file : path_arg) (domain_name : string) : result t :=
  '(key, cookie_file) <-
    (if String.eqb (sys_platform w) "darwin" then
       match keyring_get_password w "Chrome Safe Storage" "Chrome" with
       | None => raise AttributeError "'NoneType' object has no attribute 'encode'"
       | Some my_pass =>
           let iterations := 1003%Z in
           let key := PBKDF2_read w (list_byte_of_string my_pass) the_salt iterations 16 in
           Ok (Some key,
               por cookie_file
                 (PathStr (expanduser w
                    "~/Library/Application Support/Google/Chrome/Default/Cookies")))
       end
     else if String.prefix "linux" (sys_platform w) then
       let my_pass := b_ "peanuts" in
       let iterations := 1%Z in
       let key := PBKDF2_read w my_pass the_salt iterations 16 in
       Ok (Some key,
           por (por (por cookie_file
             (PathStr (expanduser w "~/.config/google-chrome/Default/Cookies")))
             (PathStr (expanduser w "~/.config/chromium/Default/Cookies")))
             (PathStr (expanduser w "~/.config/google-chrome-beta/Default/Cookies")))
     else if String.eqb (sys_platform w) "win32" then
       Ok (None,
           por (por (por (por cookie_file (windows_group_policy_path w))
             (PathList (glob_glob w (path_join w (getenv_or_empty w "APPDATA")
                "..\Local\Google\Chrome\User Data\Default\Cookies"))))
             (PathList (glob_glob w (path_join w (getenv_or_empty w "LOCALAPPDATA")
                "Google\Chrome\User Data\Default\Cookies"))))
             (PathList (glob_glob w (path_join w (getenv_or_empty w "APPDATA")
                "Google\Chrome\User Data\Default\Cookies"))))
     else raise BrowserCookieError
            "OS not recognized. Works on Chrome for OSX, Windows, and Linux.") ;;
  cookie_file <-
    match cookie_file with
    | PathList [] => raise BrowserCookieError "Failed to find Chrome cookie"
    | PathList (f :: _) => Ok f
    | PathStr f => Ok f
    | PathNone => raise TypeError "stat: path should be string, bytes, os.PathLike or integer, not NoneType"
    end ;;
  tmp <- create_local_copy w cookie_file ;;
  Ok (mk the_salt the_iv 16 domain_name key tmp).

Definition _decrypt_windows_chrome (w : world) (value encrypted_value : pyval)
  : result pyval :=
  n <- len value ;;
  if negb (n =? 0)%nat then Ok value
  else if eq_empty_str encrypted_value then Ok (PStr "")
  else
    data <- crypt_unprotect_data w encrypted_value ;;
    s <- decode_utf8 data ;;
    Ok (PStr s).

(** [encrypted_value[:3] != b'v10']; an object that cannot be sliced raises. *)
Definition lacks_marker (encrypted_value : pyval) : result bool :=
  match encrypted_value with
  | PBytes b => Ok (negb (bytes_eqb (firstn 3 b) (b_ "v10")))
  | PStr _ | PList _ => Ok true
  | PNone | PBool _ | PInt _ | PDict _ => raise TypeError "object is not subscriptable"
  end.

(** Lines 210-215 of [_decrypt]: the marker-stripped ciphertext is fed to the
    decrypter in two halves, then the feeder is finished. *)
Definition decrypt_in_halves (aes : bytes -> bytes -> bytes) (key iv encrypted_value : bytes)
  : result bytes :=
  let encrypted_value_half_len := (List.length encrypted_value / 2)%nat in
  m <- Pyaes.new_cbc key iv ;;
  let cipher := Pyaes.new_decrypter m in
  '(decrypted, cipher) <- Pyaes.feed aes cipher
                            (Some (firstn encrypted_value_half_len encrypted_value)) ;;
  '(more, cipher) <- Pyaes.feed aes cipher
                       (Some (skipn encrypted_value_half_len encrypted_value)) ;;
  let decrypted := decrypted ++ more in
  '(more, cipher) <- Pyaes.feed aes cipher None ;;
  let decrypted := decrypted ++ more in
  Ok decrypted.

(** What the description of the decryption calls a single decrypt call: the
    whole ciphertext is fed at once, then the feeder is finished. *)
Definition decrypt_in_one_call (aes : bytes -> bytes -> bytes) (key iv encrypted_value : bytes)
  : result bytes :=
  m <- Pyaes.new_cbc key iv ;;
  let cipher := Pyaes.new_decrypter m in
  '(decrypted, cipher) <- Pyaes.feed aes cipher (Some encrypted_value) ;;
  '(more, cipher) <- Pyaes.feed aes cipher None ;;
  Ok (decrypted ++ more).

Definition _decrypt (w : world) (self : t) (value encrypted_value : pyval) : result pyval :=
  if String.eqb (sys_platform w) "win32" then
    _decrypt_windows_chrome w value encrypted_value
  else
    plain <- (if truthy value then Ok true else lacks_marker encrypted_value) ;;
    if (plain : bool) then Ok value
    else
      match encrypted_value with
      | PBytes ev =>
          (* Encrypted cookies should be prefixed with 'v10'. Strip it off. *)
          let encrypted_value := skipn 3 ev in
          match key self with
          | None => raise AttributeError "'Chrome' object has no attribute 'key'"
          | Some k =>
              decrypted <- decrypt_in_halves (aes_decrypt_block w) k (iv self)
                             encrypted_value ;;
              s <- decode_utf8 decrypted ;;
              Ok (PStr s)
          end
      | _ => raise TypeError "object is not subscriptable"
      end.

(** The statement sent to the store, with the name of the secure-flag column:
    the domain filter is pasted into the text by [format]. *)
Definition select_cookies (secure_column domain_name : string) : Sqlite.query :=
  Sqlite.mkQuery
    (String.append "SELECT host_key, path, "
       (String.append secure_column
          (String.append ", expires_utc, name, value, encrypted_value FROM cookies WHERE host_key like "
             (String.append dquote
                (String.append "%"
                   (String.append domain_name
                      (String.append "%" (String.append dquote ";"))))))))
    ["host_key"; "path"; secure_column; "expires_utc"; "name"; "value"; "encrypted_value"]
    "cookies" "host_key" domain_name.

(** Lines 156-165 of [load], and the [cur.fetchall()] of line 169: the query,
    the second query when the first raises [OperationalError], and the rows
    of the one that was executed. *)
Definition fetch (w : world) (self : t) : result (list (list pyval)) :=
  cur <-
    try_except
      (* chrome <=55 *)
      (sqlite_query w (tmp_cookie_file self) (select_cookies "secure" (domain_name self)))
      [OperationalError]
      (fun _ =>
         (* chrome >=56 *)
         sqlite_query w (tmp_cookie_file self)
           (select_cookies "is_secure" (domain_name self))) ;;
  fetchall cur.

(** The order of the two queries as the description of the store reader gives
    it: the newer column name first, the legacy one on [OperationalError]. *)
Definition fetch_newer_first (w : world) (self : t) : result (list (list pyval)) :=
  cur <-
    try_except
      (sqlite_query w (tmp_cookie_file self) (select_cookies "is_secure" (domain_name self)))
      [OperationalError]
      (fun _ =>
         sqlite_query w (tmp_cookie_file self) (select_cookies "secure" (domain_name self))) ;;
  fetchall cur.

(** Lines 171-175 of [load]: the [expires] handed to [create_cookie] for a row
    whose [expires_utc] cell is [item3]. *)
Definition convert_expires (w : world) (item3 : pyval) : result CookieJar.expires_arg :=
  if ne_zero item3 then
    n <- int item3 ;;
    delta <- Datetime.timedelta_of_microseconds n ;;
    expires <- Datetime.add Datetime.epoch_start delta ;;
    expires <- Datetime.timestamp (localtime w) expires ;;
    Ok (CookieJar.EFloat expires)
  else Ok (CookieJar.EVal item3).

(** The body of the [try] in the loop of [load], for one row. *)
Definition load_item (w : world) (self : t) (cj : CookieJar.jar) (item : list pyval)
  : result CookieJar.jar :=
  match item with
  | [host; path; secure; item3; name; item5; item6] =>
      expires <- convert_expires w item3 ;;
      value <- _decrypt w self item5 item6 ;;
      c <- create_cookie host path secure expires name value ;;
      CookieJar.set_cookie cj c
  | _ => raise ValueError "not enough values to unpack"
  end.

(** The loop of [load]: a row whose body raises [OverflowError] or [OSError]
    is passed over. *)
Fixpoint load_items (w : world) (self : t) (cj : CookieJar.jar) (items : list (list pyval))
  : result CookieJar.jar :=
  match items with
  | [] => Ok cj
  | item :: rest =>
      cj' <- try_except (load_item w self cj item) [OverflowError; OSError]
               (fun _ => Ok cj) ;;
      load_items w self cj' rest
  end.

Definition load (w : world) (self : t) : result CookieJar.jar :=
  items <- fetch w self ;;
  load_items w self CookieJar.empty items.

End Chrome.

Module Firefox.

Record t : Type := mk {
  tmp_cookie_file : bytes;
  session_file : string;
  session_file_lz4 : string;
  domain_name : string
}.

(** A local variable: [None] until it has been assigned. *)
Definition read_local {A} (name : string) (v : option A) : result A :=
  match v with
  | Some x => Ok x
  | None => raise UnboundLocalError
              (String.append "local variable '"
                 (String.append name "' referenced before assignment"))
  end.

(** [return none]: the name [none] is bound nowhere. *)
Definition read_global_none {A} : result A :=
  raise NameError "name 'none' is not defined".

(** The loop of [get_default_profile] over [config.sections()]; the body of
    the [try] yields [Some] path when it returns and [None] when it falls
    through to the next section. *)
Fixpoint default_profile_loop (w : world) (c : config) (sections : list string)
    (template_for_relative : string) : result string :=
  match sections with
  | [] => read_global_none
  | section :: rest =>
      returned <-
        try_except
          (d <- config_getitem c section "Default" ;;
           if String.eqb d "1" then
             r <- config_getitem c section "IsRelative" ;;
             if String.eqb r "1" then
               p <- config_getitem c section "Path" ;;
               f <- format w template_for_relative p ;;
               Ok (Some f)
             else Ok None
           else Ok None)
          [KeyError]
          (fun _ => Ok None) ;;
      match returned with
      | Some p => Ok p
      | None => default_profile_loop w c rest template_for_relative
      end
  end.

Definition get_default_profile (w : world) (profiles_ini_path : list string)
    (template_for_relative : string) : result string :=
  config <- config_read w profiles_ini_path (mkConfig [] []) ;;
  default_profile_loop w config (map fst (cfg_sections config)) template_for_relative.

Definition find_cookie_file (w : world) : result string :=
  cookie_files <-
    (if String.eqb (sys_platform w) "darwin" then
       let profiles_ini_path : option string := None in
       let profiles_ini_paths :=
         glob_glob w (expanduser w "~/Library/Application Support/Firefox/profiles.ini") in
       unassigned <- read_local "profiles_ini_path" profiles_ini_path ;;
       template <- format w "~/Library/Application Support/Firefox/Profiles/{0}/cookies.sqlite"
                     unassigned ;;
       profiles_ini_path <-
         get_default_profile w profiles_ini_paths (expanduser w template) ;;
       Ok (lor (glob_glob w (expanduser w
                  "~/Library/Application Support/Firefox/Profiles/*default/cookies.sqlite"))
               (glob_glob w profiles_ini_path))
     else if String.prefix "linux" (sys_platform w) then
       let profiles_ini_paths :=
         glob_glob w (expanduser w "~/.mozilla/firefox/profiles.ini") in
       profiles_ini_path <-
         get_default_profile w profiles_ini_paths
           (expanduser w "~/.mozilla/firefox/{0}/cookies.sqlite") ;;
       Ok (lor (glob_glob w (expanduser w "~/.mozilla/firefox/*default*/cookies.sqlite"))
               (glob_glob w profiles_ini_path))
     else if String.eqb (sys_platform w) "win32" then
       let profiles_ini_paths :=
         lor (glob_glob w (path_join w (getenv_or_empty w "APPDATA")
                             "Mozilla/Firefox/profiles.ini"))
             (glob_glob w (path_join w (getenv_or_empty w "LOCALAPPDATA")
                             "Mozilla/Firefox/profiles.ini")) in
       profiles_ini_path <-
         get_default_profile w profiles_ini_paths
           (path_join w (getenv_or_empty w "APPDATA") "Mozilla/Firefox/{0}/cookies.sqlite") ;;
       Ok (lor (lor (lor (lor
             (glob_glob w (path_join w (getenv_or_empty w "PROGRAMFILES")
                             "Mozilla Firefox/profile/cookies.sqlite"))
             (glob_glob w (path_join w (getenv_or_empty w "PROGRAMFILES(X86)")
                             "Mozilla Firefox/profile/cookies.sqlite")))
             (glob_glob w (path_join w (getenv_or_empty w "APPDATA")
                             "Mozilla/Firefox/Profiles/*default*/cookies.sqlite")))
             (glob_glob w (path_join w (getenv_or_empty w "LOCALAPPDATA")
                             "Mozilla/Firefox/Profiles/*default*/cookies.sqlite")))
             (glob_glob w profiles_ini_path))
     else raise BrowserCookieError
            (String.append "Unsupported operating system: " (sys_platform w))) ;;
  match cookie_files with
  | f :: _ => Ok f
  | [] => raise BrowserCookieError "Failed to find Firefox cookie"
  end.

Definition __init__ (w : world) (cookie_file : option string) (domain_name : string)
  : result t :=
  cookie_file <-
    match cookie_file with
    | Some f => if negb (String.eqb f "") then Ok f else find_cookie_file w
    | None => find_cookie_file w
    end ;;
  tmp <- create_local_copy w cookie_file ;;
  Ok (mk tmp
        (path_join w (path_dirname w cookie_file) "sessionstore.js")
        (path_join w (path_join w (path_dirname w cookie_file) "sessionstore-backups")
           "recovery.jsonlz4")
        domain_name).

Definition __create_session_cookie (w : world) (cookie_json : pyval)
  : result CookieJar.Cookie :=
  let expires := str_of_int (time_time w + 3600 * 24 * 7) in
  host <- get cookie_json "host" (PStr "") ;;
  path <- get cookie_json "path" (PStr "") ;;
  name <- get cookie_json "name" (PStr "") ;;
  value <- get cookie_json "value" (PStr "") ;;
  create_cookie host path (PBool false) (CookieJar.EVal (PStr expires)) name value.

(** [for cookie in cookies: cj.set_cookie(Firefox.__create_session_cookie(cookie))]. *)
Fixpoint add_cookies (w : world) (cj : CookieJar.jar) (cookies : list pyval)
  : result CookieJar.jar :=
  match cookies with
  | [] => Ok cj
  | cookie :: rest =>
      c <- __create_session_cookie w cookie ;;
      cj' <- CookieJar.set_cookie cj c ;;
      add_cookies w cj' rest
  end.

(** [for window in windows: for cookie in window.get('cookies', []): ...]. *)
Fixpoint add_windows (w : world) (cj : CookieJar.jar) (windows : list pyval)
  : result CookieJar.jar :=
  match windows with
  | [] => Ok cj
  | window :: rest =>
      cookies <- get window "cookies" (PList []) ;;
      cookies <- iter cookies ;;
      cj' <- add_cookies w cj cookies ;;
      add_windows w cj' rest
  end.

(** [json.detect_encoding(b) == 'utf-8']: the bytes start with no byte order
    mark and, when they are two, four or more, with no NUL among the first
    two. *)
Definition detect_utf8 (b : bytes) : bool :=
  let nul (x : Byte.byte) : bool := (byte_val x =? 0)%N in
  let eq (n : N) (x : Byte.byte) : bool := (byte_val x =? n)%N in
  match b with
  | x0 :: x1 :: rest =>
      negb (eq 255%N x0 && eq 254%N x1)
      && negb (eq 254%N x0 && eq 255%N x1)
      && negb (eq 239%N x0 && eq 187%N x1 && match rest with x2 :: _ => eq 191%N x2 | [] => false end)
      && match rest with
         | [_] => true
         | _ => negb (nul x0) && negb (nul x1)
         end
  | _ => true
  end.

(** What the [try] of [__add_session_cookies] does with the bytes of the
    file: [json.loads(open(self.session_file, 'rb').read().decode())]. *)
Definition read_session (w : world) (content : bytes) : result pyval :=
  s <- decode_utf8 content ;;
  json_loads w s.

(** What the [try] of [__add_session_cookies_lz4] does with the bytes of the
    file: the first 8 bytes are read and dropped, the rest is decompressed
    and parsed. *)
Definition read_session_lz4 (w : world) (content : bytes) : result pyval :=
  data <- lz4_block_decompress w (skipn 8 content) ;;
  if detect_utf8 data then
    s <- decode_utf8_surrogatepass data ;;
    json_loads w s
  else json_loads_bytes w data.

Definition __add_session_cookies (w : world) (self : t) (cj : CookieJar.jar)
  : out CookieJar.jar :=
  if negb (path_exists w (session_file self)) then oret cj
  else
    try_except_else
      (content <- open_read w (session_file self) ;;
       read_session w content)
      [ValueError]
      (fun e =>
         _ <<- print (String.append "Error parsing firefox session JSON: " (exn_msg e)) ;;
         oret cj)
      (fun json_data =>
         lift (windows <- get json_data "windows" (PList []) ;;
               windows <- iter windows ;;
               add_windows w cj windows)).

Definition __add_session_cookies_lz4 (w : world) (self : t) (cj : CookieJar.jar)
  : out CookieJar.jar :=
  if negb (path_exists w (session_file_lz4 self)) then oret cj
  else
    try_except_else
      (content <- open_read w (session_file_lz4 self) ;;
       read_session_lz4 w content)
      [ValueError]
      (fun e =>
         _ <<- print (String.append "Error parsing firefox session JSON LZ4: " (exn_msg e)) ;;
         oret cj)
      (fun json_data =>
         lift (cookies <- get json_data "cookies" (PList []) ;;
               cookies <- iter cookies ;;
               add_cookies w cj cookies)).

Definition select_cookies (domain_name : string) : Sqlite.query :=
  Sqlite.mkQuery
    (String.append "select host, path, isSecure, expiry, name, value from moz_cookies where host like "
       (String.append dquote
          (String.append "%" (String.append domain_name (String.append "%" dquote)))))
    ["host"; "path"; "isSecure"; "expiry"; "name"; "value"]
    "moz_cookies" "host" domain_name.

(** [for item in cur.fetchall(): cj.set_cookie(create_cookie( *item))]. *)
Fixpoint load_items (cj : CookieJar.jar) (items : list (list pyval))
  : result CookieJar.jar :=
  match items with
  | [] => Ok cj
  | item :: rest =>
      match item with
      | [host; path; secure; expires; name; value] =>
          c <- create_cookie host path secure (CookieJar.EVal expires) name value ;;
          cj' <- CookieJar.set_cookie cj c ;;
          load_items cj' rest
      | _ => raise TypeError "create_cookie() missing required positional arguments"
      end
  end.

(** The part of [load] that reads the store. *)
Definition load_store (w : world) (self : t) : result CookieJar.jar :=
  cur <- sqlite_query w (tmp_cookie_file self) (select_cookies (domain_name self)) ;;
  items <- fetchall cur ;;
  load_items CookieJar.empty items.

Definition load (w : world) (self : t) : out CookieJar.jar :=
  cj <<- lift (load_store w self) ;;
  cj <<- __add_session_cookies w self cj ;;
  cj <<- __add_session_cookies_lz4 w self cj ;;
  oret cj.

End Firefox.

Definition chrome (w : world) (cookie_file : path_arg) (domain_name : string)
  : result CookieJar.jar :=
  self <- Chrome.__init__ w cookie_file domain_name ;;
  Chrome.load w self.

Definition firefox (w : world) (cookie_file : option string) (domain_name : string)
  : out CookieJar.jar :=
  self <<- lift (Firefox.__init__ w cookie_file domain_name) ;;
  Firefox.load w self.

(** One turn of the loop of [load]: the cookies of a browser are copied into
    [cj]; a [BrowserCookieError] leaves [cj] as it is.  ([set_cookie] raises
    no [BrowserCookieError], so the handler never sees a half-filled jar.) *)
Definition load_from (cj : CookieJar.jar) (browser : out CookieJar.jar)
  : out CookieJar.jar :=
  otry_except
    (found <<- browser ;;
     lift (CookieJar.set_cookies cj (CookieJar.cookies found)))
    [BrowserCookieError]
    (fun _ => oret cj).

Definition load (w : world) (domain_name : string) : out CookieJar.jar :=
  let cj := CookieJar.empty in
  cj <<- load_from cj (lift (chrome w PathNone domain_name)) ;;
  cj <<- load_from cj (firefox w None domain_name) ;;
  oret cj.

(* ===================================================================== *)
(** ** Hosts and stores used in the examples *)
(* ===================================================================== *)

Module Examples.

Fixpoint lookup_bytes {V} (k : bytes) (l : list (bytes * V)) : option V :=
  match l with
  | [] => None
  | (k', v) :: l' => if bytes_eqb k k' then Some v else lookup_bytes k l'
  end.

(** [~] stands for [/home/u]. *)
Definition expand_home (p : string) : string :=
  match p with
  | String "~" rest => String.append "/home/u" rest
  | _ => p
  end.

Definition join (a b : string) : string := String.append a (String.append "/" b).

Fixpoint drop_to_slash (s : string) : string :=
  match s with
  | EmptyString => EmptyString
  | String c s' => if Ascii.eqb c "/" then s' else drop_to_slash s'
  end.

Definition dirname (p : string) : string :=
  rev_string "" (drop_to_slash (rev_string "" p)).

(** A host given by its platform, its files, what globbing finds, what the
    files hold, the lz4 codec, and the offset of the local zone from UTC in
    seconds.  The block cipher is a stand-in that returns the block. *)
Definition host (platform : string)
    (files : list (string * bytes))
    (globs : list (string * list string))
    (databases : list (bytes * Sqlite.database))
    (manifests : list (bytes * config))
    (documents : list (string * pyval))
    (lz4 : bytes -> result bytes)
    (utc_offset : Z) : world :=
  {| sys_platform := platform;
     file_bytes := fun p => assoc p files;
     path_unreadable := fun _ => false;
     glob_glob := fun p => match assoc p globs with Some l => l | None => [] end;
     expanduser := expand_home;
     expandvars := fun s => s;
     getenv := fun _ => None;
     path_join := join;
     path_dirname := dirname;
     registry_UserDataDir := None;
     keyring_get_password := fun _ _ => Some "secret";
     PBKDF2_read := fun _ _ _ n => repeat Byte.x6b n;
     aes_decrypt_block := fun _ block => block;
     CryptUnprotectData := fun _ => None;
     lz4_block_decompress := lz4;
     json_loads := fun s => match assoc s documents with
                            | Some v => Ok v
                            | None => raise JSONDecodeError "Expecting value"
                            end;
     json_loads_bytes := fun _ => raise JSONDecodeError "Expecting value";
     sqlite_database := fun b => lookup_bytes b databases;
     sqlite_double_quoted_strings := true;
     sqlite_like_matches_blobs := false;
     sqlite_execute := fun _ _ => raise OperationalError "syntax error";
     str_format := fun _ _ => raise ValueError "Single '}' encountered in format string";
     ini_parse := fun b => match lookup_bytes b manifests with
                           | Some c => Ok c
                           | None => raise ConfigParserError "File contains no section headers."
                           end;
     time_time := 1700000000;
     localtime := fun u => Ok (u + utc_offset)%Z |}.

Definition no_lz4 : bytes -> result bytes :=
  fun _ => raise LZ4BlockError "Decompression failed: corrupt input".

(** A Linux host without any browser file, in UTC. *)
Definition bare_linux : world := host "linux" [] [] [] [] [] no_lz4 0.

(** A [Chrome] object on that host holding an empty snapshot. *)
Definition a_chrome : Chrome.t :=
  Chrome.mk Chrome.the_salt Chrome.the_iv 16 "" (Some (repeat Byte.x6b 16)) [].

(** *** A Chrome store *)

Definition chrome_path : string := "/home/u/.config/google-chrome/Default/Cookies".

Definition chrome_file : bytes := b_ "chrome cookie store".

(** The [cookies] table with the given name for the secure-flag column. *)
Definition cookies_table (secure_column : string) (rows : list (list pyval)) : Sqlite.table :=
  Sqlite.mkTable "cookies"
    ["host_key"; "path"; secure_column; "expires_utc"; "name"; "value"; "encrypted_value"]
    rows.

(** 13000000000000000 microseconds after 1601-01-01T00:00:00Z is
    2012-12-14T23:06:40Z, 1355526400 seconds after 1970-01-01T00:00:00Z. *)
Definition row_sid : list pyval :=
  [PStr ".example.com"; PStr "/"; PInt 1; PInt 13000000000000000;
   PStr "sid"; PStr "abc"; PBytes []].

(** A session cookie: [expires_utc = 0]. *)
Definition row_tmp : list pyval :=
  [PStr ".example.com"; PStr "/"; PInt 0; PInt 0; PStr "tmp"; PStr "xyz"; PBytes []].

(** A timestamp beyond year 9999. *)
Definition row_far : list pyval :=
  [PStr ".example.org"; PStr "/"; PInt 0; PInt 9223372036854775807;
   PStr "far"; PStr "1"; PBytes []].

(** A timestamp cell that holds text which is no number. *)
Definition row_text : list pyval :=
  [PStr ".example.org"; PStr "/"; PInt 0; PStr "abc"; PStr "bad"; PStr "1"; PBytes []].

(** A Linux host whose Chrome store holds [table], in the zone [utc_offset]
    seconds east of UTC; no Firefox files. *)
Definition linux_with_chrome (table : Sqlite.table) (utc_offset : Z) : world :=
  host "linux" [(chrome_path, chrome_file)] [] [(chrome_file, [table])] [] []
    no_lz4 utc_offset.

(** A [Chrome] object holding the snapshot of that store. *)
Definition chrome_on_store : Chrome.t :=
  Chrome.mk Chrome.the_salt Chrome.the_iv 16 "" (Some (repeat Byte.x6b 16)) chrome_file.

(** A table that has both secure-flag columns, with different flags. *)
Definition table_both : Sqlite.table :=
  Sqlite.mkTable "cookies"
    ["host_key"; "path"; "secure"; "is_secure"; "expires_utc"; "name"; "value";
     "encrypted_value"]
    [[PStr ".example.com"; PStr "/"; PInt 0; PInt 1; PInt 0; PStr "sid"; PStr "abc";
      PBytes []]].

Definition two_block_ciphertext : bytes := b_ "ABCDEFGHIJKLMNOP0MLKJIHGFEDCBA@_".

(** *** A Firefox profile *)

Definition profiles_ini : string := "/home/u/.mozilla/firefox/profiles.ini".

Definition profiles_ini_file : bytes := b_ "[Profile0] Name=default IsRelative=1 Path=abc.default Default=1".

Definition manifest_default : config :=
  mkConfig []
    [("Profile0", [("name", "default"); ("isrelative", "1"); ("path", "abc.default");
                   ("default", "1")])].

(** A manifest whose only profile is not relative. *)
Definition manifest_absolute : config :=
  mkConfig []
    [("General", [("startwithlastprofile", "1")]);
     ("Profile0", [("name", "default"); ("isrelative", "0"); ("path", "/data/profile");
                   ("default", "1")])].

Definition firefox_path : string := "/home/u/.mozilla/firefox/abc.default/cookies.sqlite".

Definition firefox_file : bytes := b_ "firefox cookie store".

Definition moz_cookies : Sqlite.table :=
  Sqlite.mkTable "moz_cookies"
    ["id"; "name"; "value"; "host"; "path"; "expiry"; "isSecure"]
    [[PInt 1; PStr "token"; PStr "t0"; PStr ".example.net"; PStr "/"; PInt 1800000000;
      PInt 1]].

Definition session_path : string := "/home/u/.mozilla/firefox/abc.default/sessionstore.js".

Definition recovery_path : string :=
  "/home/u/.mozilla/firefox/abc.default/sessionstore-backups/recovery.jsonlz4".

Definition quoted (s : string) : string :=
  String (ascii_of_nat 34) (String.append s (String (ascii_of_nat 34) EmptyString)).

Definition concat_all (l : list string) : string := fold_right String.append EmptyString l.

(** The text of a recovery log with one cookie, and the document it parses to. *)
Definition recovery_text : string :=
  concat_all ["{"; quoted "cookies"; ": [{"; quoted "host"; ": "; quoted ".example.net";
              ", "; quoted "name"; ": "; quoted "s"; ", "; quoted "value"; ": "; quoted "v";
              "}]}"].

Definition recovery_document : pyval :=
  PDict [("cookies",
          PList [PDict [("host", PStr ".example.net"); ("name", PStr "s");
                        ("value", PStr "v")]])].

(** A codec that knows one block: the one that holds [recovery_text]. *)
Definition one_block_lz4 (b : bytes) : result bytes :=
  if bytes_eqb b (b_ "one compressed block") then Ok (list_byte_of_string recovery_text)
  else if (List.length b <? 4)%nat then raise ValueError "Input source data size too small"
  else raise LZ4BlockError
         "Decompression failed: corrupt input or insufficient space in destination buffer".

(** The 8-byte header of a recovery log. *)
Definition mozlz4_header : bytes := b_ "mozLz40" ++ [Byte.x00].

(** A Linux host with a default Firefox profile and the given further files;
    no Chrome store. *)
Definition linux_with_firefox (further : list (string * bytes)) : world :=
  host "linux"
    ((profiles_ini, profiles_ini_file) :: (firefox_path, firefox_file) :: further)
    [(profiles_ini, [profiles_ini]);
     ("/home/u/.mozilla/firefox/*default*/cookies.sqlite", [firefox_path]);
     (firefox_path, [firefox_path])]
    [(firefox_file, [moz_cookies])]
    [(profiles_ini_file, manifest_default)]
    [(recovery_text, recovery_document)]
    one_block_lz4 0.

(** The [Firefox] object for that profile. *)
Definition a_firefox : Firefox.t :=
  Firefox.mk firefox_file session_path recovery_path "".

(** That host with a recovery log in good order and no plain session log. *)
Definition linux_with_recovery_only : world :=
  linux_with_firefox [(recovery_path, mozlz4_header ++ b_ "one compressed block")].

(** That host with a recovery log whose block is garbage. *)
Definition linux_with_corrupt_recovery : world :=
  linux_with_firefox [(recovery_path, mozlz4_header ++ b_ "garbage")].

(** That host with a session log that is no JSON and a recovery log cut short
    inside its header. *)
Definition linux_with_unparseable_logs : world :=
  linux_with_firefox [(session_path, b_ "not json"); (recovery_path, b_ "moz")].

(** A Linux host whose manifest has no profile that is default and relative. *)
Definition linux_with_absolute_profile : world :=
  host "linux" [(profiles_ini, profiles_ini_file)] [(profiles_ini, [profiles_ini])] []
    [(profiles_ini_file, manifest_absolute)] [] no_lz4 0.

(** A Linux host whose Chrome store has neither secure-flag column. *)
Definition linux_with_odd_chrome : world :=
  linux_with_chrome
    (Sqlite.mkTable "cookies"
       ["host_key"; "path"; "expires_utc"; "name"; "value"; "encrypted_value"] []) 0.

(** A macOS host whose keyring has no Chrome entry. *)
Definition macos_without_key : world :=
  {| sys_platform := "darwin";
     file_bytes := fun _ => None;
     path_unreadable := fun _ => false;
     glob_glob := fun _ => [];
     expanduser := expand_home;
     expandvars := fun s => s;
     getenv := fun _ => None;
     path_join := join;
     path_dirname := dirname;
     registry_UserDataDir := None;
     keyring_get_password := fun _ _ => None;
     PBKDF2_read := fun _ _ _ n => repeat Byte.x6b n;
     aes_decrypt_block := fun _ block => block;
     CryptUnprotectData := fun _ => None;
     lz4_block_decompress := no_lz4;
     json_loads := fun _ => raise JSONDecodeError "Expecting value";
     json_loads_bytes := fun _ => raise JSONDecodeError "Expecting value";
     sqlite_database := fun _ => None;
     sqlite_double_quoted_strings := true;
     sqlite_like_matches_blobs := false;
     sqlite_execute := fun _ _ => raise OperationalError "syntax error";
     str_format := fun _ _ => raise ValueError "Single '}' encountered in format string";
     ini_parse := fun _ => raise ConfigParserError "File contains no section headers.";
     time_time := 1700000000;
     localtime := fun u => Ok u |}.

(** A Windows host without any browser file, policy entry or sealed blob. *)
Definition bare_windows : world := host "win32" [] [] [] [] [] no_lz4 0.

(** A host of a platform the module does not know. *)
Definition bare_freebsd : world := host "freebsd13" [] [] [] [] [] no_lz4 0.

(** One block that the stand-in cipher decrypts to the byte 0xff, which is no
    UTF-8 text, followed by 15 bytes of padding. *)
Definition undecodable_ciphertext : bytes := Byte.xdf :: repeat Byte.x2f 15.

(** A Linux host that has a Chromium store and no Chrome store. *)
Definition linux_with_chromium_only : world :=
  host "linux" [("/home/u/.config/chromium/Default/Cookies", chrome_file)] []
    [(chrome_file, [cookies_table "is_secure" [row_sid]])] [] [] no_lz4 0.

(** A host that differs from [w] in its [localtime] only. *)
Definition with_localtime (w : world) (lt : Z -> result Z) : world :=
  {| sys_platform := sys_platform w;
     file_bytes := file_bytes w;
     path_unreadable := path_unreadable w;
     glob_glob := glob_glob w;
     expanduser := expanduser w;
     expandvars := expandvars w;
     getenv := getenv w;
     path_join := path_join w;
     path_dirname := path_dirname w;
     registry_UserDataDir := registry_UserDataDir w;
     keyring_get_password := keyring_get_password w;
     PBKDF2_read := PBKDF2_read w;
     aes_decrypt_block := aes_decrypt_block w;
     CryptUnprotectData := CryptUnprotectData w;
     lz4_block_decompress := lz4_block_decompress w;
     json_loads := json_loads w;
     json_loads_bytes := json_loads_bytes w;
     sqlite_database := sqlite_database w;
     sqlite_double_quoted_strings := sqlite_double_quoted_strings w;
     sqlite_like_matches_blobs := sqlite_like_matches_blobs w;
     sqlite_execute := sqlite_execute w;
     str_format := str_format w;
     ini_parse := ini_parse w;
     time_time := time_time w;
     localtime := lt |}.

(** A [localtime] that rejects the seconds before 1970, as on Windows. *)
Definition localtime_from_1970 (u : Z) : result Z :=
  if (u <? 0)%Z then raise OSError "[Errno 22] Invalid argument" else Ok u.

(** A [Chrome] object as [__init__] leaves it on win32: no key. *)
Definition a_windows_chrome : Chrome.t :=
  Chrome.mk Chrome.the_salt Chrome.the_iv 16 "" None [].

(** A Windows host whose Chrome policy names a user data directory, with a
    Chrome store at the default place only. *)
Definition windows_with_policy : world :=
  {| sys_platform := "win32";
     file_bytes := fun p => assoc p [("C:/Users/u/AppData/Local/Google/Chrome/Cookies",
                                      chrome_file)];
     path_unreadable := fun _ => false;
     glob_glob := fun _ => ["C:/Users/u/AppData/Local/Google/Chrome/Cookies"];
     expanduser := fun s => s;
     expandvars := fun s => s;
     getenv := fun _ => Some "C:/Users/u/AppData";
     path_join := join;
     path_dirname := dirname;
     registry_UserDataDir := Some ("D:/policy", REG_SZ);
     keyring_get_password := fun _ _ => None;
     PBKDF2_read := fun _ _ _ n => repeat Byte.x6b n;
     aes_decrypt_block := fun _ block => block;
     CryptUnprotectData := fun _ => None;
     lz4_block_decompress := no_lz4;
     json_loads := fun _ => raise JSONDecodeError "Expecting value";
     json_loads_bytes := fun _ => raise JSONDecodeError "Expecting value";
     sqlite_database := fun _ => None;
     sqlite_double_quoted_strings := true;
     sqlite_like_matches_blobs := false;
     sqlite_execute := fun _ _ => raise OperationalError "syntax error";
     str_format := fun _ _ => raise ValueError "Single '}' encountered in format string";
     ini_parse := fun _ => raise ConfigParserError "File contains no section headers.";
     time_time := 1700000000;
     localtime := fun u => Ok u |}.

(** A Linux host with a Chrome store and a Firefox profile that hold a cookie
    under the same key. *)
Definition linux_with_both : world :=
  host "linux"
    [(chrome_path, chrome_file); (profiles_ini, profiles_ini_file);
     (firefox_path, firefox_file)]
    [(profiles_ini, [profiles_ini]);
     ("/home/u/.mozilla/firefox/*default*/cookies.sqlite", [firefox_path]);
     (firefox_path, [firefox_path])]
    [(chrome_file,
      [cookies_table "is_secure"
         [[PStr ".example.net"; PStr "/"; PInt 0; PInt 0; PStr "token"; PStr "from chrome";
           PBytes []];
          row_sid]]);
     (firefox_file, [moz_cookies])]
    [(profiles_ini_file, manifest_default)]
    [] no_lz4 0.

(** A manifest whose first profile is marked but names no path. *)
Definition manifest_two : config :=
  mkConfig []
    [("General", [("startwithlastprofile", "1")]);
     ("Profile1", [("name", "work"); ("isrelative", "1"); ("default", "1")]);
     ("Profile0", [("name", "default"); ("isrelative", "1"); ("path", "abc.default");
                   ("default", "1")])].

(** A Linux host with that manifest. *)
Definition linux_with_two_profiles : world :=
  host "linux" [(profiles_ini, profiles_ini_file)] [(profiles_ini, [profiles_ini])] []
    [(profiles_ini_file, manifest_two)] [] no_lz4 0.

(** A Linux host with a Firefox store in a [*default*] profile directory and
    no manifest; no Chrome store. *)
Definition linux_without_manifest : world :=
  host "linux" [(firefox_path, firefox_file)]
    [("/home/u/.mozilla/firefox/*default*/cookies.sqlite", [firefox_path])]
    [(firefox_file, [moz_cookies])] [] [] no_lz4 0.

(** A Linux host with a Firefox profile whose session log is the JSON text
    of an empty array. *)
Definition linux_with_array_session : world :=
  host "linux"
    [(profiles_ini, profiles_ini_file); (firefox_path, firefox_file); (session_path, b_ "[]")]
    [(profiles_ini, [profiles_ini]);
     ("/home/u/.mozilla/firefox/*default*/cookies.sqlite", [firefox_path]);
     (firefox_path, [firefox_path])]
    [(firefox_file, [moz_cookies])]
    [(profiles_ini_file, manifest_default)]
    [("[]", PList [])]
    no_lz4 0.

(** Two entries of a session log for the key of the cookie of [moz_cookies]. *)
Definition session_entries : list pyval :=
  [PDict [("host", PStr ".example.net"); ("path", PStr "/"); ("name", PStr "token");
          ("value", PStr "first")];
   PDict [("host", PStr ".example.net"); ("path", PStr "/"); ("name", PStr "token");
          ("value", PStr "second")]].

(** A Windows host whose OS unseals every blob to the bytes of [abc], a NUL
    byte and further bytes. *)
Definition windows_that_unseals : world :=
  {| sys_platform := "win32";
     file_bytes := fun _ => None;
     path_unreadable := fun _ => false;
     glob_glob := fun _ => [];
     expanduser := fun s => s;
     expandvars := fun s => s;
     getenv := fun _ => None;
     path_join := join;
     path_dirname := dirname;
     registry_UserDataDir := None;
     keyring_get_password := fun _ _ => None;
     PBKDF2_read := fun _ _ _ n => repeat Byte.x6b n;
     aes_decrypt_block := fun _ block => block;
     CryptUnprotectData := fun _ => Some (b_ "abc" ++ Byte.x00 :: b_ "rest");
     lz4_block_decompress := no_lz4;
     json_loads := fun _ => raise JSONDecodeError "Expecting value";
     json_loads_bytes := fun _ => raise JSONDecodeError "Expecting value";
     sqlite_database := fun _ => None;
     sqlite_double_quoted_strings := true;
     sqlite_like_matches_blobs := false;
     sqlite_execute := fun _ _ => raise OperationalError "syntax error";
     str_format := fun _ _ => raise ValueError "Single '}' encountered in format string";
     ini_parse := fun _ => raise ConfigParserError "File contains no section headers.";
     time_time := 1700000000;
     localtime := fun u => Ok u |}.

(** A manifest as Firefox 67 and later write it, for a profile directory with
    a percent sign in its name. *)
Definition manifest_percent : config :=
  mkConfig []
    [("Install4F96D1932A9F858E",
      [("default", "Profiles/100%.default-release"); ("locked", "1")]);
     ("Profile0", [("name", "default-release"); ("isrelative", "1");
                   ("path", "Profiles/100%.default-release")])].

(** A Linux host with that manifest. *)
Definition linux_with_percent_profile : world :=
  host "linux" [(profiles_ini, profiles_ini_file)] [(profiles_ini, [profiles_ini])] []
    [(profiles_ini_file, manifest_percent)] [] no_lz4 0.

(** A [Chrome] object whose snapshot is a text, not a database. *)
Definition chrome_on_junk : Chrome.t :=
  Chrome.mk Chrome.the_salt Chrome.the_iv 16 "" (Some (repeat Byte.x6b 16))
    (b_ "not a database").

(** A row whose [host_key] is NULL, and one whose [host_key] is a BLOB. *)
Definition row_null : list pyval :=
  [PNone; PStr "/"; PInt 0; PInt 0; PStr "nul"; PStr "1"; PBytes []].

Definition row_blob : list pyval :=
  [PBytes (b_ ".example.com"); PStr "/"; PInt 0; PInt 0; PStr "blob"; PStr "1"; PBytes []].

(** A macOS host without any browser file. *)
Definition bare_macos : world := host "darwin" [] [] [] [] [] no_lz4 0.

End Examples.

(* ===================================================================== *)
(** ** Notions used in the statements *)
(* ===================================================================== *)

(** The plaintext column holds something of positive length. *)
Definition nonempty (v : pyval) : Prop := exists n, len v = Ok (S n).

(** The plaintext column is empty: [bool(value)] is false. *)
Definition empty_value (v : pyval) : Prop := truthy v = false.

Definition has_column (t : Sqlite.table) (c : string) : bool :=
  match Sqlite.index_of c (Sqlite.t_columns t) with Some _ => true | None => false end.

(** The columns both dialects of the [cookies] table have. *)
Definition common_columns : list string :=
  ["host_key"; "path"; "expires_utc"; "name"; "value"; "encrypted_value"].

(** The snapshot of [self] is a database whose [cookies] table is [t]. *)
Definition holds_cookies_table (w : world) (self : Chrome.t) (t : Sqlite.table) : Prop :=
  exists db, database_of w (Chrome.tmp_cookie_file self) = Some db /\
             Sqlite.find_table "cookies" db = Some t /\
             forallb (has_column t) common_columns = true.

(** The pattern that the filter of [self] makes. *)
Definition pattern_of (self : Chrome.t) : string :=
  String.append "%" (String.append (Chrome.domain_name self) "%").

(** The engine reads the quoted token of the statement as the pattern and can
    compare every [host_key] of [t] with it: the filter is plain, the engine
    takes double-quoted strings, no column of [t] has the name of the token,
    and every [host_key] cell is readable. *)
Definition filter_read_as_text (w : world) (self : Chrome.t) (t : Sqlite.table) : bool :=
  Sqlite.plain_filter (Chrome.domain_name self)
  && sqlite_double_quoted_strings w
  && negb (has_column t (pattern_of self))
  && match Sqlite.index_of "host_key" (Sqlite.t_columns t) with
     | Some h =>
         forallb (fun row => Sqlite.readable_cell (sqlite_like_matches_blobs w)
                               (nth h row PNone))
           (Sqlite.t_rows t)
     | None => true
     end.

(** Every TEXT cell of [t] is UTF-8: [sqlite3] hands every row over. *)
Definition texts_decodable (t : Sqlite.table) : bool :=
  forallb (forallb Sqlite.fetchable) (Sqlite.t_rows t).

(** The rows of [t] whose [host_key] matches the filter of [self], with the
    cells at the positions [idx]. *)
Definition matching_rows (w : world) (self : Chrome.t) (t : Sqlite.table) (idx : list nat)
  : list (list pyval) :=
  match Sqlite.index_of "host_key" (Sqlite.t_columns t) with
  | Some h =>
      map (Sqlite.project idx)
        (filter (fun row => Sqlite.cell_like (sqlite_like_matches_blobs w) (pattern_of self)
                              (nth h row PNone))
           (Sqlite.t_rows t))
  | None => []
  end.

(** The rows of [t] whose [host_key] LIKE can compare at all: a text or a
    number, and a BLOB where the engine compares BLOBs. *)
Definition rows_with_text (w : world) (t : Sqlite.table) : list (list pyval) :=
  match Sqlite.index_of "host_key" (Sqlite.t_columns t) with
  | Some h =>
      filter (fun row => match Sqlite.cell_text (sqlite_like_matches_blobs w)
                                 (nth h row PNone) with
                         | Some _ => true
                         | None => false
                         end)
        (Sqlite.t_rows t)
  | None => []
  end.

(** The positions in [t] of the seven selected columns, with [c] for the
    secure flag. *)
Definition selected (t : Sqlite.table) (c : string) : list nat :=
  map (fun col => match Sqlite.index_of col (Sqlite.t_columns t) with
                  | Some i => i
                  | None => 0%nat
                  end)
    ["host_key"; "path"; c; "expires_utc"; "name"; "value"; "encrypted_value"].

(** The secure-flag column [Chrome.fetch] ends up reading from [t]. *)
Definition dialect_read (t : Sqlite.table) : string :=
  if has_column t "secure" then "secure" else "is_secure".

(** The cookie that lines 171 to 177 of [Chrome.load] make of a row. *)
Definition row_cookie (w : world) (self : Chrome.t) (item : list pyval)
  : result CookieJar.Cookie :=
  match item with
  | [host; path; secure; item3; name; item5; item6] =>
      expires <- Chrome.convert_expires w item3 ;;
      value <- Chrome._decrypt w self item5 item6 ;;
      create_cookie host path secure expires name value
  | _ => raise ValueError "not enough values to unpack"
  end.

(** The cookies of a batch whose every row gives one, in the order of the
    batch. *)
Fixpoint row_cookies (w : world) (self : Chrome.t) (items : list (list pyval))
  : result (list CookieJar.Cookie) :=
  match items with
  | [] => Ok []
  | item :: rest =>
      c <- row_cookie w self item ;;
      l <- row_cookies w self rest ;;
      Ok (c :: l)
  end.

(** The exception is one the loop of [Chrome.load] passes over. *)
Definition passed_over (e : exn) : bool := existsb (isinstance e) [OverflowError; OSError].

(** The first second of year 1 and the last second of year 9999, in seconds
    from 1970-01-01T00:00:00. *)
Definition first_second : Z := (1 - Datetime.ordinal_1970) * 86400.
Definition last_second : Z := (Datetime.MAXORDINAL + 1 - Datetime.ordinal_1970) * 86400 - 1.

(** The local zone is [off] seconds east of UTC all year: so [localtime]
    answers for every time from two days before year 1 to two days after
    year 9999. *)
Definition fixed_zone (w : world) (off : Z) : Prop :=
  forall u, (first_second - 2 * 86400 <= u <= last_second + 2 * 86400)%Z ->
            localtime w u = Ok (u + off)%Z.

(** Seconds from 1601-01-01T00:00:00Z to 1970-01-01T00:00:00Z. *)
Definition seconds_1601_to_1970 : Z := 11644473600.

(** What reading the plain session artifact of [self] gives: [None] when the
    file is absent, else the outcome of the [try] body. *)
Definition plain_artifact (w : world) (self : Firefox.t) : option (result pyval) :=
  if path_exists w (Firefox.session_file self)
  then Some (content <- open_read w (Firefox.session_file self) ;;
             Firefox.read_session w content)
  else None.

(** The same for the lz4-compressed artifact. *)
Definition lz4_artifact (w : world) (self : Firefox.t) : option (result pyval) :=
  if path_exists w (Firefox.session_file_lz4 self)
  then Some (content <- open_read w (Firefox.session_file_lz4 self) ;;
             Firefox.read_session_lz4 w content)
  else None.

(** The artifact is absent, or reading it raises a [ValueError]. *)
Definition absent_or_value_error (a : option (result pyval)) : Prop :=
  match a with
  | None => True
  | Some (Raise e) => isinstance e ValueError = true
  | Some (Ok _) => False
  end.

(** The line printed for an artifact that could not be read. *)
Definition report (prefix : string) (a : option (result pyval)) : list string :=
  match a with
  | Some (Raise e) => [String.append prefix (exn_msg e)]
  | _ => []
  end.

(** A browser either gave a jar or raised [BrowserCookieError]. *)
Definition absorbed (r : result CookieJar.jar) : Prop :=
  match r with
  | Ok _ => True
  | Raise e => isinstance e BrowserCookieError = true
  end.

(** The cookies a browser contributes: none when it raised. *)
Definition found (r : result CookieJar.jar) : list CookieJar.Cookie :=
  match r with
  | Ok cj => CookieJar.cookies cj
  | Raise _ => []
  end.

(** The three keys of a cookie are hashable. *)
Definition keyed (c : CookieJar.Cookie) : Prop :=
  hashable (CookieJar.domain c) = true /\
  hashable (CookieJar.path c) = true /\
  hashable (CookieJar.name c) = true.

Definition keyed_jar (cj : CookieJar.jar) : Prop := Forall keyed (CookieJar.cookies cj).

(** The value a key is compared by: [True] and [False] are the numbers 1 and
    0; lists and dicts are no keys. *)
Definition key_norm (v : pyval) : option pyval :=
  match v with
  | PBool b => Some (PInt (if b then 1 else 0))
  | PList _ | PDict _ => None
  | _ => Some v
  end.

(** The cookie [c] is stored under the key (domain, path, name) = (d, p, n). *)
Definition same_key (c : CookieJar.Cookie) (d p n : pyval) : bool :=
  key_eqb d (CookieJar.domain c) && key_eqb p (CookieJar.path c)
  && key_eqb n (CookieJar.name c).

(** The last cookie of a sequence that is stored under the key (d, p, n). *)
Fixpoint last_with_key (l : list CookieJar.Cookie) (d p n : pyval)
  : option CookieJar.Cookie :=
  match l with
  | [] => None
  | c :: l' =>
      match last_with_key l' d p n with
      | Some c' => Some c'
      | None => if same_key c d p n then Some c else None
      end
  end.

(** The exception of a browser that [load] does not catch, if any. *)
Definition escaping (r : result CookieJar.jar) : option exn :=
  match r with
  | Ok _ => None
  | Raise e => if isinstance e BrowserCookieError then None else Some e
  end.

(** The platform is none of the three the module knows. *)
Definition unsupported (w : world) : Prop :=
  String.eqb (sys_platform w) "darwin" = false /\
  String.prefix "linux" (sys_platform w) = false /\
  String.eqb (sys_platform w) "win32" = false.

(** The one default place [Chrome()] looks at under Linux. *)
Definition google_chrome_path (w : world) : string :=
  expanduser w "~/.config/google-chrome/Default/Cookies".

(** The path [Chrome()] settles on under Linux: the path given, the first of
    the paths given, or the default place. *)
Definition linux_choice (w : world) (cookie_file : path_arg) : string :=
  match cookie_file with
  | PathStr f => if String.eqb f "" then google_chrome_path w else f
  | PathList (f :: _) => f
  | PathList [] | PathNone => google_chrome_path w
  end.

(** The key [Chrome()] derives: from the keyring password with 1003 rounds on
    macOS, from ['peanuts'] with 1 round on Linux, none on Windows. *)
Definition derived_key (w : world) : option bytes :=
  if String.eqb (sys_platform w) "darwin" then
    option_map (fun my_pass => PBKDF2_read w (list_byte_of_string my_pass) (b_ "saltysalt") 1003 16)
      (keyring_get_password w "Chrome Safe Storage" "Chrome")
  else if String.prefix "linux" (sys_platform w) then
    Some (PBKDF2_read w (b_ "peanuts") (b_ "saltysalt") 1 16)
  else None.

(** The policy path of Windows: the registry value, expanded when its type
    asks for it, with [Default/Cookies] joined to it. *)
Definition policy_path (w : world) (user_data_dir : string) (type_ : reg_type) : string :=
  path_join w
    (path_join w (match type_ with
                  | REG_EXPAND_SZ => expandvars w user_data_dir
                  | _ => user_data_dir
                  end) "Default") "Cookies".

(** What [create_cookie] gives every cookie: the domain is a text without
    ASCII capital letters, both domain flags say whether it starts with a
    dot, and [discard] is off. *)
Definition well_formed (c : CookieJar.Cookie) : Prop :=
  exists d,
    CookieJar.domain c = PStr d /\
    lower_str d = d /\
    CookieJar.domain_specified c = String.prefix "." d /\
    CookieJar.domain_initial_dot c = String.prefix "." d /\
    CookieJar.discard c = false.

(** The manifests that [find_cookie_file] reads on Linux and on Windows. *)
Definition manifest_paths (w : world) : list string :=
  if String.prefix "linux" (sys_platform w) then
    glob_glob w (expanduser w "~/.mozilla/firefox/profiles.ini")
  else
    lor (glob_glob w (path_join w (getenv_or_empty w "APPDATA")
                        "Mozilla/Firefox/profiles.ini"))
        (glob_glob w (path_join w (getenv_or_empty w "LOCALAPPDATA")
                        "Mozilla/Firefox/profiles.ini")).

(** The cookies that the entries of a session log give, in the order of the log. *)
Fixpoint session_cookies (w : world) (entries : list pyval)
  : result (list CookieJar.Cookie) :=
  match entries with
  | [] => Ok []
  | entry :: rest =>
      c <- Firefox.__create_session_cookie w entry ;;
      l <- session_cookies w rest ;;
      Ok (c :: l)
  end.

(** The marks of a section are read without another error than [KeyError],
    the error of an option that is missing: [Default], and [IsRelative] when
    it is read at all. *)
Definition mark_readable (c : config) (section : string) : Prop :=
  (forall e, config_getitem c section "Default" = Raise e -> exn_class e = KeyError) /\
  (forall e, config_getitem c section "Default" = Ok "1" ->
             config_getitem c section "IsRelative" = Raise e -> exn_class e = KeyError).

Definition marks_readable (c : config) : Prop :=
  forall section, In section (map fst (cfg_sections c)) -> mark_readable c section.

(** A section that [get_default_profile] passes over: its marks are read
    without another error than [KeyError], and when both are [1] it has no
    [Path]. *)
Definition section_passed_over (c : config) (section : string) : Prop :=
  mark_readable c section /\
  (config_getitem c section "Default" = Ok "1" ->
   config_getitem c section "IsRelative" = Ok "1" ->
   exists e, config_getitem c section "Path" = Raise e /\ exn_class e = KeyError).

(** No section of the manifest is marked both [Default=1] and [IsRelative=1]. *)
Definition no_default_relative (c : config) : Prop :=
  forall section,
    In section (map fst (cfg_sections c)) ->
    ~ (config_getitem c section "Default" = Ok "1" /\
       config_getitem c section "IsRelative" = Ok "1").

(* ===================================================================== *)
(** ** Properties *)
(* ===================================================================== *)

Lemma nonempty_truthy (v : pyval) : nonempty v -> truthy v = true.
Proof.
  intros [n H]. destruct v as [ | b | z | s | b | l | d]; simpl in H; try discriminate.
  - destruct s; [discriminate | reflexivity].
  - destruct b; [discriminate | reflexivity].
  - destruct l; [discriminate | reflexivity].
  - destruct d; [discriminate | reflexivity].
Qed.

(** C5. On both decryption strategies, a row whose plaintext [value] column is
    non-empty decrypts to that column verbatim, whatever [encrypted_value]
    holds: [_decrypt] on every platform (it hands over to
    [_decrypt_windows_chrome] on win32) and [_decrypt_windows_chrome] itself. *)
Theorem decrypt_returns_nonempty_value :
  forall (w : world) (self : Chrome.t) (value encrypted_value : pyval),
    nonempty value ->
    Chrome._decrypt w self value encrypted_value = Ok value /\
    Chrome._decrypt_windows_chrome w value encrypted_value = Ok value.
Proof.
  intros w self value ev Hne.
  assert (Hwin : Chrome._decrypt_windows_chrome w value ev = Ok value).
  { destruct Hne as [n Hn]. unfold Chrome._decrypt_windows_chrome.
    rewrite Hn. reflexivity. }
  split; [ | exact Hwin].
  unfold Chrome._decrypt.
  destruct (String.eqb (sys_platform w) "win32"); [exact Hwin | ].
  rewrite (nonempty_truthy value Hne). reflexivity.
Qed.

Lemma decrypt_returns_nonempty_value_witness :
  Chrome._decrypt Examples.bare_linux Examples.a_chrome
    (PStr "abc") (PBytes (b_ "v10-not-a-ciphertext")) = Ok (PStr "abc") /\
  Chrome._decrypt_windows_chrome Examples.bare_linux
    (PStr "abc") (PBytes (b_ "v10-not-a-ciphertext")) = Ok (PStr "abc").
Proof.
  apply (decrypt_returns_nonempty_value Examples.bare_linux Examples.a_chrome
           (PStr "abc") (PBytes (b_ "v10-not-a-ciphertext"))).
  exists 2%nat. reflexivity.
Defined.

(** C3, as the code has it. Off win32, when the plaintext [value] column is
    empty and [encrypted_value] does not begin with the marker [b'v10'],
    [_decrypt] returns [value], the empty plaintext column, not
    [encrypted_value]. *)
Theorem decrypt_without_marker_returns_value :
  forall (w : world) (self : Chrome.t) (value encrypted_value : pyval),
    String.eqb (sys_platform w) "win32" = false ->
    empty_value value ->
    Chrome.lacks_marker encrypted_value = Ok true ->
    Chrome._decrypt w self value encrypted_value = Ok value.
Proof.
  intros w self value ev Hp Hv Hm. unfold Chrome._decrypt.
  rewrite Hp, Hv, Hm. reflexivity.
Qed.

Lemma decrypt_without_marker_returns_value_witness :
  Chrome._decrypt Examples.bare_linux Examples.a_chrome (PStr "") (PBytes (b_ "abc"))
  = Ok (PStr "").
Proof.
  apply (decrypt_without_marker_returns_value Examples.bare_linux Examples.a_chrome
           (PStr "") (PBytes (b_ "abc"))); reflexivity.
Defined.

(** C3, as stated, fails: with an empty [value] and [encrypted_value = b'abc']
    (no marker) on a Linux host, [_decrypt] does not return [encrypted_value]. *)
Lemma decrypt_without_marker_not_encrypted_value :
  empty_value (PStr "") /\
  Chrome.lacks_marker (PBytes (b_ "abc")) = Ok true /\
  Chrome._decrypt Examples.bare_linux Examples.a_chrome (PStr "") (PBytes (b_ "abc"))
  <> Ok (PBytes (b_ "abc")).
Proof.
  split; [reflexivity | split; [reflexivity | ]].
  vm_compute. discriminate.
Qed.

(** *** The block feeder does not see where its input was cut *)

Section Feeding.

Variable aes : bytes -> bytes -> bytes.

Lemma feed_loop_stop (fuel : nat) (m : Pyaes.AESModeOfOperationCBC) (buffer acc : bytes) :
  (List.length buffer < 32)%nat ->
  Pyaes.feed_loop aes fuel m buffer acc = Ok (acc, m, buffer).
Proof.
  intros Hlen. destruct fuel as [ | fuel]; [reflexivity | ]. simpl.
  destruct (16 <? List.length buffer)%nat eqn:H16; [ | reflexivity].
  unfold Pyaes.block_can_consume.
  destruct (16 <=? List.length buffer - 16)%nat eqn:H32; [ | reflexivity].
  apply Nat.leb_le in H32. lia.
Qed.

Lemma feed_loop_step (fuel : nat) (m : Pyaes.AESModeOfOperationCBC) (buffer acc : bytes) :
  (32 <= List.length buffer)%nat ->
  Pyaes.feed_loop aes (S fuel) m buffer acc =
  Pyaes.feed_loop aes fuel (Pyaes.mkCBC (Pyaes.cbc_key m) (firstn 16 buffer))
    (skipn 16 buffer)
    (acc ++ Pyaes.xor_bytes (aes (Pyaes.cbc_key m) (firstn 16 buffer))
                            (Pyaes.last_cipherblock m)).
Proof.
  intros Hlen. cbn [Pyaes.feed_loop].
  assert (H16 : (16 <? List.length buffer)%nat = true) by (apply Nat.ltb_lt; lia).
  assert (H32 : (16 <=? List.length buffer - 16)%nat = true) by (apply Nat.leb_le; lia).
  rewrite H16. unfold Pyaes.block_can_consume. rewrite H32. cbn [Nat.eqb].
  unfold Pyaes.cbc_decrypt.
  rewrite firstn_length_le by lia. reflexivity.
Qed.

(** Any fuel that covers the buffer gives the same outcome. *)
Lemma feed_loop_fuel :
  forall (f1 f2 : nat) (m : Pyaes.AESModeOfOperationCBC) (buffer acc : bytes),
    (List.length buffer <= f1)%nat -> (List.length buffer <= f2)%nat ->
    Pyaes.feed_loop aes f1 m buffer acc = Pyaes.feed_loop aes f2 m buffer acc.
Proof.
  induction f1 as [ | f1 IH]; intros f2 m buffer acc H1 H2.
  - rewrite !feed_loop_stop by lia. reflexivity.
  - destruct (Nat.lt_ge_cases (List.length buffer) 32) as [Hs | Hl].
    + rewrite !feed_loop_stop by lia. reflexivity.
    + destruct f2 as [ | f2]; [lia | ].
      rewrite !feed_loop_step by lia.
      apply IH; rewrite length_skipn; lia.
Qed.

(** The accumulator only collects: what was in it stays in front. *)
Lemma feed_loop_acc :
  forall (fuel : nat) (m : Pyaes.AESModeOfOperationCBC) (buffer acc0 acc : bytes),
    Pyaes.feed_loop aes fuel m buffer (acc0 ++ acc) =
    ('(a, m', rest) <- Pyaes.feed_loop aes fuel m buffer acc ;; Ok (acc0 ++ a, m', rest)).
Proof.
  induction fuel as [ | fuel IH]; intros m buffer acc0 acc.
  - reflexivity.
  - destruct (Nat.lt_ge_cases (List.length buffer) 32) as [Hs | Hl].
    + rewrite !feed_loop_stop by lia. reflexivity.
    + rewrite !feed_loop_step by lia. rewrite <- app_assoc. apply IH.
Qed.

(** Feeding [buffer ++ data] at once is feeding [buffer], then what it left
    over followed by [data]. *)
Lemma feed_loop_app :
  forall (fuel : nat) (m : Pyaes.AESModeOfOperationCBC) (buffer data acc : bytes),
    (List.length buffer <= fuel)%nat ->
    Pyaes.feed_loop aes (List.length (buffer ++ data)) m (buffer ++ data) acc =
    ('(acc1, m1, rest1) <- Pyaes.feed_loop aes fuel m buffer acc ;;
     Pyaes.feed_loop aes (List.length (rest1 ++ data)) m1 (rest1 ++ data) acc1).
Proof.
  induction fuel as [ | fuel IH]; intros m buffer data acc Hfuel.
  - destruct buffer; [reflexivity | simpl in Hfuel; lia].
  - destruct (Nat.lt_ge_cases (List.length buffer) 32) as [Hs | Hl].
    + rewrite (feed_loop_stop (S fuel)) by lia. reflexivity.
    + rewrite (feed_loop_fuel (List.length (buffer ++ data))
                 (S (List.length (buffer ++ data)))) by lia.
      rewrite !feed_loop_step by (rewrite ?length_app; lia).
      rewrite firstn_app, skipn_app.
      replace (16 - List.length buffer)%nat with 0%nat by lia.
      rewrite firstn_O, skipn_O, app_nil_r.
      rewrite (feed_loop_fuel (List.length (buffer ++ data))
                 (List.length (skipn 16 buffer ++ data)))
        by (rewrite ?length_app, ?length_skipn; lia).
      apply IH. rewrite length_skipn. lia.
Qed.

(** Two feeds in a row give the output and the state of one feed of the
    concatenation. *)
Lemma feed_twice (d : Pyaes.Decrypter) (a b : bytes) :
  ('(out1, d1) <- Pyaes.feed aes d (Some a) ;;
   '(out2, d2) <- Pyaes.feed aes d1 (Some b) ;;
   Ok (out1 ++ out2, d2))
  = Pyaes.feed aes d (Some (a ++ b)).
Proof.
  unfold Pyaes.feed. destruct (Pyaes.d_buffer d) as [buffer | ]; [ | reflexivity].
  rewrite app_assoc.
  rewrite (feed_loop_app (List.length (buffer ++ a)) (Pyaes.d_mode d) (buffer ++ a) b [])
    by lia.
  destruct (Pyaes.feed_loop aes (List.length (buffer ++ a)) (Pyaes.d_mode d) (buffer ++ a) [])
    as [[[out1 m1] rest1] | e]; [ | reflexivity].
  cbn [Py.bind Pyaes.d_buffer Pyaes.d_mode].
  pose proof (feed_loop_acc (List.length (rest1 ++ b)) m1 (rest1 ++ b) out1 []) as Hacc.
  rewrite app_nil_r in Hacc. rewrite Hacc. clear Hacc.
  destruct (Pyaes.feed_loop aes (List.length (rest1 ++ b)) m1 (rest1 ++ b) [])
    as [[[out2 m2] rest2] | e]; reflexivity.
Qed.

End Feeding.

(** With the stand-in cipher of the example hosts, two blocks decrypt to 17
    bytes: both ways of feeding return them. *)
Example decrypt_two_blocks :
  Chrome.decrypt_in_halves (fun _ block => block) (repeat Byte.x6b 16) Chrome.the_iv
    Examples.two_block_ciphertext = Ok (b_ "abcdefghijklmnopq") /\
  Chrome.decrypt_in_one_call (fun _ block => block) (repeat Byte.x6b 16) Chrome.the_iv
    Examples.two_block_ciphertext = Ok (b_ "abcdefghijklmnopq").
Proof. split; vm_compute; reflexivity. Qed.

(** What [_decrypt] returns for a marked ciphertext is the text of what one
    call would decrypt. *)
Lemma decrypt_marked_value (w : world) (self : Chrome.t) (value : pyval) (k ct : bytes) :
  String.eqb (sys_platform w) "win32" = false ->
  empty_value value ->
  Chrome.key self = Some k ->
  Chrome._decrypt w self value (PBytes (b_ "v10" ++ ct))
  = (decrypted <- Chrome.decrypt_in_one_call (aes_decrypt_block w) k (Chrome.iv self) ct ;;
     s <- decode_utf8 decrypted ;;
     Ok (PStr s)).
Proof.
  intros Hp Hv Hk. unfold Chrome._decrypt. rewrite Hp, Hv.
  cbn [Chrome.lacks_marker b_ list_byte_of_string app firstn bytes_eqb Byte.eqb].
  change (skipn 3 (b_ "v10" ++ ct)) with ct.
  replace (Chrome.lacks_marker (PBytes (b_ "v10" ++ ct))) with (@Ok bool false)
    by (symmetry; vm_compute; reflexivity).
  cbn [Py.bind]. rewrite Hk. f_equal.
  unfold Chrome.decrypt_in_halves, Chrome.decrypt_in_one_call.
  destruct (Pyaes.new_cbc k (Chrome.iv self)) as [m | e]; [ | reflexivity].
  cbn [Py.bind].
  pose proof (feed_twice (aes_decrypt_block w) (Pyaes.new_decrypter m)
                (firstn (List.length ct / 2) ct) (skipn (List.length ct / 2) ct)) as Hcut.
  rewrite firstn_skipn in Hcut. unfold bytes in *. rewrite <- Hcut. clear Hcut.
  destruct (Pyaes.feed (aes_decrypt_block w) (Pyaes.new_decrypter m)
              (Some (firstn (List.length ct / 2) ct))) as [[out1 d1] | e]; [ | reflexivity].
  cbn [Py.bind].
  destruct (Pyaes.feed (aes_decrypt_block w) d1 (Some (skipn (List.length ct / 2) ct)))
    as [[out2 d2] | e]; [ | reflexivity].
  cbn [Py.bind].
  destruct (Pyaes.feed (aes_decrypt_block w) d2 None) as [[out3 d3] | e]; reflexivity.
Qed.

(** C6. For every marker-stripped ciphertext, key and IV, and whatever the
    block cipher, feeding the two halves one after the other and finishing the
    feeder gives exactly the outcome (plaintext, or the same error) of feeding
    the whole ciphertext in one call and finishing the feeder. *)
Theorem decrypt_in_halves_is_one_call :
  forall (aes : bytes -> bytes -> bytes) (key iv encrypted_value : bytes),
    Chrome.decrypt_in_halves aes key iv encrypted_value =
    Chrome.decrypt_in_one_call aes key iv encrypted_value.
Proof.
  intros aes key iv ev.
  unfold Chrome.decrypt_in_halves, Chrome.decrypt_in_one_call.
  destruct (Pyaes.new_cbc key iv) as [m | e]; [ | reflexivity].
  cbn [Py.bind].
  pose proof (feed_twice aes (Pyaes.new_decrypter m)
                (firstn (List.length ev / 2) ev) (skipn (List.length ev / 2) ev)) as Hcut.
  rewrite firstn_skipn in Hcut. unfold bytes in *. rewrite <- Hcut. clear Hcut.
  destruct (Pyaes.feed aes (Pyaes.new_decrypter m) (Some (firstn (List.length ev / 2) ev)))
    as [[out1 d1] | e]; [ | reflexivity].
  cbn [Py.bind].
  destruct (Pyaes.feed aes d1 (Some (skipn (List.length ev / 2) ev)))
    as [[out2 d2] | e]; [ | reflexivity].
  cbn [Py.bind].
  destruct (Pyaes.feed aes d2 None) as [[out3 d3] | e]; reflexivity.
Qed.

(** *** The store reader *)

Lemma has_column_index (t : Sqlite.table) (c : string) :
  has_column t c = true ->
  exists i, Sqlite.index_of c (Sqlite.t_columns t) = Some i.
Proof.
  unfold has_column. destruct (Sqlite.index_of c (Sqlite.t_columns t)) as [i | ].
  - intros _. exists i. reflexivity.
  - discriminate.
Qed.

Lemma has_column_missing (t : Sqlite.table) (c : string) :
  has_column t c = false -> Sqlite.index_of c (Sqlite.t_columns t) = None.
Proof.
  unfold has_column. destruct (Sqlite.index_of c (Sqlite.t_columns t)); [discriminate | reflexivity].
Qed.

(** The cells of the rows that are returned are cells of the table. *)
Lemma project_fetchable (idx : list nat) (row : list pyval) :
  forallb Sqlite.fetchable row = true ->
  forallb Sqlite.fetchable (Sqlite.project idx row) = true.
Proof.
  intros Hrow. unfold Sqlite.project. apply forallb_forall. intros v Hv.
  apply in_map_iff in Hv. destruct Hv as [i [<- _]].
  destruct (nth_in_or_default i row PNone) as [Hin | ->]; [ | reflexivity].
  exact (proj1 (forallb_forall _ _) Hrow _ Hin).
Qed.

Lemma selected_rows_fetchable (t : Sqlite.table) (idx : list nat)
    (keep : list pyval -> bool) :
  texts_decodable t = true ->
  forallb (forallb Sqlite.fetchable) (map (Sqlite.project idx) (filter keep (Sqlite.t_rows t)))
  = true.
Proof.
  unfold texts_decodable. intros Ht. apply forallb_forall. intros row Hrow.
  apply in_map_iff in Hrow. destruct Hrow as [r [<- Hr]].
  apply filter_In in Hr. destruct Hr as [Hr _].
  apply project_fetchable. exact (proj1 (forallb_forall _ _) Ht _ Hr).
Qed.

(** A query for the seven columns succeeds on a table that has them all and
    returns every row that matches the filter. *)
Lemma query_present_dialect (w : world) (self : Chrome.t) (t : Sqlite.table) (c : string) :
  holds_cookies_table w self t ->
  filter_read_as_text w self t = true ->
  texts_decodable t = true ->
  has_column t c = true ->
  sqlite_query w (Chrome.tmp_cookie_file self) (Chrome.select_cookies c (Chrome.domain_name self))
  = Ok (Ok (matching_rows w self t (selected t c))).
Proof.
  intros [db [Hdb [Ht Hcols]]] Hread Htexts Hc.
  unfold filter_read_as_text in Hread.
  apply andb_prop in Hread. destruct Hread as [Hread Hcells].
  apply andb_prop in Hread. destruct Hread as [Hread Hnocol].
  apply andb_prop in Hread. destruct Hread as [Hplain Hdqs].
  unfold sqlite_query.
  cbn [Chrome.select_cookies Sqlite.q_filter]. rewrite Hplain, Hdb.
  unfold Sqlite.execute.
  cbn [Chrome.select_cookies Sqlite.q_table Sqlite.q_columns Sqlite.q_where Sqlite.q_filter].
  rewrite Ht.
  unfold common_columns in Hcols. cbn [forallb] in Hcols.
  repeat (apply andb_prop in Hcols; destruct Hcols as [?H Hcols]).
  apply negb_true_iff in Hnocol. apply has_column_missing in Hnocol.
  unfold pattern_of in *.
  repeat match goal with
         | H : has_column t _ = true |- _ =>
             apply has_column_index in H; destruct H as [?i ?E]
         end.
  unfold matching_rows, selected, pattern_of. cbn [Sqlite.resolve map].
  repeat match goal with
         | E : Sqlite.index_of _ _ = Some _ |- _ => rewrite E in *; clear E
         end.
  cbn [Py.bind]. rewrite Hnocol, Hdqs, Hcells. cbn [negb].
  rewrite (selected_rows_fetchable t _ _ Htexts). reflexivity.
Qed.

(** A query that names a column the table lacks raises [OperationalError]. *)
Lemma query_missing_dialect (w : world) (self : Chrome.t) (t : Sqlite.table) (c : string) :
  holds_cookies_table w self t ->
  Sqlite.plain_filter (Chrome.domain_name self) = true ->
  has_column t c = false ->
  exists e,
    sqlite_query w (Chrome.tmp_cookie_file self)
      (Chrome.select_cookies c (Chrome.domain_name self)) = Raise e /\
    exn_class e = OperationalError.
Proof.
  intros [db [Hdb [Ht Hcols]]] Hplain Hc.
  unfold sqlite_query.
  cbn [Chrome.select_cookies Sqlite.q_filter]. rewrite Hplain, Hdb.
  unfold Sqlite.execute.
  cbn [Chrome.select_cookies Sqlite.q_table Sqlite.q_columns Sqlite.q_where Sqlite.q_filter].
  rewrite Ht.
  unfold common_columns in Hcols. cbn [forallb] in Hcols.
  repeat (apply andb_prop in Hcols; destruct Hcols as [?H Hcols]).
  apply has_column_missing in Hc.
  repeat match goal with
         | H : has_column t _ = true |- _ =>
             apply has_column_index in H; destruct H as [?i ?E]
         end.
  cbn [Sqlite.resolve].
  repeat match goal with
         | E : Sqlite.index_of _ _ = Some _ |- _ => rewrite E; clear E
         end.
  rewrite Hc. cbn [Py.bind].
  eexists. split; reflexivity.
Qed.

Lemma filter_read_as_text_plain (w : world) (self : Chrome.t) (t : Sqlite.table) :
  filter_read_as_text w self t = true -> Sqlite.plain_filter (Chrome.domain_name self) = true.
Proof.
  unfold filter_read_as_text. intros H.
  apply andb_prop in H. destruct H as [H _].
  apply andb_prop in H. destruct H as [H _].
  apply andb_prop in H. destruct H as [H _]. exact H.
Qed.

(** C2, as the code has it. On a snapshot whose [cookies] table has the common
    columns and at least one of the two secure-flag columns, and whose texts
    are UTF-8, and for a filter that the engine reads as the text of the
    pattern, the reader returns every row that matches the filter, read
    through the legacy column [secure] when the table has it and through
    [is_secure] only when it has not: the legacy query is the first one, the
    newer one the retry. *)
Theorem fetch_legacy_then_newer :
  forall (w : world) (self : Chrome.t) (t : Sqlite.table),
    holds_cookies_table w self t ->
    filter_read_as_text w self t = true ->
    texts_decodable t = true ->
    has_column t "secure" || has_column t "is_secure" = true ->
    Chrome.fetch w self = Ok (matching_rows w self t (selected t (dialect_read t))).
Proof.
  intros w self t Ht Hread Htexts Hsome. unfold Chrome.fetch, dialect_read.
  destruct (has_column t "secure") eqn:Hlegacy.
  - rewrite (query_present_dialect w self t "secure" Ht Hread Htexts Hlegacy). reflexivity.
  - cbn [orb] in Hsome.
    destruct (query_missing_dialect w self t "secure" Ht
                (filter_read_as_text_plain w self t Hread) Hlegacy) as [e [He Hclass]].
    rewrite He. unfold try_except, isinstance. rewrite Hclass.
    cbn [existsb issubclass pyclass_eqb orb].
    rewrite (query_present_dialect w self t "is_secure" Ht Hread Htexts Hsome). reflexivity.
Qed.

Lemma fetch_legacy_then_newer_witness :
  Chrome.fetch
    (Examples.linux_with_chrome
       (Examples.cookies_table "is_secure" [Examples.row_sid; Examples.row_tmp]) 0)
    Examples.chrome_on_store
  = Ok [Examples.row_sid; Examples.row_tmp].
Proof.
  apply (fetch_legacy_then_newer
           (Examples.linux_with_chrome
              (Examples.cookies_table "is_secure" [Examples.row_sid; Examples.row_tmp]) 0)
           Examples.chrome_on_store
           (Examples.cookies_table "is_secure" [Examples.row_sid; Examples.row_tmp])).
  - exists [Examples.cookies_table "is_secure" [Examples.row_sid; Examples.row_tmp]].
    split; [reflexivity | split; reflexivity].
  - vm_compute. reflexivity.
  - vm_compute. reflexivity.
  - reflexivity.
Defined.

(** C2, as stated, fails: on a table that has both columns, with [secure = 0]
    and [is_secure = 1] in its one row, the reader returns the row with the
    flag of the legacy column; a reader that asked with the newer name first
    would return the other flag. *)
Lemma fetch_does_not_ask_newer_first :
  Chrome.fetch (Examples.linux_with_chrome Examples.table_both 0) Examples.chrome_on_store
  = Ok [[PStr ".example.com"; PStr "/"; PInt 0; PInt 0; PStr "sid"; PStr "abc"; PBytes []]]
  /\
  Chrome.fetch_newer_first (Examples.linux_with_chrome Examples.table_both 0)
    Examples.chrome_on_store
  = Ok [[PStr ".example.com"; PStr "/"; PInt 1; PInt 0; PStr "sid"; PStr "abc"; PBytes []]]
  /\
  Chrome.fetch (Examples.linux_with_chrome Examples.table_both 0) Examples.chrome_on_store
  <> Chrome.fetch_newer_first (Examples.linux_with_chrome Examples.table_both 0)
       Examples.chrome_on_store.
Proof.
  split; [vm_compute; reflexivity | split; [vm_compute; reflexivity | ]].
  vm_compute. discriminate.
Qed.

(** With the empty filter every row whose [host_key] LIKE can compare matches. *)
Lemma like_percent (text : list string) : Sqlite.like ["%"] text = true.
Proof.
  induction text as [ | c text IH]; [reflexivity | ].
  cbn in *. rewrite IH. reflexivity.
Qed.

Lemma like_percent_percent (text : list string) :
  Sqlite.like ["%"; "%"] text = true.
Proof.
  pose proof (like_percent text) as H.
  destruct text as [ | c text]; [reflexivity | ].
  cbn in *. rewrite H. reflexivity.
Qed.

Lemma matching_rows_empty_filter (w : world) (self : Chrome.t) (t : Sqlite.table)
    (idx : list nat) :
  Chrome.domain_name self = "" ->
  matching_rows w self t idx = map (Sqlite.project idx) (rows_with_text w t).
Proof.
  intros Hd. unfold matching_rows, rows_with_text, pattern_of. rewrite Hd.
  destruct (Sqlite.index_of "host_key" (Sqlite.t_columns t)) as [h | ]; [ | reflexivity].
  f_equal. apply filter_ext. intros row. unfold Sqlite.cell_like.
  destruct (Sqlite.cell_text (sqlite_like_matches_blobs w) (nth h row PNone)) as [s | ];
    [ | reflexivity].
  change (Sqlite.chars (String.append "%" (String.append "" "%"))) with ["%"; "%"].
  apply like_percent_percent.
Qed.

(** *** Jars and their keys *)


Lemma dict_set_In {V} (k : pyval) (v : V) (d : dict V) (k' : pyval) (v' : V) :
  In (k', v') (dict_set k v d) -> v' = v \/ In (k', v') d.
Proof.
  induction d as [ | [k0 v0] d IH]; cbn [dict_set].
  - intros [[= _ <-] | []]. left. reflexivity.
  - destruct (key_eqb k k0).
    + intros [[= _ <-] | Hin]; [left; reflexivity | right; right; exact Hin].
    + intros [Heq | Hin]; [right; left; exact Heq | ].
      destruct (IH Hin) as [-> | Hd]; [left; reflexivity | right; right; exact Hd].
Qed.

Lemma dict_get_In {V} (k : pyval) (d : dict V) (v : V) :
  dict_get k d = Some v -> exists k', In (k', v) d.
Proof.
  induction d as [ | [k0 v0] d IH]; cbn [dict_get]; [discriminate | ].
  destruct (key_eqb k k0).
  - intros [= <-]. exists k0. left. reflexivity.
  - intros H. destruct (IH H) as [k' Hk']. exists k'. right. exact Hk'.
Qed.

Lemma In_cookies (cj : CookieJar.jar) (x : CookieJar.Cookie) :
  In x (CookieJar.cookies cj) <->
  exists kd c2 kp c3 kn, In (kd, c2) cj /\ In (kp, c3) c2 /\ In (kn, x) c3.
Proof.
  unfold CookieJar.cookies. rewrite in_flat_map. split.
  - intros [[kd c2] [Hd Hx]]. cbn [snd] in Hx. apply in_flat_map in Hx.
    destruct Hx as [[kp c3] [Hp Hx]]. cbn [snd] in Hx. apply in_map_iff in Hx.
    destruct Hx as [[kn y] [Hy Hn]]. cbn [snd] in Hy. subst y.
    exists kd, c2, kp, c3, kn. repeat split; assumption.
  - intros [kd [c2 [kp [c3 [kn [Hd [Hp Hn]]]]]]].
    exists (kd, c2). split; [exact Hd | ]. cbn [snd]. apply in_flat_map.
    exists (kp, c3). split; [exact Hp | ]. cbn [snd]. apply in_map_iff.
    exists (kn, x). split; [reflexivity | exact Hn].
Qed.

Ltac bind_inv H :=
  repeat match type of H with
         | Py.bind ?c _ = Ok _ =>
             let E := fresh "E" in
             destruct c eqn:E; cbn [Py.bind] in H; [ | discriminate H]
         end.

Lemma set_cookie_keyed (cj cj' : CookieJar.jar) (c : CookieJar.Cookie) :
  CookieJar.set_cookie cj c = Ok cj' -> keyed c.
Proof.
  unfold CookieJar.set_cookie, CookieJar.hash_check, keyed. intros H.
  destruct (hashable (CookieJar.domain c)); [ | discriminate]. cbn [Py.bind] in H.
  destruct (hashable (CookieJar.path c)); [ | discriminate]. cbn [Py.bind] in H.
  destruct (hashable (CookieJar.name c)); [ | discriminate].
  repeat split.
Qed.

Lemma set_cookie_In (cj cj' : CookieJar.jar) (c x : CookieJar.Cookie) :
  CookieJar.set_cookie cj c = Ok cj' ->
  In x (CookieJar.cookies cj') -> x = c \/ In x (CookieJar.cookies cj).
Proof.
  unfold CookieJar.set_cookie. intros H Hx. bind_inv H. injection H as <-.
  apply In_cookies in Hx. destruct Hx as [kd [c2 [kp [c3 [kn [Hd [Hp Hn]]]]]]].
  apply dict_set_In in Hd. destruct Hd as [-> | Hd].
  - apply dict_set_In in Hp. destruct Hp as [-> | Hp].
    + apply dict_set_In in Hn. destruct Hn as [-> | Hn]; [left; reflexivity | right].
      destruct (dict_get (CookieJar.domain c) cj) as [d2 | ] eqn:Ed2.
      * destruct (dict_get (CookieJar.path c) d2) as [d3 | ] eqn:Ed3; [ | destruct Hn].
        apply dict_get_In in Ed2. destruct Ed2 as [k2 Hk2].
        apply dict_get_In in Ed3. destruct Ed3 as [k3 Hk3].
        apply In_cookies. exists k2, d2, k3, d3, kn. repeat split; assumption.
      * destruct Hn.
    + right. destruct (dict_get (CookieJar.domain c) cj) as [d2 | ] eqn:Ed2; [ | destruct Hp].
      apply dict_get_In in Ed2. destruct Ed2 as [k2 Hk2].
      apply In_cookies. exists k2, d2, kp, c3, kn. repeat split; assumption.
  - right. apply In_cookies. exists kd, c2, kp, c3, kn. repeat split; assumption.
Qed.

Lemma set_cookie_preserves (cj cj' : CookieJar.jar) (c : CookieJar.Cookie) :
  keyed_jar cj -> CookieJar.set_cookie cj c = Ok cj' -> keyed_jar cj'.
Proof.
  unfold keyed_jar. intros Hcj H. apply Forall_forall. intros x Hx.
  destruct (set_cookie_In cj cj' c x H Hx) as [-> | Hin].
  - exact (set_cookie_keyed cj cj' c H).
  - rewrite Forall_forall in Hcj. apply Hcj. exact Hin.
Qed.

Lemma set_cookies_total (l : list CookieJar.Cookie) :
  Forall keyed l -> forall cj, exists cj', CookieJar.set_cookies cj l = Ok cj'.
Proof.
  induction 1 as [ | c l [Hd [Hp Hn]] Hl IH]; intros cj.
  - exists cj. reflexivity.
  - cbn [CookieJar.set_cookies]. unfold CookieJar.set_cookie, CookieJar.hash_check.
    rewrite Hd, Hp, Hn. cbn [Py.bind]. apply IH.
Qed.

Lemma keyed_empty : keyed_jar CookieJar.empty.
Proof. constructor. Qed.

Lemma bytes_eqb_eq (a b : bytes) : bytes_eqb a b = true <-> a = b.
Proof.
  revert b. induction a as [ | x a IH]; intros [ | y b]; cbn [bytes_eqb].
  - split; reflexivity.
  - split; discriminate.
  - split; discriminate.
  - rewrite andb_true_iff, IH. split.
    + intros [Hx ->]. apply Byte.byte_dec_bl in Hx. subst y. reflexivity.
    + intros [= -> ->]. split; [apply Byte.byte_dec_lb; reflexivity | reflexivity].
Qed.

Lemma key_eqb_norm (a b : pyval) :
  key_eqb a b = true <-> (key_norm a = key_norm b /\ key_norm a <> None).
Proof.
  destruct a as [ | x | x | x | x | x | x], b as [ | y | y | y | y | y | y];
    cbn [key_eqb key_norm];
    (split; [intros H | intros [H1 H2]]);
    try discriminate H; try discriminate H1; try (exfalso; apply H2; reflexivity);
    try reflexivity;
    try (split; [reflexivity | discriminate]).
  - apply Bool.eqb_prop in H. subst y. split; [reflexivity | discriminate].
  - destruct x, y; try reflexivity; discriminate H1.
  - apply Z.eqb_eq in H. subst y. split; [reflexivity | discriminate].
  - injection H1 as <-. apply Z.eqb_refl.
  - apply Z.eqb_eq in H. subst x. split; [reflexivity | discriminate].
  - injection H1 as ->. apply Z.eqb_refl.
  - apply Z.eqb_eq in H. subst y. split; [reflexivity | discriminate].
  - injection H1 as <-. apply Z.eqb_refl.
  - apply String.eqb_eq in H. subst y. split; [reflexivity | discriminate].
  - injection H1 as <-. apply String.eqb_refl.
  - apply bytes_eqb_eq in H. subst y. split; [reflexivity | discriminate].
  - injection H1 as <-. apply bytes_eqb_eq. reflexivity.
Qed.

Lemma key_eqb_same_norm (a b c : pyval) :
  key_norm a = key_norm b -> key_eqb c a = key_eqb c b.
Proof.
  intros Hab.
  destruct (key_eqb c a) eqn:Ea, (key_eqb c b) eqn:Eb; try reflexivity.
  - apply key_eqb_norm in Ea. destruct Ea as [E1 E2].
    assert (H : key_eqb c b = true) by (apply key_eqb_norm; split; [congruence | exact E2]).
    congruence.
  - apply key_eqb_norm in Eb. destruct Eb as [E1 E2].
    assert (H : key_eqb c a = true) by (apply key_eqb_norm; split; [congruence | exact E2]).
    congruence.
Qed.

Lemma key_eqb_right (a b c : pyval) : key_eqb a b = true -> key_eqb c b = key_eqb c a.
Proof.
  intros H. apply key_eqb_norm in H. destruct H as [H _].
  symmetry. apply key_eqb_same_norm. exact H.
Qed.

Lemma key_eqb_left (a b c : pyval) : key_eqb a b = true -> key_eqb a c = key_eqb b c.
Proof.
  intros H. apply key_eqb_norm in H. destruct H as [H Hn].
  destruct (key_eqb a c) eqn:Ea, (key_eqb b c) eqn:Eb; try reflexivity.
  - apply key_eqb_norm in Ea. destruct Ea as [E1 E2].
    assert (Hb : key_eqb b c = true)
      by (apply key_eqb_norm; split; [congruence | congruence]).
    congruence.
  - apply key_eqb_norm in Eb. destruct Eb as [E1 E2].
    assert (Ha : key_eqb a c = true)
      by (apply key_eqb_norm; split; [congruence | congruence]).
    congruence.
Qed.

Lemma dict_get_dict_set {V} (k k' : pyval) (v : V) (d : dict V) :
  dict_get k' (dict_set k v d) = if key_eqb k' k then Some v else dict_get k' d.
Proof.
  induction d as [ | [k0 v0] d IH]; cbn [dict_set dict_get].
  - destruct (key_eqb k' k); reflexivity.
  - destruct (key_eqb k k0) eqn:Ek; cbn [dict_get].
    + rewrite (key_eqb_right k k0 k' Ek). destruct (key_eqb k' k); reflexivity.
    + destruct (key_eqb k' k) eqn:Ek'.
      * rewrite (key_eqb_left k' k k0 Ek'), Ek. rewrite IH. reflexivity.
      * rewrite IH. reflexivity.
Qed.

Lemma dict_get_same_key {V} (k k' : pyval) (d : dict V) :
  key_eqb k' k = true -> dict_get k' d = dict_get k d.
Proof.
  intros H. induction d as [ | [k0 v0] d IH]; cbn [dict_get]; [reflexivity | ].
  rewrite (key_eqb_left k' k k0 H). rewrite IH. reflexivity.
Qed.

(** Setting a cookie makes it the one found under every key equal to its own
    and changes nothing under the other keys. *)
Lemma lookup_set_cookie (cj cj' : CookieJar.jar) (c : CookieJar.Cookie) (d p n : pyval) :
  CookieJar.set_cookie cj c = Ok cj' ->
  CookieJar.lookup cj' d p n = if same_key c d p n then Some c else CookieJar.lookup cj d p n.
Proof.
  unfold CookieJar.set_cookie. intros H. bind_inv H. injection H as <-.
  unfold CookieJar.lookup, same_key. rewrite dict_get_dict_set.
  destruct (key_eqb d (CookieJar.domain c)) eqn:Ed; cbn [andb]; [ | reflexivity].
  rewrite (dict_get_same_key (CookieJar.domain c) d cj Ed).
  rewrite dict_get_dict_set.
  destruct (key_eqb p (CookieJar.path c)) eqn:Ep; cbn [andb].
  - rewrite dict_get_dict_set.
    destruct (key_eqb n (CookieJar.name c)) eqn:En; [reflexivity | ].
    destruct (dict_get (CookieJar.domain c) cj) as [c2 | ]; [ | reflexivity].
    rewrite (dict_get_same_key (CookieJar.path c) p c2 Ep).
    destruct (dict_get (CookieJar.path c) c2); reflexivity.
  - destruct (dict_get (CookieJar.domain c) cj) as [c2 | ]; reflexivity.
Qed.

Lemma lookup_set_cookies :
  forall (l : list CookieJar.Cookie) (cj cj' : CookieJar.jar) (d p n : pyval),
    CookieJar.set_cookies cj l = Ok cj' ->
    CookieJar.lookup cj' d p n
    = match last_with_key l d p n with
      | Some c => Some c
      | None => CookieJar.lookup cj d p n
      end.
Proof.
  induction l as [ | c l IH]; intros cj cj' d p n H.
  - injection H as <-. reflexivity.
  - cbn [CookieJar.set_cookies] in H.
    destruct (CookieJar.set_cookie cj c) as [cj1 | e] eqn:E1; [ | discriminate H].
    cbn [Py.bind] in H. rewrite (IH cj1 cj' d p n H). cbn [last_with_key].
    destruct (last_with_key l d p n); [reflexivity | ].
    rewrite (lookup_set_cookie cj cj1 c d p n E1).
    destruct (same_key c d p n); reflexivity.
Qed.

Lemma set_cookies_app (l1 l2 : list CookieJar.Cookie) (cj : CookieJar.jar) :
  CookieJar.set_cookies cj (l1 ++ l2)
  = (cj1 <- CookieJar.set_cookies cj l1 ;; CookieJar.set_cookies cj1 l2).
Proof.
  revert cj. induction l1 as [ | c l1 IH]; intros cj; [reflexivity | ].
  cbn [app CookieJar.set_cookies].
  destruct (CookieJar.set_cookie cj c) as [cj1 | e]; [ | reflexivity].
  cbn [Py.bind]. apply IH.
Qed.

(** *** The loop of [Chrome.load] *)

Lemma load_items_app (w : world) (self : Chrome.t) :
  forall (before after : list (list pyval)) (cj : CookieJar.jar),
    Chrome.load_items w self cj (before ++ after) =
    (cj' <- Chrome.load_items w self cj before ;; Chrome.load_items w self cj' after).
Proof.
  induction before as [ | item before IH]; intros after cj.
  - reflexivity.
  - cbn [app Chrome.load_items].
    destruct (try_except (Chrome.load_item w self cj item) [OverflowError; OSError]
                (fun _ => Ok cj)) as [cj' | e]; [ | reflexivity].
    cbn [Py.bind]. apply IH.
Qed.

(** A row whose timestamp conversion raises is passed over or aborts the loop
    according to the class of the exception. *)
Lemma load_items_bad_row (w : world) (self : Chrome.t) (cj : CookieJar.jar)
    (host path secure item3 name item5 item6 : pyval) (after : list (list pyval)) (e : exn) :
  Chrome.convert_expires w item3 = Raise e ->
  Chrome.load_items w self cj ([host; path; secure; item3; name; item5; item6] :: after) =
  if passed_over e then Chrome.load_items w self cj after else Raise e.
Proof.
  intros He. cbn [Chrome.load_items Chrome.load_item]. rewrite He.
  cbn [Py.bind]. unfold try_except, passed_over.
  destruct (existsb (isinstance e) [OverflowError; OSError]); reflexivity.
Qed.

(** On a batch whose rows all give a cookie with hashable keys, the loop sets
    these cookies, one after the other. *)
Lemma load_items_valid_rows (w : world) (self : Chrome.t) :
  forall (items : list (list pyval)) (cookies : list CookieJar.Cookie) (cj : CookieJar.jar),
    row_cookies w self items = Ok cookies ->
    Forall keyed cookies ->
    Chrome.load_items w self cj items = CookieJar.set_cookies cj cookies.
Proof.
  induction items as [ | item items IH]; intros cookies cj Hrows Hkeyed.
  - injection Hrows as <-. reflexivity.
  - cbn [row_cookies] in Hrows.
    destruct (row_cookie w self item) as [c | e] eqn:Hc; [ | discriminate Hrows].
    cbn [Py.bind] in Hrows.
    destruct (row_cookies w self items) as [l | e] eqn:Hl; [ | discriminate Hrows].
    cbn [Py.bind] in Hrows. injection Hrows as <-.
    inversion Hkeyed as [ | c0 l0 Hk Hkl]. subst.
    cbn [Chrome.load_items CookieJar.set_cookies].
    assert (Hitem : Chrome.load_item w self cj item = CookieJar.set_cookie cj c).
    { unfold Chrome.load_item, row_cookie in *.
      destruct item as [ | a0 [ | a1 [ | a2 [ | a3 [ | a4 [ | a5 [ | a6 [ | a7 r]]]]]]]];
        try discriminate Hc.
      destruct (Chrome.convert_expires w a3) as [x | e]; [ | discriminate Hc].
      cbn [Py.bind] in *.
      destruct (Chrome._decrypt w self a5 a6) as [v | e]; [ | discriminate Hc].
      cbn [Py.bind] in *. rewrite Hc. reflexivity. }
    rewrite Hitem.
    destruct (set_cookies_total [c] (Forall_cons c Hk (Forall_nil keyed)) cj) as [cj1 Hcj1].
    cbn [CookieJar.set_cookies] in Hcj1.
    destruct (CookieJar.set_cookie cj c) as [cj2 | e]; [ | discriminate Hcj1].
    cbn [try_except Py.bind]. apply (IH l cj2 eq_refl Hkl).
Qed.

(** C7, as the code has it. A row whose timestamp conversion raises
    [OverflowError] or [OSError] is passed over: the loop gives, for the batch
    with that row anywhere in it, the outcome it gives for the batch without
    the row, and so does [load] when the reader returns that batch; and when
    the other rows of the batch are valid (each gives a cookie), the loop
    returns a jar that holds their cookies: under every key, the cookie of
    the last of these rows with that key. *)
Theorem load_passes_over_overflowing_row :
  forall (w : world) (self : Chrome.t) (cj : CookieJar.jar)
         (before after : list (list pyval))
         (host path secure item3 name item5 item6 : pyval) (e : exn),
    Chrome.convert_expires w item3 = Raise e ->
    passed_over e = true ->
    Chrome.load_items w self cj
      (before ++ [host; path; secure; item3; name; item5; item6] :: after)
    = Chrome.load_items w self cj (before ++ after)
    /\
    (Chrome.fetch w self
       = Ok (before ++ [host; path; secure; item3; name; item5; item6] :: after) ->
     Chrome.load w self = Chrome.load_items w self CookieJar.empty (before ++ after))
    /\
    (forall cookies : list CookieJar.Cookie,
       row_cookies w self (before ++ after) = Ok cookies ->
       Forall keyed cookies ->
       exists cj',
         Chrome.load_items w self cj
           (before ++ [host; path; secure; item3; name; item5; item6] :: after) = Ok cj' /\
         forall d p n,
           CookieJar.lookup cj' d p n
           = match last_with_key cookies d p n with
             | Some c => Some c
             | None => CookieJar.lookup cj d p n
             end).
Proof.
  intros w self cj before after host path secure item3 name item5 item6 e He Hover.
  assert (Hloop : forall cj0,
            Chrome.load_items w self cj0
              (before ++ [host; path; secure; item3; name; item5; item6] :: after)
            = Chrome.load_items w self cj0 (before ++ after)).
  { intros cj0. rewrite !load_items_app.
    destruct (Chrome.load_items w self cj0 before) as [cj' | e0]; [ | reflexivity].
    cbn [Py.bind]. rewrite (load_items_bad_row w self cj' _ _ _ _ _ _ _ after e He).
    rewrite Hover. reflexivity. }
  split; [apply Hloop | ]. split.
  - intros Hfetch. unfold Chrome.load. rewrite Hfetch. cbn [Py.bind]. apply Hloop.
  - intros cookies Hrows Hkeyed.
    rewrite Hloop, (load_items_valid_rows w self (before ++ after) cookies cj Hrows Hkeyed).
    destruct (set_cookies_total cookies Hkeyed cj) as [cj' Hcj'].
    exists cj'. split; [exact Hcj' | ].
    intros d p n. exact (lookup_set_cookies cookies cj cj' d p n Hcj').
Qed.

Lemma load_passes_over_overflowing_row_witness :
  Chrome.load_items
    (Examples.linux_with_chrome
       (Examples.cookies_table "is_secure"
          [Examples.row_sid; Examples.row_far; Examples.row_tmp]) 0)
    Examples.chrome_on_store CookieJar.empty
    ([Examples.row_sid] ++ Examples.row_far :: [Examples.row_tmp])
  = Chrome.load_items
      (Examples.linux_with_chrome
         (Examples.cookies_table "is_secure"
            [Examples.row_sid; Examples.row_far; Examples.row_tmp]) 0)
      Examples.chrome_on_store CookieJar.empty
      ([Examples.row_sid] ++ [Examples.row_tmp])
  /\
  exists cj',
    Chrome.load_items
      (Examples.linux_with_chrome
         (Examples.cookies_table "is_secure"
            [Examples.row_sid; Examples.row_far; Examples.row_tmp]) 0)
      Examples.chrome_on_store CookieJar.empty
      ([Examples.row_sid] ++ Examples.row_far :: [Examples.row_tmp]) = Ok cj' /\
    option_map CookieJar.value
      (CookieJar.lookup cj' (PStr ".example.com") (PStr "/") (PStr "sid")) = Some (PStr "abc") /\
    option_map CookieJar.value
      (CookieJar.lookup cj' (PStr ".example.com") (PStr "/") (PStr "tmp")) = Some (PStr "xyz").
Proof.
  pose proof (load_passes_over_overflowing_row
           (Examples.linux_with_chrome
              (Examples.cookies_table "is_secure"
                 [Examples.row_sid; Examples.row_far; Examples.row_tmp]) 0)
           Examples.chrome_on_store CookieJar.empty
           [Examples.row_sid] [Examples.row_tmp]
           (PStr ".example.org") (PStr "/") (PInt 0) (PInt 9223372036854775807)
           (PStr "far") (PStr "1") (PBytes [])
           (mkExn OverflowError "date value out of range")
           ltac:(vm_compute; reflexivity) eq_refl) as [Hsame [_ Hvalid]].
  split; [exact Hsame | ].
  let r := eval vm_compute in
             (row_cookies
                (Examples.linux_with_chrome
                   (Examples.cookies_table "is_secure"
                      [Examples.row_sid; Examples.row_far; Examples.row_tmp]) 0)
                Examples.chrome_on_store ([Examples.row_sid] ++ [Examples.row_tmp])) in
  match r with
  | Ok ?cookies =>
      destruct (Hvalid cookies ltac:(vm_compute; reflexivity)
                  ltac:(repeat constructor)) as [cj' [Hcj' Hlookup]]
  end.
  exists cj'. split; [exact Hcj' | ].
  rewrite !Hlookup. split; vm_compute; reflexivity.
Defined.

(** The batch with the overflowing row yields the two other cookies. *)
Example load_with_overflowing_row :
  option_map CookieJar.cookies
    (match Chrome.load
             (Examples.linux_with_chrome
                (Examples.cookies_table "is_secure"
                   [Examples.row_sid; Examples.row_far; Examples.row_tmp]) 0)
             Examples.chrome_on_store with
     | Ok cj => Some cj
     | Raise _ => None
     end)
  = option_map CookieJar.cookies
      (match Chrome.load
               (Examples.linux_with_chrome
                  (Examples.cookies_table "is_secure" [Examples.row_sid; Examples.row_tmp]) 0)
               Examples.chrome_on_store with
       | Ok cj => Some cj
       | Raise _ => None
       end)
  /\ List.length
       (match Chrome.load
                (Examples.linux_with_chrome
                   (Examples.cookies_table "is_secure"
                      [Examples.row_sid; Examples.row_far; Examples.row_tmp]) 0)
                Examples.chrome_on_store with
        | Ok cj => CookieJar.cookies cj
        | Raise _ => []
        end) = 2%nat.
Proof. split; vm_compute; reflexivity. Qed.

(** C7, as stated, fails: a row whose timestamp cell is the text ['abc'] has
    an invalid timestamp ([int] raises [ValueError]); it is not passed over:
    [load] raises and returns no row of the batch, although the two other rows
    alone load. *)
Lemma load_aborts_on_text_timestamp :
  Chrome.convert_expires
    (Examples.linux_with_chrome
       (Examples.cookies_table "is_secure"
          [Examples.row_sid; Examples.row_text; Examples.row_tmp]) 0)
    (PStr "abc")
  = Raise (mkExn ValueError "invalid literal for int() with base 10")
  /\
  Chrome.load
    (Examples.linux_with_chrome
       (Examples.cookies_table "is_secure"
          [Examples.row_sid; Examples.row_text; Examples.row_tmp]) 0)
    Examples.chrome_on_store
  = Raise (mkExn ValueError "invalid literal for int() with base 10")
  /\
  (exists cj,
     Chrome.load
       (Examples.linux_with_chrome
          (Examples.cookies_table "is_secure" [Examples.row_sid; Examples.row_tmp]) 0)
       Examples.chrome_on_store = Ok cj /\
     List.length (CookieJar.cookies cj) = 2%nat).
Proof.
  split; [vm_compute; reflexivity | split; [vm_compute; reflexivity | ]].
  eexists. split; vm_compute; reflexivity.
Qed.

(** *** The expiry of a Chrome cookie *)

(** A zero [expires_utc] is handed on as it is and becomes the expiry 0, the
    first second of 1970, not the absent expiry of a session cookie. *)
Lemma zero_timestamp_expires_at_epoch (w : world) (host path secure name value : pyval)
    (c : CookieJar.Cookie) :
  Chrome.convert_expires w (PInt 0) = Ok (CookieJar.EVal (PInt 0)) /\
  (create_cookie host path secure (CookieJar.EVal (PInt 0)) name value = Ok c ->
   CookieJar.expires c = Some 0%Z /\
   forall now, (0 <= now)%Z -> CookieJar.is_expired c now = true).
Proof.
  split; [reflexivity | ].
  unfold create_cookie, CookieJar.Cookie_init.
  destruct (startswith_dot host) as [d | e]; [ | discriminate].
  cbn [Py.bind CookieJar.float]. change (int_of_float (mkFloat 0 0)) with 0%Z.
  destruct (lower host) as [h | e]; [ | discriminate].
  cbn [Py.bind]. intros [= <-]. split; [reflexivity | ].
  intros now Hnow. unfold CookieJar.is_expired. cbn [CookieJar.expires].
  apply Z.leb_le. exact Hnow.
Qed.

(** C4. The claim fails on the code at both of its halves. On a Linux host one
    hour east of UTC, the row with [expires_utc = 13000000000000000]
    (1355526400 seconds after 1970-01-01T00:00:00Z) is given the expiry
    1355522800, one hour short, and the row with [expires_utc = 0] is given
    the expiry 0, which [http.cookiejar] takes for a cookie that expired in
    1970, not for a session cookie. *)
Theorem chrome_expiry_off_utc_and_at_zero :
  exists (cj : CookieJar.jar) (sid tmp : CookieJar.Cookie),
    chrome (Examples.linux_with_chrome
              (Examples.cookies_table "is_secure" [Examples.row_sid; Examples.row_tmp]) 3600)
      PathNone "" = Ok cj /\
    CookieJar.lookup cj (PStr ".example.com") (PStr "/") (PStr "sid") = Some sid /\
    CookieJar.lookup cj (PStr ".example.com") (PStr "/") (PStr "tmp") = Some tmp /\
    (13000000000000000 / 1000000 - seconds_1601_to_1970 = 1355526400)%Z /\
    CookieJar.expires sid = Some 1355522800%Z /\
    CookieJar.expires tmp = Some 0%Z /\
    CookieJar.is_expired tmp 1700000000 = true.
Proof.
  eexists. eexists. eexists.
  split; [vm_compute; reflexivity | ].
  split; [vm_compute; reflexivity | ].
  split; [vm_compute; reflexivity | ].
  split; [reflexivity | ].
  split; [reflexivity | ].
  split; reflexivity.
Qed.

(** *** Session cookies *)

Lemma int_of_float_integer (z : Z) : int_of_float (mkFloat z 0) = z.
Proof.
  unfold int_of_float. cbn [fl_exponent fl_mantissa Z.leb Z.compare].
  change (2 ^ 0)%Z with 1%Z. apply Z.mul_1_r.
Qed.

Lemma float_of_str_of_int (z : Z) : float_of_text (str_of_int z) = Some (mkFloat z 0).
Proof.
  unfold float_of_text, str_of_int.
  rewrite NilZero.isi.
  - cbn [option_map]. rewrite DecimalZ.of_to. reflexivity.
  - destruct z; cbn [Z.to_int]; try discriminate.
    intros [= H]. exact (Unsigned.to_uint_nonnil _ H).
  - destruct z; cbn [Z.to_int]; try discriminate.
    intros [= H]. exact (Unsigned.to_uint_nonnil _ H).
Qed.

(** C9. Every cookie that [__create_session_cookie] makes from an entry of a
    session artifact is marked non-secure ([secure = False]) and expires
    exactly 604800 seconds (7 days) after the time of extraction; an [expiry]
    recorded in the entry changes nothing of the outcome. *)
Theorem session_cookie_insecure_seven_days :
  forall (w : world) (cookie_json : pyval) (c : CookieJar.Cookie),
    Firefox.__create_session_cookie w cookie_json = Ok c ->
    CookieJar.secure c = PBool false /\
    CookieJar.expires c = Some (time_time w + 604800)%Z /\
    (forall (d : list (string * pyval)) (recorded : pyval),
       Firefox.__create_session_cookie w (PDict (("expiry", recorded) :: d))
       = Firefox.__create_session_cookie w (PDict d)).
Proof.
  intros w cookie_json c H.
  split; [ | split; [ | reflexivity]].
  - unfold Firefox.__create_session_cookie in H.
    destruct (get cookie_json "host" (PStr "")) as [host | e]; [ | discriminate].
    destruct (get cookie_json "path" (PStr "")) as [path | e]; [ | discriminate].
    destruct (get cookie_json "name" (PStr "")) as [name | e]; [ | discriminate].
    destruct (get cookie_json "value" (PStr "")) as [value | e]; [ | discriminate].
    cbn [Py.bind] in H. unfold create_cookie, CookieJar.Cookie_init in H.
    destruct (startswith_dot host) as [dot | e]; [ | discriminate].
    cbn [Py.bind CookieJar.float] in H. rewrite float_of_str_of_int in H.
    cbn [Py.bind] in H.
    destruct (lower host) as [h | e]; [ | discriminate].
    cbn [Py.bind] in H. injection H as <-. reflexivity.
  - unfold Firefox.__create_session_cookie in H.
    destruct (get cookie_json "host" (PStr "")) as [host | e]; [ | discriminate].
    destruct (get cookie_json "path" (PStr "")) as [path | e]; [ | discriminate].
    destruct (get cookie_json "name" (PStr "")) as [name | e]; [ | discriminate].
    destruct (get cookie_json "value" (PStr "")) as [value | e]; [ | discriminate].
    cbn [Py.bind] in H. unfold create_cookie, CookieJar.Cookie_init in H.
    destruct (startswith_dot host) as [dot | e]; [ | discriminate].
    cbn [Py.bind CookieJar.float] in H. rewrite float_of_str_of_int in H.
    cbn [Py.bind] in H.
    destruct (lower host) as [h | e]; [ | discriminate].
    cbn [Py.bind] in H. injection H as <-.
    cbn [CookieJar.expires]. rewrite int_of_float_integer.
    f_equal.
Qed.

Lemma session_cookie_insecure_seven_days_witness :
  exists c,
    Firefox.__create_session_cookie Examples.bare_linux
      (PDict [("host", PStr ".example.com"); ("name", PStr "sid"); ("value", PStr "1");
              ("expiry", PInt 1)]) = Ok c /\
    CookieJar.secure c = PBool false /\
    CookieJar.expires c = Some 1700604800%Z.
Proof.
  eexists. split; [vm_compute; reflexivity | ].
  refine ((fun H => conj (proj1 H) (proj1 (proj2 H)))
            (session_cookie_insecure_seven_days Examples.bare_linux
               (PDict [("host", PStr ".example.com"); ("name", PStr "sid");
                       ("value", PStr "1"); ("expiry", PInt 1)]) _ _)).
  vm_compute. reflexivity.
Defined.

(** *** Firefox profile resolution *)

Lemma try_except_KeyError {A} (r : result A) (e : exn) (handler : exn -> result A) :
  r = Raise e -> exn_class e = KeyError ->
  try_except r [KeyError] handler = handler e.
Proof.
  intros -> Hc. unfold try_except, isinstance. rewrite Hc. reflexivity.
Qed.

(** The loop falls through every section that is not marked default and
    relative, and whose marks are read without another error than
    [KeyError], and ends at [return none]. *)
Lemma default_profile_loop_falls_through (w : world) (c : config) (template : string) :
  forall sections : list string,
    (forall section, In section sections ->
       ~ (config_getitem c section "Default" = Ok "1" /\
          config_getitem c section "IsRelative" = Ok "1")) ->
    (forall section, In section sections -> mark_readable c section) ->
    Firefox.default_profile_loop w c sections template
    = Raise (mkExn NameError "name 'none' is not defined").
Proof.
  induction sections as [ | section rest IH]; intros Hno Hread.
  - reflexivity.
  - cbn [Firefox.default_profile_loop].
    assert (Hrest : Firefox.default_profile_loop w c rest template
                    = Raise (mkExn NameError "name 'none' is not defined")).
    { apply IH; intros s Hs; [apply Hno | apply Hread]; right; exact Hs. }
    specialize (Hno section (or_introl eq_refl)).
    destruct (Hread section (or_introl eq_refl)) as [Hdefault Hrelative].
    destruct (config_getitem c section "Default") as [d | e] eqn:Hd.
    + cbn [Py.bind]. destruct (String.eqb d "1") eqn:Hd1.
      * apply String.eqb_eq in Hd1. subst d.
        destruct (config_getitem c section "IsRelative") as [r | e] eqn:Hr.
        -- cbn [Py.bind]. destruct (String.eqb r "1") eqn:Hr1.
           ++ apply String.eqb_eq in Hr1. subst r. exfalso. apply Hno. split; reflexivity.
           ++ cbn [try_except Py.bind]. exact Hrest.
        -- cbn [Py.bind].
           rewrite (try_except_KeyError (Raise e) e (fun _ => Ok None) eq_refl
                      (Hrelative e eq_refl eq_refl)).
           cbn [Py.bind]. exact Hrest.
      * cbn [try_except Py.bind]. exact Hrest.
    + cbn [Py.bind].
      rewrite (try_except_KeyError (Raise e) e (fun _ => Ok None) eq_refl
                 (Hdefault e eq_refl)).
      cbn [Py.bind]. exact Hrest.
Qed.

(** C10, as the code has it. When the manifest has been read, none of its
    sections is marked both [Default=1] and [IsRelative=1], and the marks are
    read without another error than that of a missing option,
    [get_default_profile] raises [NameError] (for [none]) and returns nothing;
    and on macOS [find_cookie_file] raises [UnboundLocalError] for
    [profiles_ini_path], which is not a [BrowserCookieError], so that
    [Firefox()] without a cookie file and [firefox()] raise it too. *)
Theorem firefox_path_resolution_name_errors :
  forall (w : world) (profiles_ini_path : list string) (template_for_relative : string)
         (manifest : config) (mac : world),
    config_read w profiles_ini_path (mkConfig [] []) = Ok manifest ->
    no_default_relative manifest ->
    marks_readable manifest ->
    sys_platform mac = "darwin" ->
    Firefox.get_default_profile w profiles_ini_path template_for_relative
    = Raise (mkExn NameError "name 'none' is not defined")
    /\
    exists e,
      Firefox.find_cookie_file mac = Raise e /\
      exn_class e = UnboundLocalError /\
      isinstance e BrowserCookieError = false /\
      (forall domain_name,
         Firefox.__init__ mac None domain_name = Raise e /\
         fst (firefox mac None domain_name) = Raise e).
Proof.
  intros w paths template manifest mac Hread Hno Hmarks Hmac. split.
  - unfold Firefox.get_default_profile. rewrite Hread. cbn [Py.bind].
    apply default_profile_loop_falls_through; assumption.
  - assert (Hfind : Firefox.find_cookie_file mac
                    = Raise (mkExn UnboundLocalError
                               "local variable 'profiles_ini_path' referenced before assignment")).
    { unfold Firefox.find_cookie_file. rewrite Hmac. reflexivity. }
    eexists. split; [exact Hfind | ].
    split; [reflexivity | split; [reflexivity | ]].
    intros d. unfold firefox, Firefox.__init__. rewrite Hfind. split; reflexivity.
Qed.

Lemma firefox_path_resolution_name_errors_witness :
  Firefox.get_default_profile Examples.linux_with_absolute_profile [Examples.profiles_ini]
    "/home/u/.mozilla/firefox/{0}/cookies.sqlite"
  = Raise (mkExn NameError "name 'none' is not defined")
  /\
  exists e,
    Firefox.find_cookie_file Examples.bare_macos = Raise e /\
    exn_class e = UnboundLocalError /\
    isinstance e BrowserCookieError = false /\
    (forall domain_name,
       Firefox.__init__ Examples.bare_macos None domain_name = Raise e /\
       fst (firefox Examples.bare_macos None domain_name) = Raise e).
Proof.
  apply (firefox_path_resolution_name_errors Examples.linux_with_absolute_profile
           [Examples.profiles_ini] "/home/u/.mozilla/firefox/{0}/cookies.sqlite"
           Examples.manifest_absolute Examples.bare_macos).
  - vm_compute. reflexivity.
  - intros section Hin [Hd Hr]. simpl in Hin.
    destruct Hin as [<- | [<- | []]]; vm_compute in Hd, Hr; discriminate.
  - intros section Hin. simpl in Hin.
    destruct Hin as [<- | [<- | []]]; split; intros e;
      [intros H | intros H0 H | intros H | intros H0 H];
      vm_compute in H; try discriminate H; try (injection H as <-; reflexivity).
  - reflexivity.
Defined.

(** C10, as stated, fails: in a manifest whose installation section records
    the profile directory [Profiles/100%.default-release] under [Default], no
    section is marked both [Default=1] and [IsRelative=1], and
    [get_default_profile] raises no [NameError]: reading that [Default]
    raises [InterpolationSyntaxError], which the [except KeyError] does not
    catch. *)
Lemma percent_in_mark_raises_interpolation_error :
  config_read Examples.linux_with_percent_profile [Examples.profiles_ini] (mkConfig [] [])
  = Ok Examples.manifest_percent /\
  no_default_relative Examples.manifest_percent /\
  Firefox.get_default_profile Examples.linux_with_percent_profile [Examples.profiles_ini]
    "/home/u/.mozilla/firefox/{0}/cookies.sqlite"
  = Raise (mkExn InterpolationSyntaxError "'%' must be followed by '%' or '('") /\
  isinstance (mkExn InterpolationSyntaxError "'%' must be followed by '%' or '('") NameError
  = false.
Proof.
  split; [vm_compute; reflexivity | ].
  split; [ | split; [vm_compute; reflexivity | reflexivity]].
  intros section Hin [Hd Hr]. simpl in Hin.
  destruct Hin as [<- | [<- | []]]; vm_compute in Hd, Hr; discriminate.
Qed.

(** *** Session recovery *)

(** An artifact whose bytes are not UTF-8 raises a [ValueError] when read. *)
Lemma read_session_undecodable (w : world) (content : bytes) :
  utf8_valid false (List.length content) content = false ->
  exists e, Firefox.read_session w content = Raise e /\ isinstance e ValueError = true.
Proof.
  intros H. unfold Firefox.read_session, decode_utf8. rewrite H.
  eexists. split; reflexivity.
Qed.

Lemma try_except_else_handled {A B} (e : exn) (handler : exn -> out B) (orelse : A -> out B) :
  isinstance e ValueError = true ->
  try_except_else (Raise e) [ValueError] handler orelse = handler e.
Proof.
  intros H. unfold try_except_else. cbn [existsb]. rewrite H. reflexivity.
Qed.

(** C8, as the code has it. An artifact that is absent, or whose reading
    raises a [ValueError], adds no cookie and raises nothing, whatever the
    other artifact holds: the function that reads it returns the jar it was
    given, with one line printed when the artifact was there, and [load] goes
    on from the cookies of the primary store: to the other artifact, and to
    its end when both are absent or raise a [ValueError]. *)
Theorem session_recovery_absent_or_value_error :
  forall (w : world) (self : Firefox.t) (cj : CookieJar.jar),
    (absent_or_value_error (plain_artifact w self) ->
     Firefox.__add_session_cookies w self cj
     = (Ok cj, report "Error parsing firefox session JSON: " (plain_artifact w self))) /\
    (absent_or_value_error (lz4_artifact w self) ->
     Firefox.__add_session_cookies_lz4 w self cj
     = (Ok cj, report "Error parsing firefox session JSON LZ4: " (lz4_artifact w self))) /\
    (Firefox.load_store w self = Ok cj ->
     absent_or_value_error (plain_artifact w self) ->
     Firefox.load w self
     = (fst (Firefox.__add_session_cookies_lz4 w self cj),
        report "Error parsing firefox session JSON: " (plain_artifact w self)
          ++ snd (Firefox.__add_session_cookies_lz4 w self cj))) /\
    (Firefox.load_store w self = Ok cj ->
     absent_or_value_error (lz4_artifact w self) ->
     forall cj1,
       fst (Firefox.__add_session_cookies w self cj) = Ok cj1 ->
       Firefox.load w self
       = (Ok cj1,
          snd (Firefox.__add_session_cookies w self cj)
            ++ report "Error parsing firefox session JSON LZ4: " (lz4_artifact w self))) /\
    (Firefox.load_store w self = Ok cj ->
     absent_or_value_error (plain_artifact w self) ->
     absent_or_value_error (lz4_artifact w self) ->
     Firefox.load w self
     = (Ok cj, report "Error parsing firefox session JSON: " (plain_artifact w self)
               ++ report "Error parsing firefox session JSON LZ4: " (lz4_artifact w self))).
Proof.
  intros w self cj.
  assert (H1 : absent_or_value_error (plain_artifact w self) ->
               forall cj0, Firefox.__add_session_cookies w self cj0
               = (Ok cj0, report "Error parsing firefox session JSON: " (plain_artifact w self))).
  { intros Hplain cj0. unfold Firefox.__add_session_cookies, plain_artifact in *.
    destruct (path_exists w (Firefox.session_file self)); [ | reflexivity].
    cbn [negb absent_or_value_error report] in *.
    destruct (content <- open_read w (Firefox.session_file self) ;;
              Firefox.read_session w content) as [v | e]; [contradiction | ].
    rewrite try_except_else_handled by exact Hplain. reflexivity. }
  assert (H2 : absent_or_value_error (lz4_artifact w self) ->
               forall cj0, Firefox.__add_session_cookies_lz4 w self cj0
               = (Ok cj0, report "Error parsing firefox session JSON LZ4: " (lz4_artifact w self))).
  { intros Hlz4 cj0. unfold Firefox.__add_session_cookies_lz4, lz4_artifact in *.
    destruct (path_exists w (Firefox.session_file_lz4 self)); [ | reflexivity].
    cbn [negb absent_or_value_error report] in *.
    destruct (content <- open_read w (Firefox.session_file_lz4 self) ;;
              Firefox.read_session_lz4 w content) as [v | e]; [contradiction | ].
    rewrite try_except_else_handled by exact Hlz4. reflexivity. }
  split; [intros Hplain; apply (H1 Hplain) | ].
  split; [intros Hlz4; apply (H2 Hlz4) | ].
  split; [ | split].
  - intros Hstore Hplain. unfold Firefox.load. rewrite Hstore.
    unfold obind, lift, oret. cbn [fst snd]. rewrite (H1 Hplain). cbn [fst snd app].
    destruct (Firefox.__add_session_cookies_lz4 w self cj) as [[cj2 | e] out2];
      cbn [fst snd]; rewrite ?app_nil_r; reflexivity.
  - intros Hstore Hlz4 cj1 Hcj1. unfold Firefox.load. rewrite Hstore.
    unfold obind, lift, oret. cbn [fst snd]. rewrite Hcj1. cbn [fst snd app].
    rewrite (H2 Hlz4). cbn [fst snd]. rewrite app_nil_r. reflexivity.
  - intros Hstore Hplain Hlz4. unfold Firefox.load. rewrite Hstore.
    unfold obind, lift, oret. cbn [fst snd]. rewrite (H1 Hplain). cbn [fst snd].
    rewrite (H2 Hlz4). cbn [fst snd app]. rewrite app_nil_r. reflexivity.
Qed.

Lemma session_recovery_absent_or_value_error_witness :
  (exists cj,
     Firefox.load_store Examples.linux_with_recovery_only Examples.a_firefox = Ok cj /\
     Firefox.load Examples.linux_with_recovery_only Examples.a_firefox
     = (fst (Firefox.__add_session_cookies_lz4 Examples.linux_with_recovery_only
               Examples.a_firefox cj),
        snd (Firefox.__add_session_cookies_lz4 Examples.linux_with_recovery_only
               Examples.a_firefox cj)) /\
     List.length (found (fst (Firefox.load Examples.linux_with_recovery_only
                                Examples.a_firefox))) = 2%nat) /\
  Firefox.load Examples.linux_with_unparseable_logs Examples.a_firefox
  = (Firefox.load_store Examples.linux_with_unparseable_logs Examples.a_firefox,
     ["Error parsing firefox session JSON: Expecting value";
      "Error parsing firefox session JSON LZ4: Input source data size too small"]).
Proof.
  split.
  - eexists. split; [vm_compute; reflexivity | ].
    split; [ | vm_compute; reflexivity].
    refine (proj1 (proj2 (proj2
              (session_recovery_absent_or_value_error
                 Examples.linux_with_recovery_only Examples.a_firefox _))) _ _).
    + vm_compute. reflexivity.
    + vm_compute. exact I.
  - refine (proj2 (proj2 (proj2 (proj2
              (session_recovery_absent_or_value_error
                 Examples.linux_with_unparseable_logs Examples.a_firefox _)))) _ _ _).
    + vm_compute. reflexivity.
    + vm_compute. reflexivity.
    + vm_compute. reflexivity.
Defined.

(** C8, as stated, fails: a recovery log whose block is garbage is a malformed
    artifact that cannot be parsed; the codec raises [LZ4BlockError], which is
    no [ValueError]: nothing is printed, and [load] and [firefox] raise
    instead of returning the cookie of the primary store. *)
Lemma corrupt_recovery_log_aborts_firefox :
  lz4_artifact Examples.linux_with_corrupt_recovery Examples.a_firefox
  = Some (Raise (mkExn LZ4BlockError
       "Decompression failed: corrupt input or insufficient space in destination buffer"))
  /\
  (exists cj,
     Firefox.load_store Examples.linux_with_corrupt_recovery Examples.a_firefox = Ok cj /\
     List.length (CookieJar.cookies cj) = 1%nat)
  /\
  Firefox.load Examples.linux_with_corrupt_recovery Examples.a_firefox
  = (Raise (mkExn LZ4BlockError
       "Decompression failed: corrupt input or insufficient space in destination buffer"), [])
  /\
  firefox Examples.linux_with_corrupt_recovery None ""
  = (Raise (mkExn LZ4BlockError
       "Decompression failed: corrupt input or insufficient space in destination buffer"), []).
Proof.
  split; [vm_compute; reflexivity | ].
  split; [eexists; split; vm_compute; reflexivity | ].
  split; vm_compute; reflexivity.
Qed.

(** *** Jars hold cookies with hashable keys *)

Lemma chrome_load_item_sets (w : world) (self : Chrome.t) (cj cj' : CookieJar.jar)
    (item : list pyval) :
  Chrome.load_item w self cj item = Ok cj' ->
  exists c, CookieJar.set_cookie cj c = Ok cj'.
Proof.
  unfold Chrome.load_item. intros H.
  destruct item as [ | a0 [ | a1 [ | a2 [ | a3 [ | a4 [ | a5 [ | a6 [ | a7 l]]]]]]]];
    try discriminate H.
  bind_inv H. eexists. exact H.
Qed.

Lemma chrome_load_items_keyed (w : world) (self : Chrome.t) :
  forall (items : list (list pyval)) (cj cj' : CookieJar.jar),
    keyed_jar cj -> Chrome.load_items w self cj items = Ok cj' -> keyed_jar cj'.
Proof.
  induction items as [ | item items IH]; intros cj cj' Hcj H.
  - injection H as <-. exact Hcj.
  - cbn [Chrome.load_items] in H. unfold try_except in H.
    destruct (Chrome.load_item w self cj item) as [cj1 | e] eqn:E.
    + cbn [Py.bind] in H. destruct (chrome_load_item_sets w self cj cj1 item E) as [c Hc].
      apply (IH cj1 cj'); [exact (set_cookie_preserves cj cj1 c Hcj Hc) | exact H].
    + destruct (existsb (isinstance e) [OverflowError; OSError]); [ | discriminate H].
      cbn [Py.bind] in H. apply (IH cj cj'); assumption.
Qed.

Lemma chrome_keyed (w : world) (cookie_file : path_arg) (d : string) (cj : CookieJar.jar) :
  chrome w cookie_file d = Ok cj -> keyed_jar cj.
Proof.
  unfold chrome, Chrome.load. intros H. bind_inv H.
  exact (chrome_load_items_keyed w _ _ _ _ keyed_empty H).
Qed.

Lemma firefox_load_items_keyed :
  forall (items : list (list pyval)) (cj cj' : CookieJar.jar),
    keyed_jar cj -> Firefox.load_items cj items = Ok cj' -> keyed_jar cj'.
Proof.
  induction items as [ | item items IH]; intros cj cj' Hcj H.
  - injection H as <-. exact Hcj.
  - cbn [Firefox.load_items] in H.
    destruct item as [ | a0 [ | a1 [ | a2 [ | a3 [ | a4 [ | a5 [ | a6 l]]]]]]];
      try discriminate H.
    bind_inv H.
    match goal with
    | Hs : CookieJar.set_cookie cj ?c = Ok ?b |- _ =>
        apply (IH b cj'); [exact (set_cookie_preserves cj b c Hcj Hs) | exact H]
    end.
Qed.

Lemma add_cookies_keyed (w : world) :
  forall (l : list pyval) (cj cj' : CookieJar.jar),
    keyed_jar cj -> Firefox.add_cookies w cj l = Ok cj' -> keyed_jar cj'.
Proof.
  induction l as [ | x l IH]; intros cj cj' Hcj H.
  - injection H as <-. exact Hcj.
  - cbn [Firefox.add_cookies] in H. bind_inv H.
    match goal with
    | Hs : CookieJar.set_cookie cj ?c = Ok ?b |- _ =>
        apply (IH b cj'); [exact (set_cookie_preserves cj b c Hcj Hs) | exact H]
    end.
Qed.

Lemma add_windows_keyed (w : world) :
  forall (l : list pyval) (cj cj' : CookieJar.jar),
    keyed_jar cj -> Firefox.add_windows w cj l = Ok cj' -> keyed_jar cj'.
Proof.
  induction l as [ | x l IH]; intros cj cj' Hcj H.
  - injection H as <-. exact Hcj.
  - cbn [Firefox.add_windows] in H. bind_inv H.
    match goal with
    | Hs : Firefox.add_cookies w cj ?l0 = Ok ?b |- _ =>
        apply (IH b cj'); [exact (add_cookies_keyed w l0 cj b Hcj Hs) | exact H]
    end.
Qed.

Lemma add_session_cookies_keyed (w : world) (self : Firefox.t) (cj cj' : CookieJar.jar) :
  keyed_jar cj -> fst (Firefox.__add_session_cookies w self cj) = Ok cj' -> keyed_jar cj'.
Proof.
  unfold Firefox.__add_session_cookies. intros Hcj H.
  destruct (path_exists w (Firefox.session_file self)); cbn [negb] in H.
  - unfold try_except_else in H.
    destruct (content <- open_read w (Firefox.session_file self) ;; Firefox.read_session w content)
      as [json_data | e].
    + cbn [lift fst] in H. bind_inv H. exact (add_windows_keyed w _ cj cj' Hcj H).
    + destruct (existsb (isinstance e) [ValueError]).
      * cbn in H. injection H as <-. exact Hcj.
      * discriminate H.
  - injection H as <-. exact Hcj.
Qed.

Lemma add_session_cookies_lz4_keyed (w : world) (self : Firefox.t) (cj cj' : CookieJar.jar) :
  keyed_jar cj -> fst (Firefox.__add_session_cookies_lz4 w self cj) = Ok cj' -> keyed_jar cj'.
Proof.
  unfold Firefox.__add_session_cookies_lz4. intros Hcj H.
  destruct (path_exists w (Firefox.session_file_lz4 self)); cbn [negb] in H.
  - unfold try_except_else in H.
    destruct (content <- open_read w (Firefox.session_file_lz4 self) ;; Firefox.read_session_lz4 w content)
      as [json_data | e].
    + cbn [lift fst] in H. bind_inv H. exact (add_cookies_keyed w _ cj cj' Hcj H).
    + destruct (existsb (isinstance e) [ValueError]).
      * cbn in H. injection H as <-. exact Hcj.
      * discriminate H.
  - injection H as <-. exact Hcj.
Qed.

Lemma fst_obind {A B} (c : out A) (k : A -> out B) :
  fst (obind c k) = match fst c with Ok a => fst (k a) | Raise e => Raise e end.
Proof. unfold obind. destruct (fst c); reflexivity. Qed.

Lemma firefox_keyed (w : world) (cookie_file : option string) (d : string)
    (cj : CookieJar.jar) :
  fst (firefox w cookie_file d) = Ok cj -> keyed_jar cj.
Proof.
  unfold firefox, Firefox.load. rewrite !fst_obind. cbn [lift fst].
  destruct (Firefox.__init__ w cookie_file d) as [self | e]; [ | discriminate].
  rewrite !fst_obind. cbn [lift fst].
  unfold Firefox.load_store.
  destruct (sqlite_query w (Firefox.tmp_cookie_file self)
              (Firefox.select_cookies (Firefox.domain_name self))) as [[items | e] | e];
    [ | discriminate | discriminate].
  cbn [Py.bind fetchall].
  destruct (Firefox.load_items CookieJar.empty items) as [cj0 | e] eqn:E0; [ | discriminate].
  rewrite !fst_obind.
  destruct (fst (Firefox.__add_session_cookies w self cj0)) as [cj1 | e] eqn:E1;
    [ | discriminate].
  rewrite !fst_obind.
  destruct (fst (Firefox.__add_session_cookies_lz4 w self cj1)) as [cj2 | e] eqn:E2;
    [ | discriminate].
  cbn [oret fst]. intros [= <-].
  apply (add_session_cookies_lz4_keyed w self cj1 cj2); [ | exact E2].
  apply (add_session_cookies_keyed w self cj0 cj1); [ | exact E1].
  exact (firefox_load_items_keyed items _ cj0 keyed_empty E0).
Qed.

(** *** The all-browsers entry point *)

Lemma fst_otry_except {A} (body : out A) (classes : list pyclass) (handler : exn -> out A) :
  fst (otry_except body classes handler) =
  match fst body with
  | Ok a => Ok a
  | Raise e => if existsb (isinstance e) classes then fst (handler e) else Raise e
  end.
Proof.
  unfold otry_except. destruct (fst body) as [a | e] eqn:E; [exact E | ].
  destruct (existsb (isinstance e) classes); [reflexivity | exact E].
Qed.

(** One turn of the loop of [load] on a browser that gave a jar or raised
    [BrowserCookieError]: the cookies found are added and nothing is raised. *)
Lemma load_from_absorbed (cj : CookieJar.jar) (browser : out CookieJar.jar) :
  absorbed (fst browser) ->
  (forall found, fst browser = Ok found -> keyed_jar found) ->
  fst (load_from cj browser) = CookieJar.set_cookies cj (found (fst browser)) /\
  exists cj', CookieJar.set_cookies cj (found (fst browser)) = Ok cj'.
Proof.
  intros Habs Hkeyed. unfold load_from. rewrite fst_otry_except, fst_obind.
  destruct (fst browser) as [j | e] eqn:Eb.
  - cbn [lift fst found].
    destruct (set_cookies_total (CookieJar.cookies j) (Hkeyed j eq_refl) cj) as [cj' Hcj'].
    rewrite Hcj'. split; [reflexivity | exists cj'; reflexivity].
  - cbn [absorbed] in Habs. cbn [existsb]. rewrite Habs.
    cbn [orb oret fst found CookieJar.set_cookies].
    split; [reflexivity | exists cj; reflexivity].
Qed.

(** A browser that raises something else than [BrowserCookieError] makes the
    turn of the loop raise it. *)
Lemma load_from_propagates (cj : CookieJar.jar) (browser : out CookieJar.jar) (e : exn) :
  fst browser = Raise e ->
  isinstance e BrowserCookieError = false ->
  fst (load_from cj browser) = Raise e.
Proof.
  intros Hb He. unfold load_from. rewrite fst_otry_except, fst_obind, Hb.
  cbn [existsb]. rewrite He. reflexivity.
Qed.

(** C1, as the code has it. For every domain filter, when each of the two
    browsers either gives its cookies or raises [BrowserCookieError], [load]
    raises nothing and returns a jar: the cookies of Chrome, if any, then
    those of Firefox, if any, set into an empty jar. *)
Theorem load_absorbs_BrowserCookieError :
  forall (w : world) (domain_name : string),
    absorbed (chrome w PathNone domain_name) ->
    absorbed (fst (firefox w None domain_name)) ->
    exists cj,
      fst (load w domain_name) = Ok cj /\
      (cj1 <- CookieJar.set_cookies CookieJar.empty (found (chrome w PathNone domain_name)) ;;
       CookieJar.set_cookies cj1 (found (fst (firefox w None domain_name)))) = Ok cj.
Proof.
  intros w d Hc Hf. unfold load. rewrite !fst_obind.
  destruct (load_from_absorbed CookieJar.empty (lift (chrome w PathNone d)) Hc
              (fun j Hj => chrome_keyed w PathNone d j Hj)) as [E1 [cj1 H1]].
  cbn [lift fst] in E1, H1. rewrite E1, H1. cbn [Py.bind].
  rewrite !fst_obind.
  destruct (load_from_absorbed cj1 (firefox w None d) Hf
              (fun j Hj => firefox_keyed w None d j Hj)) as [E2 [cj2 H2]].
  rewrite E2, H2. cbn [oret fst]. exists cj2. split; reflexivity.
Qed.

(** On a Linux host without a Chrome store and with a Firefox profile, [load]
    returns the cookie of the Firefox store. *)
Lemma load_absorbs_BrowserCookieError_witness :
  exists cj,
    fst (load (Examples.linux_with_firefox []) "") = Ok cj /\
    (cj1 <- CookieJar.set_cookies CookieJar.empty
              (found (chrome (Examples.linux_with_firefox []) PathNone "")) ;;
     CookieJar.set_cookies cj1
       (found (fst (firefox (Examples.linux_with_firefox []) None "")))) = Ok cj.
Proof.
  apply (load_absorbs_BrowserCookieError (Examples.linux_with_firefox []) "").
  - vm_compute. reflexivity.
  - vm_compute. exact I.
Defined.

Example load_without_chrome :
  chrome (Examples.linux_with_firefox []) PathNone ""
  = Raise (mkExn BrowserCookieError
             "Can not find cookie file at: /home/u/.config/google-chrome/Default/Cookies")
  /\ option_map (map CookieJar.name)
       (match fst (load (Examples.linux_with_firefox []) "") with
        | Ok cj => Some (CookieJar.cookies cj)
        | Raise _ => None
        end) = Some [PStr "token"].
Proof. split; vm_compute; reflexivity. Qed.

(** C1, as stated, fails: [load] raises. On a Linux host whose Chrome store
    has neither the [secure] nor the [is_secure] column both queries raise
    [sqlite3.OperationalError], and on a macOS host whose keyring has no entry
    for Chrome the key cannot be obtained ([AttributeError]); neither is a
    [BrowserCookieError], and [load] lets them through. *)
Lemma load_raises_other_errors :
  fst (load Examples.linux_with_odd_chrome "")
  = Raise (mkExn OperationalError "no such column: is_secure")
  /\
  fst (load Examples.macos_without_key "")
  = Raise (mkExn AttributeError "'NoneType' object has no attribute 'encode'")
  /\
  ~ (exists cj, fst (load Examples.linux_with_odd_chrome "") = Ok cj).
Proof.
  split; [vm_compute; reflexivity | split; [vm_compute; reflexivity | ]].
  intros [cj H]. vm_compute in H. discriminate H.
Qed.

(* ===================================================================== *)
(** ** Further properties of the module *)
(* ===================================================================== *)

(** *** What the decrypter accepts and how much it returns *)

Section FeederShape.

Variable aes : bytes -> bytes -> bytes.

(** The loop never raises; it leaves the buffer itself when that is shorter
    than two blocks, and else between 16 and 31 bytes, having taken whole
    blocks from the front. *)
Lemma feed_loop_rest :
  forall (fuel : nat) (m : Pyaes.AESModeOfOperationCBC) (buffer acc : bytes),
    (List.length buffer <= fuel)%nat ->
    exists acc' m' rest q,
      Pyaes.feed_loop aes fuel m buffer acc = Ok (acc', m', rest) /\
      Pyaes.cbc_key m' = Pyaes.cbc_key m /\
      List.length buffer = (16 * q + List.length rest)%nat /\
      ((List.length buffer < 32)%nat -> rest = buffer /\ q = 0%nat) /\
      ((32 <= List.length buffer)%nat -> (16 <= List.length rest < 32)%nat).
Proof.
  induction fuel as [ | fuel IH]; intros m buffer acc Hfuel.
  - exists acc, m, buffer, 0%nat. cbn [Pyaes.feed_loop].
    split; [reflexivity | ]. split; [reflexivity | ]. split; [lia | ].
    split; [intros _; split; reflexivity | intros H; lia].
  - destruct (Nat.lt_ge_cases (List.length buffer) 32) as [Hs | Hl].
    + exists acc, m, buffer, 0%nat. rewrite feed_loop_stop by lia.
      split; [reflexivity | ]. split; [reflexivity | ]. split; [lia | ].
      split; [intros _; split; reflexivity | intros H; lia].
    + rewrite feed_loop_step by lia.
      destruct (IH (Pyaes.mkCBC (Pyaes.cbc_key m) (firstn 16 buffer)) (skipn 16 buffer)
                  (acc ++ Pyaes.xor_bytes (aes (Pyaes.cbc_key m) (firstn 16 buffer))
                                          (Pyaes.last_cipherblock m)))
        as [acc' [m' [rest [q [E [Hk [Hlen [Hsmall Hbig]]]]]]]].
      { rewrite length_skipn. lia. }
      rewrite length_skipn in Hlen, Hsmall, Hbig.
      exists acc', m', rest, (S q). rewrite E.
      split; [reflexivity | ]. split; [exact Hk | ]. split; [lia | ].
      split; [intros H; lia | ]. intros _.
      destruct (Nat.lt_ge_cases (List.length buffer - 16) 32) as [Hs' | Hl'].
      * destruct (Hsmall Hs') as [-> _]. rewrite length_skipn. lia.
      * apply Hbig. exact Hl'.
Qed.

(** A single feed of the whole ciphertext followed by the end of the feed
    raises [ValueError] unless the ciphertext is a whole, positive number of
    blocks. *)
Lemma one_call_rejects_ragged (key iv ct : bytes) :
  (forall q, List.length ct <> 16 * S q)%nat ->
  exists e, Chrome.decrypt_in_one_call aes key iv ct = Raise e /\ exn_class e = ValueError.
Proof.
  intros Hrag. unfold Chrome.decrypt_in_one_call.
  destruct (Pyaes.new_cbc key iv) as [m | e] eqn:Em.
  - cbn [Py.bind]. unfold Pyaes.feed at 1. cbn [Pyaes.new_decrypter Pyaes.d_buffer Pyaes.d_mode app].
    destruct (feed_loop_rest (List.length ct) m ct [] (le_n _))
      as [acc' [m' [rest [q [E [Hk [Hlen [Hsmall Hbig]]]]]]]].
    rewrite E. cbn [Py.bind]. unfold Pyaes.feed. cbn [Pyaes.d_buffer Pyaes.d_mode].
    unfold Pyaes.block_final_decrypt, Pyaes.cbc_decrypt.
    assert (Hne : (List.length rest =? 16)%nat = false).
    { apply Nat.eqb_neq. intros H16. apply (Hrag q). lia. }
    rewrite Hne. cbn [negb Py.bind]. eexists. split; reflexivity.
  - unfold Pyaes.new_cbc in Em.
    destruct (negb (List.length iv =? 16)%nat).
    + injection Em as <-. eexists. split; reflexivity.
    + destruct (negb ((List.length key =? 16) || (List.length key =? 24)
                      || (List.length key =? 32))%nat); [ | discriminate Em].
      injection Em as <-. eexists. split; reflexivity.
Qed.

Hypothesis aes_block :
  forall key block, List.length block = 16%nat -> List.length (aes key block) = 16%nat.

Lemma xor_bytes_length (a b : bytes) :
  List.length (Pyaes.xor_bytes a b) = Nat.min (List.length a) (List.length b).
Proof. unfold Pyaes.xor_bytes. rewrite length_map, length_combine. reflexivity. Qed.

(** With a cipher that returns blocks, the loop puts out as many bytes as it
    takes in. *)
Lemma feed_loop_output :
  forall (fuel : nat) (m : Pyaes.AESModeOfOperationCBC) (buffer acc : bytes),
    (List.length buffer <= fuel)%nat ->
    List.length (Pyaes.last_cipherblock m) = 16%nat ->
    exists acc' m' rest,
      Pyaes.feed_loop aes fuel m buffer acc = Ok (acc', m', rest) /\
      (List.length acc' + List.length rest = List.length acc + List.length buffer)%nat /\
      List.length (Pyaes.last_cipherblock m') = 16%nat.
Proof.
  induction fuel as [ | fuel IH]; intros m buffer acc Hfuel Hiv.
  - exists acc, m, buffer. cbn [Pyaes.feed_loop].
    split; [reflexivity | split; [lia | exact Hiv]].
  - destruct (Nat.lt_ge_cases (List.length buffer) 32) as [Hs | Hl].
    + exists acc, m, buffer. rewrite feed_loop_stop by lia.
      split; [reflexivity | split; [lia | exact Hiv]].
    + rewrite feed_loop_step by lia.
      destruct (IH (Pyaes.mkCBC (Pyaes.cbc_key m) (firstn 16 buffer)) (skipn 16 buffer)
                  (acc ++ Pyaes.xor_bytes (aes (Pyaes.cbc_key m) (firstn 16 buffer))
                                          (Pyaes.last_cipherblock m)))
        as [acc' [m' [rest [E [Hlen Hiv']]]]].
      { rewrite length_skipn. lia. }
      { cbn [Pyaes.last_cipherblock]. rewrite firstn_length_le by lia. reflexivity. }
      exists acc', m', rest. rewrite E. split; [reflexivity | ]. split; [ | exact Hiv'].
      rewrite length_app, xor_bytes_length, aes_block, Hiv, length_skipn in Hlen
        by (rewrite firstn_length_le; lia).
      cbn [Nat.min] in Hlen. lia.
Qed.

(** What one call returns is 1 to 16 bytes shorter than a ciphertext of whole
    blocks. *)
Lemma one_call_output_length (key iv ct p : bytes) :
  Chrome.decrypt_in_one_call aes key iv ct = Ok p ->
  exists q, List.length ct = (16 * S q)%nat /\
            (16 * q <= List.length p <= 16 * q + 15)%nat.
Proof.
  unfold Chrome.decrypt_in_one_call. intros H.
  destruct (Pyaes.new_cbc key iv) as [m | e] eqn:Em; [ | discriminate H].
  assert (Hiv : List.length (Pyaes.last_cipherblock m) = 16%nat).
  { unfold Pyaes.new_cbc in Em.
    destruct (List.length iv =? 16)%nat eqn:E16; [ | discriminate Em].
    cbn [negb] in Em.
    destruct (negb ((List.length key =? 16) || (List.length key =? 24)
                    || (List.length key =? 32))%nat); [discriminate Em | ].
    injection Em as <-. apply Nat.eqb_eq. exact E16. }
  cbn [Py.bind] in H. unfold Pyaes.feed at 1 in H.
  cbn [Pyaes.new_decrypter Pyaes.d_buffer Pyaes.d_mode app] in H.
  destruct (feed_loop_rest (List.length ct) m ct [] (le_n _))
    as [acc' [m' [rest [q [E [Hk [Hlen [Hsmall Hbig]]]]]]]].
  destruct (feed_loop_output (List.length ct) m ct [] (le_n _) Hiv)
    as [acc2 [m2 [rest2 [E2 [Hout Hiv2]]]]].
  rewrite E in E2. injection E2 as <- <- <-.
  rewrite E in H. cbn [Py.bind] in H. unfold Pyaes.feed in H.
  cbn [Pyaes.d_buffer Pyaes.d_mode] in H.
  unfold Pyaes.block_final_decrypt, Pyaes.cbc_decrypt in H.
  destruct (List.length rest =? 16)%nat eqn:E16; [ | discriminate H].
  apply Nat.eqb_eq in E16. cbn [negb Py.bind] in H.
  set (last_plain := Pyaes.xor_bytes (aes (Pyaes.cbc_key m') rest) (Pyaes.last_cipherblock m')) in H.
  assert (Hlp : List.length last_plain = 16%nat).
  { subst last_plain. rewrite xor_bytes_length, aes_block, Hiv2 by exact E16. reflexivity. }
  unfold Pyaes.strip_PKCS7_padding in H.
  assert (Hmod : (List.length last_plain mod 16 =? 0)%nat = true)
    by (rewrite Hlp; reflexivity).
  rewrite Hmod in H. cbn [negb] in H.
  destruct (rev last_plain) as [ | lastb tl]; [discriminate H | ].
  destruct (16 <? N.to_nat (byte_val lastb))%nat eqn:Epad; [discriminate H | ].
  apply Nat.ltb_ge in Epad.
  exists q. split; [lia | ].
  cbn [List.length] in Hout.
  destruct (N.to_nat (byte_val lastb) =? 0)%nat eqn:E0.
  - cbn [Py.bind] in H. injection H as <-. rewrite length_app. cbn [List.length]. lia.
  - apply Nat.eqb_neq in E0. cbn [Py.bind] in H. injection H as <-.
    rewrite length_app, length_firstn. lia.
Qed.

End FeederShape.

Lemma length_string_of_list_byte (l : bytes) :
  String.length (string_of_list_byte l) = List.length l.
Proof.
  unfold string_of_list_byte. induction l as [ | b l IH]; [reflexivity | ].
  cbn. rewrite IH. reflexivity.
Qed.

(** A row whose body raises an exception the loop does not pass over makes the
    loop raise it. *)
Lemma load_items_raise (w : world) (self : Chrome.t) (cj : CookieJar.jar)
    (item : list pyval) (after : list (list pyval)) (e : exn) :
  Chrome.load_item w self cj item = Raise e ->
  passed_over e = false ->
  Chrome.load_items w self cj (item :: after) = Raise e.
Proof.
  intros He Hp. cbn [Chrome.load_items]. rewrite He. unfold try_except.
  unfold passed_over in Hp. rewrite Hp. reflexivity.
Qed.

Lemma load_item_decrypt_raise (w : world) (self : Chrome.t) (cj : CookieJar.jar)
    (host path secure item3 name value encrypted_value : pyval)
    (x : CookieJar.expires_arg) (e : exn) :
  Chrome.convert_expires w item3 = Ok x ->
  Chrome._decrypt w self value encrypted_value = Raise e ->
  Chrome.load_item w self cj [host; path; secure; item3; name; value; encrypted_value]
  = Raise e.
Proof. intros Hx He. cbn [Chrome.load_item]. rewrite Hx. cbn [Py.bind]. rewrite He. reflexivity. Qed.

(** X1. A marked ciphertext that is not a whole, positive number of 16-byte
    blocks (the bare marker [b'v10'] included) makes [_decrypt] raise
    [ValueError]; the loop of [load] does not pass it over, so the row makes
    [load] raise. *)
Theorem ragged_ciphertext_aborts_load :
  forall (w : world) (self : Chrome.t) (k ct : bytes) (value : pyval)
         (cj : CookieJar.jar) (host path secure item3 name : pyval)
         (x : CookieJar.expires_arg) (after : list (list pyval)),
    String.eqb (sys_platform w) "win32" = false ->
    empty_value value ->
    Chrome.key self = Some k ->
    (forall q, List.length ct <> 16 * S q)%nat ->
    Chrome.convert_expires w item3 = Ok x ->
    exists e,
      exn_class e = ValueError /\
      Chrome._decrypt w self value (PBytes (b_ "v10" ++ ct)) = Raise e /\
      Chrome.load_items w self cj
        ([host; path; secure; item3; name; value; PBytes (b_ "v10" ++ ct)] :: after)
      = Raise e.
Proof.
  intros w self k ct value cj host path secure item3 name x after Hp Hv Hk Hrag Hx.
  destruct (one_call_rejects_ragged (aes_decrypt_block w) k (Chrome.iv self) ct Hrag)
    as [e [He Hc]].
  assert (Hd : Chrome._decrypt w self value (PBytes (b_ "v10" ++ ct)) = Raise e).
  { rewrite (decrypt_marked_value w self value k ct Hp Hv Hk). rewrite He. reflexivity. }
  exists e. split; [exact Hc | ]. split; [exact Hd | ].
  apply load_items_raise.
  - apply (load_item_decrypt_raise w self cj _ _ _ _ _ _ _ x e Hx Hd).
  - unfold passed_over, isinstance. rewrite Hc. reflexivity.
Qed.

Lemma ragged_ciphertext_aborts_load_witness :
  exists e,
    exn_class e = ValueError /\
    Chrome._decrypt Examples.bare_linux Examples.a_chrome (PStr "") (PBytes (b_ "v10" ++ []))
    = Raise e /\
    Chrome.load_items Examples.bare_linux Examples.a_chrome CookieJar.empty
      ([PStr ".example.com"; PStr "/"; PInt 0; PInt 0; PStr "sid"; PStr "";
        PBytes (b_ "v10" ++ [])] :: [Examples.row_sid])
    = Raise e.
Proof.
  apply (ragged_ciphertext_aborts_load Examples.bare_linux Examples.a_chrome
           (repeat Byte.x6b 16) [] (PStr "") CookieJar.empty
           (PStr ".example.com") (PStr "/") (PInt 0) (PInt 0) (PStr "sid")
           (CookieJar.EVal (PInt 0)) [Examples.row_sid]).
  - reflexivity.
  - reflexivity.
  - reflexivity.
  - intros q H. cbn in H. lia.
  - reflexivity.
Defined.

(** X2. With a cipher that maps blocks to blocks, what [_decrypt] returns for a
    marked ciphertext is a text, the ciphertext is a whole, positive number of
    blocks, and the text (in bytes) is 1 to 16 bytes shorter than it. *)
Theorem decrypted_text_length :
  forall (w : world) (self : Chrome.t) (k ct : bytes) (value r : pyval),
    String.eqb (sys_platform w) "win32" = false ->
    empty_value value ->
    Chrome.key self = Some k ->
    (forall key block, List.length block = 16%nat ->
                       List.length (aes_decrypt_block w key block) = 16%nat) ->
    Chrome._decrypt w self value (PBytes (b_ "v10" ++ ct)) = Ok r ->
    exists s q,
      r = PStr s /\
      List.length ct = (16 * S q)%nat /\
      (16 * q <= String.length s <= 16 * q + 15)%nat.
Proof.
  intros w self k ct value r Hp Hv Hk Haes H.
  rewrite (decrypt_marked_value w self value k ct Hp Hv Hk) in H.
  destruct (Chrome.decrypt_in_one_call (aes_decrypt_block w) k (Chrome.iv self) ct)
    as [p | e] eqn:Ep; [ | discriminate H].
  cbn [Py.bind] in H. unfold decode_utf8 in H.
  destruct (utf8_valid false (List.length p) p); [ | discriminate H].
  cbn [Py.bind] in H. injection H as <-.
  destruct (one_call_output_length (aes_decrypt_block w) Haes k (Chrome.iv self) ct p Ep)
    as [q [Hlen Hout]].
  exists (string_of_list_byte p), q. rewrite length_string_of_list_byte.
  split; [reflexivity | split; assumption].
Qed.

Lemma decrypted_text_length_witness :
  exists s q,
    PStr "abcdefghijklmnopq" = PStr s /\
    List.length Examples.two_block_ciphertext = (16 * S q)%nat /\
    (16 * q <= String.length s <= 16 * q + 15)%nat.
Proof.
  apply (decrypted_text_length Examples.bare_linux Examples.a_chrome
           (repeat Byte.x6b 16) Examples.two_block_ciphertext (PStr "")
           (PStr "abcdefghijklmnopq")).
  - reflexivity.
  - reflexivity.
  - reflexivity.
  - intros key block H. exact H.
  - vm_compute. reflexivity.
Defined.

(** X3. When the decrypted bytes are not UTF-8, [_decrypt] raises
    [UnicodeDecodeError]; the loop of [load] does not pass it over, so the row
    is not skipped: [load] raises. *)
Theorem undecodable_plaintext_aborts_load :
  forall (w : world) (self : Chrome.t) (k ct p : bytes) (value : pyval)
         (cj : CookieJar.jar) (host path secure item3 name : pyval)
         (x : CookieJar.expires_arg) (after : list (list pyval)),
    String.eqb (sys_platform w) "win32" = false ->
    empty_value value ->
    Chrome.key self = Some k ->
    Chrome.decrypt_in_one_call (aes_decrypt_block w) k (Chrome.iv self) ct = Ok p ->
    utf8_valid false (List.length p) p = false ->
    Chrome.convert_expires w item3 = Ok x ->
    exists e,
      exn_class e = UnicodeDecodeError /\
      Chrome._decrypt w self value (PBytes (b_ "v10" ++ ct)) = Raise e /\
      Chrome.load_items w self cj
        ([host; path; secure; item3; name; value; PBytes (b_ "v10" ++ ct)] :: after)
      = Raise e.
Proof.
  intros w self k ct p value cj host path secure item3 name x after Hp Hv Hk Hone Hbad Hx.
  assert (Hd : Chrome._decrypt w self value (PBytes (b_ "v10" ++ ct))
               = Raise (mkExn UnicodeDecodeError "'utf-8' codec can't decode byte")).
  { rewrite (decrypt_marked_value w self value k ct Hp Hv Hk). rewrite Hone.
    cbn [Py.bind]. unfold decode_utf8. rewrite Hbad. reflexivity. }
  eexists. split; [ | split; [exact Hd | ]]; [reflexivity | ].
  apply load_items_raise; [ | reflexivity].
  apply (load_item_decrypt_raise w self cj _ _ _ _ _ _ _ x _ Hx Hd).
Qed.

Lemma undecodable_plaintext_aborts_load_witness :
  exists e,
    exn_class e = UnicodeDecodeError /\
    Chrome._decrypt Examples.bare_linux Examples.a_chrome (PStr "")
      (PBytes (b_ "v10" ++ Examples.undecodable_ciphertext)) = Raise e /\
    Chrome.load_items Examples.bare_linux Examples.a_chrome CookieJar.empty
      ([PStr ".example.com"; PStr "/"; PInt 0; PInt 0; PStr "sid"; PStr "";
        PBytes (b_ "v10" ++ Examples.undecodable_ciphertext)] :: [Examples.row_sid])
    = Raise e.
Proof.
  apply (undecodable_plaintext_aborts_load Examples.bare_linux Examples.a_chrome
           (repeat Byte.x6b 16) Examples.undecodable_ciphertext [Byte.xff] (PStr "")
           CookieJar.empty (PStr ".example.com") (PStr "/") (PInt 0) (PInt 0) (PStr "sid")
           (CookieJar.EVal (PInt 0)) [Examples.row_sid]).
  - reflexivity.
  - reflexivity.
  - reflexivity.
  - vm_compute. reflexivity.
  - reflexivity.
  - reflexivity.
Defined.

(** *** The OS-sealed values of Windows *)

Lemma c_char_value_no_nul (b : bytes) : ~ In Byte.x00 (c_char_value b).
Proof.
  induction b as [ | x b IH]; cbn [c_char_value]; [intros [] | ].
  destruct (Byte.eqb x Byte.x00) eqn:E; [intros [] | ].
  intros [H | H]; [ | exact (IH H)].
  subst x. discriminate E.
Qed.

Lemma c_char_value_prefix (b : bytes) :
  exists tail, b = c_char_value b ++ tail /\ (tail = [] \/ exists t, tail = Byte.x00 :: t).
Proof.
  induction b as [ | x b [tail [Hb Ht]]]; cbn [c_char_value].
  - exists []. split; [reflexivity | left; reflexivity].
  - destruct (Byte.eqb x Byte.x00) eqn:E.
    + apply Byte.byte_dec_bl in E. subst x. exists (Byte.x00 :: b).
      split; [reflexivity | right; exists b; reflexivity].
    + exists tail. split; [cbn [app]; f_equal; exact Hb | exact Ht].
Qed.

(** X4. On the Windows strategy, a row whose [value] is empty and whose
    [encrypted_value] is a blob the OS unseals decrypts to the text of the
    unsealed bytes cut before their first NUL byte. *)
Theorem windows_value_cut_at_nul :
  forall (w : world) (value : pyval) (b blob : bytes),
    len value = Ok 0%nat ->
    CryptUnprotectData w b = Some blob ->
    exists data tail,
      blob = data ++ tail /\
      ~ In Byte.x00 data /\
      (tail = [] \/ exists t, tail = Byte.x00 :: t) /\
      Chrome._decrypt_windows_chrome w value (PBytes b)
      = (s <- decode_utf8 data ;; Ok (PStr s)).
Proof.
  intros w value b blob Hlen Hblob.
  destruct (c_char_value_prefix blob) as [tail [Hb Ht]].
  exists (c_char_value blob), tail.
  split; [exact Hb | ]. split; [apply c_char_value_no_nul | ]. split; [exact Ht | ].
  unfold Chrome._decrypt_windows_chrome, crypt_unprotect_data.
  rewrite Hlen. cbn [Py.bind Nat.eqb negb eq_empty_str len]. rewrite Hblob. reflexivity.
Qed.

Lemma windows_value_cut_at_nul_witness :
  Chrome._decrypt_windows_chrome Examples.windows_that_unseals (PStr "") (PBytes (b_ "sealed"))
  = Ok (PStr "abc") /\
  exists data tail,
    b_ "abc" ++ Byte.x00 :: b_ "rest" = data ++ tail /\
    ~ In Byte.x00 data /\
    (tail = [] \/ exists t, tail = Byte.x00 :: t) /\
    Chrome._decrypt_windows_chrome Examples.windows_that_unseals (PStr "") (PBytes (b_ "sealed"))
    = (s <- decode_utf8 data ;; Ok (PStr s)).
Proof.
  split; [vm_compute; reflexivity | ].
  apply (windows_value_cut_at_nul Examples.windows_that_unseals (PStr "") (b_ "sealed")
           (b_ "abc" ++ Byte.x00 :: b_ "rest")); reflexivity.
Defined.

(** X5. On win32, a row whose [value] is empty and whose blob (the empty blob
    [b''] included: it is never equal to the [str] [""]) the OS does not
    unseal makes [_decrypt] raise [RuntimeError], and the row makes [load]
    raise: it is not skipped. *)
Theorem windows_unseal_failure_aborts_load :
  forall (w : world) (self : Chrome.t) (value : pyval) (b : bytes)
         (cj : CookieJar.jar) (host path secure item3 name : pyval)
         (x : CookieJar.expires_arg) (after : list (list pyval)),
    String.eqb (sys_platform w) "win32" = true ->
    len value = Ok 0%nat ->
    CryptUnprotectData w b = None ->
    Chrome.convert_expires w item3 = Ok x ->
    Chrome._decrypt w self value (PBytes b)
    = Raise (mkExn RuntimeError "Failed to decrypt the cipher text with DPAPI") /\
    Chrome.load_items w self cj ([host; path; secure; item3; name; value; PBytes b] :: after)
    = Raise (mkExn RuntimeError "Failed to decrypt the cipher text with DPAPI").
Proof.
  intros w self value b cj host path secure item3 name x after Hp Hlen Hblob Hx.
  assert (Hd : Chrome._decrypt w self value (PBytes b)
               = Raise (mkExn RuntimeError "Failed to decrypt the cipher text with DPAPI")).
  { unfold Chrome._decrypt. rewrite Hp.
    unfold Chrome._decrypt_windows_chrome, crypt_unprotect_data.
    rewrite Hlen. cbn [Py.bind Nat.eqb negb eq_empty_str len]. rewrite Hblob. reflexivity. }
  split; [exact Hd | ].
  apply load_items_raise; [ | reflexivity].
  apply (load_item_decrypt_raise w self cj _ _ _ _ _ _ _ x _ Hx Hd).
Qed.

Lemma windows_unseal_failure_aborts_load_witness :
  Chrome._decrypt Examples.bare_windows Examples.a_windows_chrome (PStr "") (PBytes [])
  = Raise (mkExn RuntimeError "Failed to decrypt the cipher text with DPAPI") /\
  Chrome.load_items Examples.bare_windows Examples.a_windows_chrome CookieJar.empty
    ([PStr ".example.com"; PStr "/"; PInt 0; PInt 0; PStr "sid"; PStr ""; PBytes []]
       :: [Examples.row_sid])
  = Raise (mkExn RuntimeError "Failed to decrypt the cipher text with DPAPI").
Proof.
  apply (windows_unseal_failure_aborts_load Examples.bare_windows Examples.a_windows_chrome
           (PStr "") [] CookieJar.empty (PStr ".example.com") (PStr "/") (PInt 0) (PInt 0)
           (PStr "sid") (CookieJar.EVal (PInt 0)) [Examples.row_sid]); reflexivity.
Defined.

(** *** Timestamps of the Chrome store *)

(** For a non-zero timestamp that falls in the years 1 to 9999, what is left
    to the host is the local-time reading of one number of seconds. *)
Lemma convert_expires_in_range (w : world) (n : Z) :
  n <> 0%Z ->
  (-584388 * Datetime.us_per_day <= n < 3067671 * Datetime.us_per_day)%Z ->
  Chrome.convert_expires w (PInt n)
  = (s <- Datetime.local_to_seconds (localtime w) (n / 1000000 - seconds_1601_to_1970) ;;
     Ok (CookieJar.EFloat (seconds_plus_micros s (n mod 1000000)))).
Proof.
  intros Hn Hrange.
  unfold Datetime.us_per_day in Hrange.
  unfold Chrome.convert_expires. cbn [ne_zero].
  assert (Hz : (n =? 0)%Z = false) by (apply Z.eqb_neq; exact Hn).
  rewrite Hz. cbn [negb int Py.bind].
  unfold Datetime.timedelta_of_microseconds, Datetime.us_per_day.
  change (86400 * 1000000)%Z with 86400000000%Z in *.
  assert (Hdays : (-584388 <= n / 86400000000 <= 3067670)%Z).
  { split.
    - apply Z.div_le_lower_bound; lia.
    - apply Z.lt_succ_r. apply Z.div_lt_upper_bound; lia. }
  assert (Hrem : (0 <= n mod 86400000000 < 86400000000)%Z)
    by (apply Z.mod_pos_bound; lia).
  assert (Habs : (999999999 <? Z.abs (n / 86400000000))%Z = false)
    by (apply Z.ltb_ge; lia).
  rewrite Habs. cbn [Py.bind].
  unfold Datetime.add, Datetime.epoch_start, Datetime.us_per_day.
  cbn [Datetime.dt_us_of_day Datetime.dt_ordinal Datetime.td_us_of_day Datetime.td_days].
  change (86400 * 1000000)%Z with 86400000000%Z.
  rewrite Z.add_0_l.
  rewrite (Z.div_small (n mod 86400000000) 86400000000) by lia.
  rewrite (Z.mod_small (n mod 86400000000) 86400000000) by lia.
  unfold Datetime.ordinal_1601, Datetime.MAXORDINAL.
  assert (Hin : ((0 <? 584389 + n / 86400000000 + 0) &&
                 (584389 + n / 86400000000 + 0 <=? 3652059))%Z = true).
  { apply andb_true_intro. split; [apply Z.ltb_lt | apply Z.leb_le]; lia. }
  rewrite Hin. cbn [Py.bind].
  unfold Datetime.timestamp, Datetime.wall_seconds.
  cbn [Datetime.dt_us_of_day Datetime.dt_ordinal].
  unfold Datetime.ordinal_1970, seconds_1601_to_1970.
  pose proof (Z.div_mod n 86400000000 ltac:(lia)) as E1.
  pose proof (Z.div_mod (n mod 86400000000) 1000000 ltac:(lia)) as E2.
  pose proof (Z.mod_pos_bound (n mod 86400000000) 1000000 ltac:(lia)) as B2.
  pose proof (Z.div_mod n 1000000 ltac:(lia)) as E3.
  pose proof (Z.mod_pos_bound n 1000000 ltac:(lia)) as B3.
  replace ((584389 + n / 86400000000 + 0 - 719163) * 86400
           + n mod 86400000000 / 1000000)%Z
    with (n / 1000000 - 11644473600)%Z by lia.
  replace ((n mod 86400000000) mod 1000000)%Z with (n mod 1000000)%Z by lia.
  destruct (Datetime.local_to_seconds (localtime w) (n / 1000000 - 11644473600));
    reflexivity.
Qed.

(** X6. A row whose non-zero timestamp is in the years 1 to 9999 but whose
    reading the platform's [localtime] rejects with an error the loop passes
    over ([OSError] on Windows before 1970) is skipped. *)
Theorem row_rejected_by_localtime_is_skipped :
  forall (w : world) (self : Chrome.t) (cj : CookieJar.jar) (n : Z)
         (host path secure name item5 item6 : pyval) (after : list (list pyval)) (e : exn),
    n <> 0%Z ->
    (-584388 * Datetime.us_per_day <= n < 3067671 * Datetime.us_per_day)%Z ->
    localtime w (n / 1000000 - seconds_1601_to_1970) = Raise e ->
    passed_over e = true ->
    Chrome.convert_expires w (PInt n) = Raise e /\
    Chrome.load_items w self cj ([host; path; secure; PInt n; name; item5; item6] :: after)
    = Chrome.load_items w self cj after.
Proof.
  intros w self cj n host path secure name item5 item6 after e Hn Hrange Hlt Hover.
  assert (Hc : Chrome.convert_expires w (PInt n) = Raise e).
  { rewrite (convert_expires_in_range w n Hn Hrange).
    unfold Datetime.local_to_seconds, Datetime.local. rewrite Hlt. reflexivity. }
  split; [exact Hc | ].
  rewrite (load_items_bad_row w self cj _ _ _ _ _ _ _ after e Hc). rewrite Hover. reflexivity.
Qed.

Lemma row_rejected_by_localtime_is_skipped_witness :
  Chrome.convert_expires
    (Examples.with_localtime Examples.bare_linux Examples.localtime_from_1970)
    (PInt 11644473599000000)
  = Raise (mkExn OSError "[Errno 22] Invalid argument") /\
  Chrome.load_items
    (Examples.with_localtime Examples.bare_linux Examples.localtime_from_1970)
    Examples.a_chrome CookieJar.empty
    ([PStr ".example.com"; PStr "/"; PInt 0; PInt 11644473599000000; PStr "old"; PStr "1";
      PBytes []] :: [Examples.row_sid])
  = Chrome.load_items
      (Examples.with_localtime Examples.bare_linux Examples.localtime_from_1970)
      Examples.a_chrome CookieJar.empty [Examples.row_sid].
Proof.
  apply (row_rejected_by_localtime_is_skipped
           (Examples.with_localtime Examples.bare_linux Examples.localtime_from_1970)
           Examples.a_chrome CookieJar.empty 11644473599000000
           (PStr ".example.com") (PStr "/") (PInt 0) (PStr "old") (PStr "1") (PBytes [])
           [Examples.row_sid] (mkExn OSError "[Errno 22] Invalid argument")).
  - discriminate.
  - unfold Datetime.us_per_day. lia.
  - reflexivity.
  - reflexivity.
Defined.

(** X7. A row whose timestamp falls before year 1 or after year 9999 raises
    [OverflowError] whatever the time zone, and the loop skips it. *)
Theorem row_outside_datetime_range_is_skipped :
  forall (w : world) (self : Chrome.t) (cj : CookieJar.jar) (n : Z)
         (host path secure name item5 item6 : pyval) (after : list (list pyval)),
    (n < -584388 * Datetime.us_per_day \/ 3067671 * Datetime.us_per_day <= n)%Z ->
    (exists e, Chrome.convert_expires w (PInt n) = Raise e /\ exn_class e = OverflowError) /\
    Chrome.load_items w self cj ([host; path; secure; PInt n; name; item5; item6] :: after)
    = Chrome.load_items w self cj after.
Proof.
  intros w self cj n host path secure name item5 item6 after Hrange.
  unfold Datetime.us_per_day in Hrange.
  change (86400 * 1000000)%Z with 86400000000%Z in Hrange.
  assert (Hc : exists e, Chrome.convert_expires w (PInt n) = Raise e /\
                         exn_class e = OverflowError).
  { unfold Chrome.convert_expires. cbn [ne_zero].
    assert (Hz : (n =? 0)%Z = false) by (apply Z.eqb_neq; lia).
    rewrite Hz. cbn [negb int Py.bind].
    unfold Datetime.timedelta_of_microseconds, Datetime.us_per_day.
    change (86400 * 1000000)%Z with 86400000000%Z.
    destruct (999999999 <? Z.abs (n / 86400000000))%Z.
    - eexists. split; reflexivity.
    - cbn [Py.bind].
      unfold Datetime.add, Datetime.epoch_start, Datetime.us_per_day.
      cbn [Datetime.dt_us_of_day Datetime.dt_ordinal Datetime.td_us_of_day Datetime.td_days].
      change (86400 * 1000000)%Z with 86400000000%Z.
      rewrite Z.add_0_l.
      assert (Hrem : (0 <= n mod 86400000000 < 86400000000)%Z)
        by (apply Z.mod_pos_bound; lia).
      rewrite (Z.div_small (n mod 86400000000) 86400000000) by lia.
      unfold Datetime.ordinal_1601, Datetime.MAXORDINAL.
      pose proof (Z.div_mod n 86400000000 ltac:(lia)) as E1.
      assert (Hout : ((0 <? 584389 + n / 86400000000 + 0) &&
                      (584389 + n / 86400000000 + 0 <=? 3652059))%Z = false).
      { apply andb_false_iff. destruct Hrange as [Hlow | Hhigh].
        - left. apply Z.ltb_ge. lia.
        - right. apply Z.leb_gt. lia. }
      rewrite Hout. eexists. split; reflexivity. }
  split; [exact Hc | ].
  destruct Hc as [e [He Hclass]].
  rewrite (load_items_bad_row w self cj _ _ _ _ _ _ _ after e He).
  unfold passed_over, isinstance. rewrite Hclass. reflexivity.
Qed.

Lemma row_outside_datetime_range_is_skipped_witness :
  (exists e, Chrome.convert_expires Examples.bare_linux (PInt 9223372036854775807) = Raise e /\
             exn_class e = OverflowError) /\
  Chrome.load_items Examples.bare_linux Examples.a_chrome CookieJar.empty
    (Examples.row_far :: [Examples.row_sid])
  = Chrome.load_items Examples.bare_linux Examples.a_chrome CookieJar.empty [Examples.row_sid].
Proof.
  apply (row_outside_datetime_range_is_skipped Examples.bare_linux Examples.a_chrome
           CookieJar.empty 9223372036854775807
           (PStr ".example.org") (PStr "/") (PInt 0) (PStr "far") (PStr "1") (PBytes [])
           [Examples.row_sid]).
  right. unfold Datetime.us_per_day. lia.
Defined.

(** The reading of a time in a fixed zone, when the reading is in the years
    1 to 9999. *)
Lemma local_fixed_zone (w : world) (off u : Z) :
  fixed_zone w off ->
  (first_second - 2 * 86400 <= u <= last_second + 2 * 86400)%Z ->
  (first_second <= u + off <= last_second)%Z ->
  Datetime.local (localtime w) u = Ok (u + off)%Z.
Proof.
  intros Hzone Hu Hlt. unfold Datetime.local. rewrite (Hzone u Hu). cbn [Py.bind].
  unfold first_second, last_second, Datetime.ordinal_1970, Datetime.MAXORDINAL in *.
  assert (Hdiv : (-719162 <= (u + off) / 86400 <= 2932896)%Z).
  { split.
    - apply Z.div_le_lower_bound; lia.
    - apply Z.lt_succ_r. apply Z.div_lt_upper_bound; lia. }
  assert (Hin : ((0 <? (u + off) / 86400 + 719163) &&
                 ((u + off) / 86400 + 719163 <=? 3652059))%Z = true).
  { apply andb_true_intro. split; [apply Z.ltb_lt | apply Z.leb_le]; lia. }
  rewrite Hin. reflexivity.
Qed.

(** X25. In a zone [off] seconds east of UTC (a day at most), a non-zero
    timestamp of [n] microseconds since 1601 that falls between the second day
    of year 1 and the end of year 9999, and whose reading in that zone is not
    after year 9999, is converted to the binary64 sum of the seconds since
    1970 of that instant less [off] and of its microseconds over 10^6: the
    reading is taken as local time. *)
Theorem convert_expires_fixed_zone :
  forall (w : world) (off n : Z),
    fixed_zone w off ->
    (-86400 <= off <= 86400)%Z ->
    n <> 0%Z ->
    (-584387 * Datetime.us_per_day <= n < 3067671 * Datetime.us_per_day)%Z ->
    (n / 1000000 - seconds_1601_to_1970 + off <= last_second)%Z ->
    Chrome.convert_expires w (PInt n)
    = Ok (CookieJar.EFloat
            (seconds_plus_micros (n / 1000000 - seconds_1601_to_1970 - off) (n mod 1000000))).
Proof.
  intros w off n Hzone Hoff Hn Hrange Hlast.
  rewrite (convert_expires_in_range w n Hn)
    by (unfold Datetime.us_per_day in *; lia).
  set (t := (n / 1000000 - seconds_1601_to_1970)%Z) in *.
  assert (Ht : (first_second + 86400 <= t <= last_second)%Z).
  { subst t. unfold first_second, last_second, seconds_1601_to_1970, Datetime.us_per_day,
      Datetime.ordinal_1970, Datetime.MAXORDINAL in *.
    split.
    - assert (-50491036800 <= n / 1000000)%Z by (apply Z.div_le_lower_bound; lia). lia.
    - assert (n / 1000000 < 265046774400)%Z by (apply Z.div_lt_upper_bound; lia). lia. }
  unfold Datetime.local_to_seconds, Datetime.max_fold_seconds.
  rewrite (local_fixed_zone w off t Hzone) by lia. cbn [Py.bind].
  replace (t - (t + off - t))%Z with (t - off)%Z by lia.
  rewrite (local_fixed_zone w off (t - off) Hzone) by lia. cbn [Py.bind].
  replace (t - off + off)%Z with t by lia. rewrite Z.eqb_refl.
  rewrite (local_fixed_zone w off (t - off - 24 * 3600) Hzone) by lia. cbn [Py.bind].
  replace (t + off - t =? t - off - 24 * 3600 + off - (t - off - 24 * 3600))%Z with true
    by (symmetry; apply Z.eqb_eq; lia).
  reflexivity.
Qed.

Lemma convert_expires_fixed_zone_witness :
  Chrome.convert_expires
    (Examples.linux_with_chrome (Examples.cookies_table "is_secure" [Examples.row_sid]) 3600)
    (PInt 13000000000000000)
  = Ok (CookieJar.EFloat (seconds_plus_micros 1355522800 0)) /\
  int_of_float (seconds_plus_micros 1355522800 0) = 1355522800%Z /\
  Chrome.convert_expires Examples.bare_linux (PInt 28824342784999999)
  = Ok (CookieJar.EFloat (seconds_plus_micros 17179869184 999999)) /\
  int_of_float (seconds_plus_micros 17179869184 999999) = 17179869185%Z.
Proof.
  split; [ | split; [vm_compute; reflexivity | split; [ | vm_compute; reflexivity]]].
  - apply (convert_expires_fixed_zone
             (Examples.linux_with_chrome (Examples.cookies_table "is_secure" [Examples.row_sid])
                3600) 3600 13000000000000000).
    + intros u _. reflexivity.
    + lia.
    + discriminate.
    + unfold Datetime.us_per_day. lia.
    + vm_compute. discriminate.
  - apply (convert_expires_fixed_zone Examples.bare_linux 0 28824342784999999).
    + intros u _. reflexivity.
    + lia.
    + discriminate.
    + unfold Datetime.us_per_day. lia.
    + vm_compute. discriminate.
Defined.

(** *** Where [Chrome()] looks for the store *)

Lemma linux_is_not_darwin (p : string) :
  String.prefix "linux" p = true -> String.eqb p "darwin" = false.
Proof.
  intros H. destruct (String.eqb_spec p "darwin") as [-> | _]; [discriminate H | reflexivity].
Qed.

Lemma por_truthy (a b : path_arg) : path_truthy a = true -> por a b = a.
Proof. intros H. unfold por. rewrite H. reflexivity. Qed.

Lemma por_falsy (a b : path_arg) : path_truthy a = false -> por a b = b.
Proof. intros H. unfold por. rewrite H. reflexivity. Qed.

Lemma win32_is_not_others (p : string) :
  String.eqb p "win32" = true ->
  String.eqb p "darwin" = false /\ String.prefix "linux" p = false.
Proof.
  intros H. apply String.eqb_eq in H. subst p. split; reflexivity.
Qed.

(** X8. Under Linux [Chrome()] takes the path it is given (of several, the
    first, whether or not it exists) and else the one place
    [~/.config/google-chrome/Default/Cookies]: the Chromium and beta places of
    the source are never used. It copies that file, or raises
    [BrowserCookieError] when it is not there, and derives the key from
    ['peanuts'] with one round. *)
Theorem chrome_init_linux :
  forall (w : world) (cookie_file : path_arg) (domain_name : string),
    String.prefix "linux" (sys_platform w) = true ->
    google_chrome_path w <> "" ->
    Chrome.__init__ w cookie_file domain_name
    = (tmp <- create_local_copy w (linux_choice w cookie_file) ;;
       Ok (Chrome.mk (b_ "saltysalt") (repeat Byte.x20 16) 16 domain_name
             (Some (PBKDF2_read w (b_ "peanuts") (b_ "saltysalt") 1 16)) tmp)).
Proof.
  intros w cf d Hlinux Hgoogle. unfold Chrome.__init__.
  rewrite (linux_is_not_darwin _ Hlinux), Hlinux. cbn [Py.bind].
  unfold google_chrome_path in Hgoogle.
  assert (Hg : String.eqb (expanduser w "~/.config/google-chrome/Default/Cookies") "" = false)
    by (apply String.eqb_neq; exact Hgoogle).
  unfold linux_choice, google_chrome_path, por.
  destruct cf as [ | f | [ | f l]]; cbn [path_truthy negb].
  - rewrite Hg. cbn [negb path_truthy]. rewrite Hg. reflexivity.
  - destruct (String.eqb f "") eqn:Ef; cbn [negb path_truthy].
    + rewrite Hg. cbn [negb path_truthy]. rewrite Hg. reflexivity.
    + rewrite Ef. cbn [negb path_truthy]. rewrite Ef. reflexivity.
  - rewrite Hg. cbn [negb path_truthy]. rewrite Hg. reflexivity.
  - reflexivity.
Qed.

Lemma chrome_init_linux_witness :
  Chrome.__init__ Examples.linux_with_chromium_only PathNone ""
  = Raise (mkExn BrowserCookieError
             "Can not find cookie file at: /home/u/.config/google-chrome/Default/Cookies").
Proof.
  refine (eq_trans (chrome_init_linux Examples.linux_with_chromium_only PathNone "" _ _) _).
  - reflexivity.
  - vm_compute. discriminate.
  - vm_compute. reflexivity.
Defined.

(** X9. Under Windows, when no path is given and the policy key gives a user
    data directory, [Chrome()] copies [Default/Cookies] of that directory
    (expanded for [REG_EXPAND_SZ]) before any default place is globbed, and
    raises [BrowserCookieError] when that file is not there. *)
Theorem chrome_init_windows_policy :
  forall (w : world) (cookie_file : path_arg) (domain_name user_data_dir : string)
         (type_ : reg_type),
    String.eqb (sys_platform w) "win32" = true ->
    path_truthy cookie_file = false ->
    registry_UserDataDir w = Some (user_data_dir, type_) ->
    type_ <> REG_OTHER ->
    policy_path w user_data_dir type_ <> "" ->
    Chrome.__init__ w cookie_file domain_name
    = (tmp <- create_local_copy w (policy_path w user_data_dir type_) ;;
       Ok (Chrome.mk (b_ "saltysalt") (repeat Byte.x20 16) 16 domain_name None tmp)).
Proof.
  intros w cf d dir ty Hwin Hcf Hreg Hty Hpol. unfold Chrome.__init__.
  destruct (win32_is_not_others _ Hwin) as [Hd Hl]. rewrite Hd, Hl, Hwin. cbn [Py.bind].
  assert (Hp : windows_group_policy_path w = PathStr (policy_path w dir ty)).
  { unfold windows_group_policy_path, policy_path. rewrite Hreg.
    destruct ty; [reflexivity | reflexivity | contradiction]. }
  assert (Ht : path_truthy (PathStr (policy_path w dir ty)) = true).
  { cbn [path_truthy]. apply negb_true_iff. apply String.eqb_neq. exact Hpol. }
  rewrite (por_falsy cf _ Hcf), Hp. rewrite !(por_truthy _ _ Ht). reflexivity.
Qed.

Lemma chrome_init_windows_policy_witness :
  Chrome.__init__ Examples.windows_with_policy PathNone ""
  = Raise (mkExn BrowserCookieError "Can not find cookie file at: D:/policy/Default/Cookies").
Proof.
  refine (eq_trans (chrome_init_windows_policy Examples.windows_with_policy PathNone ""
                      "D:/policy" REG_SZ _ _ _ _ _) _).
  - reflexivity.
  - reflexivity.
  - reflexivity.
  - discriminate.
  - vm_compute. discriminate.
  - vm_compute. reflexivity.
Defined.

(** X10. Under Windows, when no path is given, the policy key gives nothing and
    none of the three default places is found, [Chrome()] raises
    [BrowserCookieError]. *)
Theorem chrome_init_windows_nothing_found :
  forall (w : world) (cookie_file : path_arg) (domain_name : string),
    String.eqb (sys_platform w) "win32" = true ->
    path_truthy cookie_file = false ->
    path_truthy (windows_group_policy_path w) = false ->
    glob_glob w (path_join w (getenv_or_empty w "APPDATA")
                   "..\Local\Google\Chrome\User Data\Default\Cookies") = [] ->
    glob_glob w (path_join w (getenv_or_empty w "LOCALAPPDATA")
                   "Google\Chrome\User Data\Default\Cookies") = [] ->
    glob_glob w (path_join w (getenv_or_empty w "APPDATA")
                   "Google\Chrome\User Data\Default\Cookies") = [] ->
    Chrome.__init__ w cookie_file domain_name
    = Raise (mkExn BrowserCookieError "Failed to find Chrome cookie") /\
    chrome w cookie_file domain_name
    = Raise (mkExn BrowserCookieError "Failed to find Chrome cookie").
Proof.
  intros w cf d Hwin Hcf Hpol H1 H2 H3.
  assert (Hi : Chrome.__init__ w cf d
               = Raise (mkExn BrowserCookieError "Failed to find Chrome cookie")).
  { unfold Chrome.__init__.
    destruct (win32_is_not_others _ Hwin) as [Hd Hl]. rewrite Hd, Hl, Hwin. cbn [Py.bind].
    rewrite H1, H2, H3. unfold por. rewrite Hcf, Hpol. reflexivity. }
  split; [exact Hi | ]. unfold chrome. rewrite Hi. reflexivity.
Qed.

Lemma chrome_init_windows_nothing_found_witness :
  Chrome.__init__ Examples.bare_windows PathNone ""
  = Raise (mkExn BrowserCookieError "Failed to find Chrome cookie") /\
  chrome Examples.bare_windows PathNone ""
  = Raise (mkExn BrowserCookieError "Failed to find Chrome cookie").
Proof.
  apply (chrome_init_windows_nothing_found Examples.bare_windows PathNone ""); reflexivity.
Defined.

(** X11. A [Chrome] object that [__init__] returns holds the bytes of a file of
    the host as its snapshot, the domain filter it was given, the fixed salt
    and IV, and the key of its platform: the keyring password with 1003
    rounds on macOS, ['peanuts'] with one round on Linux, none on Windows. *)
Theorem chrome_init_result :
  forall (w : world) (cookie_file : path_arg) (domain_name : string) (self : Chrome.t),
    Chrome.__init__ w cookie_file domain_name = Ok self ->
    (exists f, file_bytes w f = Some (Chrome.tmp_cookie_file self)) /\
    Chrome.domain_name self = domain_name /\
    Chrome.salt self = b_ "saltysalt" /\
    Chrome.iv self = repeat Byte.x20 16 /\
    Chrome.key self = derived_key w.
Proof.
  intros w cf d self H. unfold Chrome.__init__ in H. unfold derived_key.
  assert (Hcopy : forall (k : option bytes) (c : path_arg),
            (cookie_file <- match c with
                            | PathList [] => raise BrowserCookieError "Failed to find Chrome cookie"
                            | PathList (f :: _) => Ok f
                            | PathStr f => Ok f
                            | PathNone => raise TypeError
                                "stat: path should be string, bytes, os.PathLike or integer, not NoneType"
                            end ;;
             tmp <- create_local_copy w cookie_file ;;
             Ok (Chrome.mk Chrome.the_salt Chrome.the_iv 16 d k tmp)) = Ok self ->
            (exists f, file_bytes w f = Some (Chrome.tmp_cookie_file self)) /\
            Chrome.domain_name self = d /\
            Chrome.salt self = b_ "saltysalt" /\
            Chrome.iv self = repeat Byte.x20 16 /\
            Chrome.key self = k).
  { intros k c Hc.
    destruct (match c with
              | PathList [] => raise BrowserCookieError "Failed to find Chrome cookie"
              | PathList (f :: _) => Ok f
              | PathStr f => Ok f
              | PathNone => raise TypeError
                  "stat: path should be string, bytes, os.PathLike or integer, not NoneType"
              end) as [f | e]; [ | discriminate Hc].
    cbn [Py.bind] in Hc. unfold create_local_copy, path_exists, open_read in Hc.
    destruct (file_bytes w f) as [b | ] eqn:Ef;
      [ | destruct (path_unreadable w f); discriminate Hc].
    cbn [Py.bind] in Hc. injection Hc as <-.
    split; [exists f; exact Ef | repeat split]. }
  destruct (String.eqb (sys_platform w) "darwin").
  - destruct (keyring_get_password w "Chrome Safe Storage" "Chrome") as [my_pass | ];
      [ | discriminate H].
    cbn [Py.bind] in H. exact (Hcopy _ _ H).
  - destruct (String.prefix "linux" (sys_platform w)).
    + cbn [Py.bind] in H. exact (Hcopy _ _ H).
    + destruct (String.eqb (sys_platform w) "win32"); [ | discriminate H].
      cbn [Py.bind] in H. exact (Hcopy _ _ H).
Qed.

Lemma chrome_init_result_witness :
  exists self,
    Chrome.__init__
      (Examples.linux_with_chrome (Examples.cookies_table "is_secure" [Examples.row_sid]) 0)
      PathNone "example" = Ok self /\
    Chrome.domain_name self = "example" /\
    Chrome.key self = Some (repeat Byte.x6b 16).
Proof.
  eexists. split; [vm_compute; reflexivity | ].
  refine ((fun H => conj (proj1 (proj2 H)) (proj2 (proj2 (proj2 (proj2 H)))))
            (chrome_init_result
               (Examples.linux_with_chrome
                  (Examples.cookies_table "is_secure" [Examples.row_sid]) 0)
               PathNone "example" _ _)).
  vm_compute. reflexivity.
Defined.

(** *** What the store reader raises and returns *)

(** X12. For a plain filter, when the [cookies] table has neither the
    [secure] nor the [is_secure] column, both queries raise
    [sqlite3.OperationalError] and [load] raises the second one. *)
Theorem load_raises_when_both_dialects_fail :
  forall (w : world) (self : Chrome.t) (t : Sqlite.table),
    holds_cookies_table w self t ->
    Sqlite.plain_filter (Chrome.domain_name self) = true ->
    has_column t "secure" = false ->
    has_column t "is_secure" = false ->
    exists e,
      exn_class e = OperationalError /\
      sqlite_query w (Chrome.tmp_cookie_file self)
        (Chrome.select_cookies "is_secure" (Chrome.domain_name self)) = Raise e /\
      Chrome.fetch w self = Raise e /\
      Chrome.load w self = Raise e.
Proof.
  intros w self t Ht Hplain Hlegacy Hnewer.
  destruct (query_missing_dialect w self t "secure" Ht Hplain Hlegacy) as [e1 [He1 Hc1]].
  destruct (query_missing_dialect w self t "is_secure" Ht Hplain Hnewer) as [e2 [He2 Hc2]].
  assert (Hf : Chrome.fetch w self = Raise e2).
  { unfold Chrome.fetch. rewrite He1. unfold try_except, isinstance. rewrite Hc1.
    cbn [existsb issubclass pyclass_eqb orb]. rewrite He2. reflexivity. }
  exists e2. split; [exact Hc2 | ]. split; [exact He2 | ]. split; [exact Hf | ].
  unfold Chrome.load. rewrite Hf. reflexivity.
Qed.

Lemma load_raises_when_both_dialects_fail_witness :
  exists e,
    exn_class e = OperationalError /\
    sqlite_query Examples.linux_with_odd_chrome (Chrome.tmp_cookie_file Examples.chrome_on_store)
      (Chrome.select_cookies "is_secure" (Chrome.domain_name Examples.chrome_on_store))
    = Raise e /\
    Chrome.fetch Examples.linux_with_odd_chrome Examples.chrome_on_store = Raise e /\
    Chrome.load Examples.linux_with_odd_chrome Examples.chrome_on_store = Raise e.
Proof.
  apply (load_raises_when_both_dialects_fail Examples.linux_with_odd_chrome
           Examples.chrome_on_store
           (Sqlite.mkTable "cookies"
              ["host_key"; "path"; "expires_utc"; "name"; "value"; "encrypted_value"] [])).
  - eexists. split; [reflexivity | split; reflexivity].
  - reflexivity.
  - reflexivity.
  - reflexivity.
Defined.

(** X13. For a plain filter, when the snapshot is not empty and is not a
    database, the first query raises [sqlite3.DatabaseError], which the
    handler for [OperationalError] does not catch: [load] raises it without
    trying the second query.  An empty snapshot is a database without tables:
    both queries raise [OperationalError]. *)
Theorem load_raises_on_a_file_that_is_no_database :
  forall (w : world) (self : Chrome.t),
    Sqlite.plain_filter (Chrome.domain_name self) = true ->
    (database_of w (Chrome.tmp_cookie_file self) = None ->
     Chrome.fetch w self = Raise (mkExn DatabaseError "file is not a database") /\
     Chrome.load w self = Raise (mkExn DatabaseError "file is not a database") /\
     isinstance (mkExn DatabaseError "file is not a database") OperationalError = false /\
     isinstance (mkExn DatabaseError "file is not a database") BrowserCookieError = false) /\
    (Chrome.tmp_cookie_file self = [] ->
     Chrome.fetch w self = Raise (mkExn OperationalError "no such table: cookies") /\
     Chrome.load w self = Raise (mkExn OperationalError "no such table: cookies")).
Proof.
  intros w self Hplain. split.
  - intros Hdb.
    assert (Hf : Chrome.fetch w self = Raise (mkExn DatabaseError "file is not a database")).
    { unfold Chrome.fetch, sqlite_query.
      cbn [Chrome.select_cookies Sqlite.q_filter]. rewrite Hplain, Hdb. reflexivity. }
    split; [exact Hf | ]. split; [ | split; reflexivity].
    unfold Chrome.load. rewrite Hf. reflexivity.
  - intros Hempty.
    assert (Hf : Chrome.fetch w self
                 = Raise (mkExn OperationalError "no such table: cookies")).
    { unfold Chrome.fetch, sqlite_query, database_of.
      cbn [Chrome.select_cookies Sqlite.q_filter]. rewrite Hplain, Hempty. reflexivity. }
    split; [exact Hf | ]. unfold Chrome.load. rewrite Hf. reflexivity.
Qed.

Lemma load_raises_on_a_file_that_is_no_database_witness :
  (Chrome.fetch Examples.bare_linux Examples.chrome_on_junk
   = Raise (mkExn DatabaseError "file is not a database") /\
   Chrome.load Examples.bare_linux Examples.chrome_on_junk
   = Raise (mkExn DatabaseError "file is not a database")) /\
  (Chrome.fetch Examples.bare_linux Examples.a_chrome
   = Raise (mkExn OperationalError "no such table: cookies") /\
   Chrome.load Examples.bare_linux Examples.a_chrome
   = Raise (mkExn OperationalError "no such table: cookies")).
Proof.
  split.
  - refine ((fun H => conj (proj1 H) (proj1 (proj2 H)))
              (proj1 (load_raises_on_a_file_that_is_no_database Examples.bare_linux
                        Examples.chrome_on_junk _) _)); reflexivity.
  - refine (proj2 (load_raises_on_a_file_that_is_no_database Examples.bare_linux
                     Examples.a_chrome _) _); reflexivity.
Defined.

(** X14. With the empty domain filter (the default), on an engine that reads
    the quoted token as the pattern and a table whose texts are UTF-8, the
    reader returns, in the order of the table, the rows whose [host_key] LIKE
    can compare: those that hold a text or a number, and a BLOB where the
    engine compares BLOBs; a row whose [host_key] is NULL is not returned. *)
Theorem fetch_with_empty_filter_returns_every_row :
  forall (w : world) (self : Chrome.t) (t : Sqlite.table),
    holds_cookies_table w self t ->
    filter_read_as_text w self t = true ->
    texts_decodable t = true ->
    has_column t "secure" || has_column t "is_secure" = true ->
    Chrome.domain_name self = "" ->
    Chrome.fetch w self
    = Ok (map (Sqlite.project (selected t (dialect_read t))) (rows_with_text w t)).
Proof.
  intros w self t Ht Hread Htexts Hsome Hd.
  rewrite <- (matching_rows_empty_filter w self t (selected t (dialect_read t)) Hd).
  unfold Chrome.fetch, dialect_read.
  destruct (has_column t "secure") eqn:Hlegacy.
  - rewrite (query_present_dialect w self t "secure" Ht Hread Htexts Hlegacy). reflexivity.
  - cbn [orb] in Hsome.
    destruct (query_missing_dialect w self t "secure" Ht
                (filter_read_as_text_plain w self t Hread) Hlegacy) as [e [He Hclass]].
    rewrite He. unfold try_except, isinstance. rewrite Hclass.
    cbn [existsb issubclass pyclass_eqb orb].
    rewrite (query_present_dialect w self t "is_secure" Ht Hread Htexts Hsome). reflexivity.
Qed.

Lemma fetch_with_empty_filter_returns_every_row_witness :
  Chrome.fetch
    (Examples.linux_with_chrome
       (Examples.cookies_table "secure"
          [Examples.row_sid; Examples.row_null; Examples.row_blob; Examples.row_tmp]) 0)
    Examples.chrome_on_store
  = Ok [Examples.row_sid; Examples.row_tmp].
Proof.
  apply (fetch_with_empty_filter_returns_every_row
           (Examples.linux_with_chrome
              (Examples.cookies_table "secure"
                 [Examples.row_sid; Examples.row_null; Examples.row_blob; Examples.row_tmp]) 0)
           Examples.chrome_on_store
           (Examples.cookies_table "secure"
              [Examples.row_sid; Examples.row_null; Examples.row_blob; Examples.row_tmp])).
  - eexists. split; [reflexivity | split; reflexivity].
  - vm_compute. reflexivity.
  - vm_compute. reflexivity.
  - reflexivity.
  - reflexivity.
Defined.

(** *** Keys of the jar: the last cookie set under a key is the one found *)

(** X15. When both browsers give their cookies or raise [BrowserCookieError],
    the jar [load] returns holds, under every key (domain, path, name), the
    last cookie with that key in the sequence of Chrome's cookies followed by
    Firefox's: a cookie of Firefox replaces the cookie of Chrome with its key. *)
Theorem load_last_writer_wins :
  forall (w : world) (domain_name : string) (cj : CookieJar.jar),
    absorbed (chrome w PathNone domain_name) ->
    absorbed (fst (firefox w None domain_name)) ->
    fst (load w domain_name) = Ok cj ->
    forall d p n,
      CookieJar.lookup cj d p n
      = last_with_key (found (chrome w PathNone domain_name)
                         ++ found (fst (firefox w None domain_name))) d p n.
Proof.
  intros w dn cj Hc Hf Hload d p n.
  unfold load in Hload. rewrite !fst_obind in Hload.
  destruct (load_from_absorbed CookieJar.empty (lift (chrome w PathNone dn)) Hc
              (fun j Hj => chrome_keyed w PathNone dn j Hj)) as [E1 [cj1 H1]].
  cbn [lift fst] in E1, H1. rewrite E1, H1 in Hload.
  rewrite !fst_obind in Hload.
  destruct (load_from_absorbed cj1 (firefox w None dn) Hf
              (fun j Hj => firefox_keyed w None dn j Hj)) as [E2 [cj2 H2]].
  rewrite E2, H2 in Hload. cbn [oret fst] in Hload. injection Hload as <-.
  assert (Hall : CookieJar.set_cookies CookieJar.empty
                   (found (chrome w PathNone dn) ++ found (fst (firefox w None dn)))
                 = Ok cj2).
  { rewrite set_cookies_app, H1. exact H2. }
  rewrite (lookup_set_cookies _ _ _ d p n Hall).
  destruct (last_with_key _ d p n); reflexivity.
Qed.

Lemma load_last_writer_wins_witness :
  exists cj,
    fst (load Examples.linux_with_both "") = Ok cj /\
    option_map CookieJar.value
      (CookieJar.lookup cj (PStr ".example.net") (PStr "/") (PStr "token"))
    = Some (PStr "t0").
Proof.
  eexists. split; [vm_compute; reflexivity | ].
  refine (eq_trans
            (f_equal (option_map CookieJar.value)
               (load_last_writer_wins Examples.linux_with_both "" _ _ _ _
                  (PStr ".example.net") (PStr "/") (PStr "token"))) _).
  - vm_compute. exact I.
  - vm_compute. exact I.
  - vm_compute. reflexivity.
  - vm_compute. reflexivity.
Defined.

(** *** What [load] raises and prints *)

Lemma snd_obind {A B} (c : out A) (k : A -> out B) :
  snd (obind c k) = match fst c with Ok a => snd c ++ snd (k a) | Raise _ => snd c end.
Proof. unfold obind. destruct (fst c); reflexivity. Qed.

Lemma snd_load_from (cj : CookieJar.jar) (browser : out CookieJar.jar) :
  snd (load_from cj browser) = snd browser.
Proof.
  unfold load_from, otry_except. rewrite fst_obind.
  destruct (fst browser) as [j | e] eqn:Eb.
  - cbn [lift fst]. rewrite snd_obind, Eb. cbn [lift snd].
    destruct (CookieJar.set_cookies cj (CookieJar.cookies j)).
    + rewrite snd_obind, Eb. cbn [lift snd]. apply app_nil_r.
    + destruct (existsb (isinstance e) [BrowserCookieError]);
        rewrite ?snd_obind, ?Eb; cbn [lift snd oret]; rewrite ?app_nil_r;
        try rewrite snd_obind, Eb; cbn [lift snd oret]; rewrite ?app_nil_r; reflexivity.
  - destruct (existsb (isinstance e) [BrowserCookieError]).
    + rewrite snd_obind, Eb. cbn [oret snd]. apply app_nil_r.
    + rewrite snd_obind, Eb. reflexivity.
Qed.

(** The outcome of [load] by cases on what the two browsers did. *)
Lemma load_cases (w : world) (domain_name : string) :
  fst (load w domain_name)
  = match escaping (chrome w PathNone domain_name) with
    | Some e => Raise e
    | None =>
        match escaping (fst (firefox w None domain_name)) with
        | Some e => Raise e
        | None =>
            CookieJar.set_cookies CookieJar.empty
              (found (chrome w PathNone domain_name)
                 ++ found (fst (firefox w None domain_name)))
        end
    end.
Proof.
  unfold load. rewrite fst_obind.
  assert (Hchrome : escaping (chrome w PathNone domain_name) = None ->
                    absorbed (chrome w PathNone domain_name)).
  { unfold escaping, absorbed. destruct (chrome w PathNone domain_name) as [j | e];
      [intros _; exact I | ].
    destruct (isinstance e BrowserCookieError); [reflexivity | discriminate]. }
  assert (Hfirefox : escaping (fst (firefox w None domain_name)) = None ->
                     absorbed (fst (firefox w None domain_name))).
  { unfold escaping, absorbed. destruct (fst (firefox w None domain_name)) as [j | e];
      [intros _; exact I | ].
    destruct (isinstance e BrowserCookieError); [reflexivity | discriminate]. }
  destruct (escaping (chrome w PathNone domain_name)) as [e | ] eqn:Ec.
  - unfold escaping in Ec. destruct (chrome w PathNone domain_name) as [j | e0] eqn:Er;
      [discriminate Ec | ].
    destruct (isinstance e0 BrowserCookieError) eqn:Ei; [discriminate Ec | ].
    injection Ec as <-.
    rewrite (load_from_propagates CookieJar.empty (lift (Raise e0)) e0 eq_refl Ei).
    reflexivity.
  - destruct (load_from_absorbed CookieJar.empty (lift (chrome w PathNone domain_name))
                (Hchrome eq_refl)
                (fun j Hj => chrome_keyed w PathNone domain_name j Hj)) as [E1 [cj1 H1]].
    cbn [lift fst] in E1, H1. rewrite E1, H1. rewrite fst_obind.
    destruct (escaping (fst (firefox w None domain_name))) as [e | ] eqn:Ef.
    + unfold escaping in Ef.
      destruct (fst (firefox w None domain_name)) as [j | e0] eqn:Er; [discriminate Ef | ].
      destruct (isinstance e0 BrowserCookieError) eqn:Ei; [discriminate Ef | ].
      injection Ef as <-.
      rewrite (load_from_propagates cj1 (firefox w None domain_name) e0 Er Ei).
      reflexivity.
    + destruct (load_from_absorbed cj1 (firefox w None domain_name) (Hfirefox eq_refl)
                  (fun j Hj => firefox_keyed w None domain_name j Hj)) as [E2 [cj2 H2]].
      rewrite E2, H2. cbn [oret fst]. rewrite set_cookies_app, H1. cbn [Py.bind].
      symmetry. exact H2.
Qed.

(** X16. [load] raises exactly the first exception of a browser, Chrome before
    Firefox, that is no [BrowserCookieError]; when Chrome's exception leaves
    [load], Firefox is not run and nothing is printed; else [load] prints what
    Firefox prints and, when no exception leaves, returns the jar of Chrome's
    cookies followed by Firefox's. *)
Theorem load_outcome :
  forall (w : world) (domain_name : string),
    fst (load w domain_name)
    = match escaping (chrome w PathNone domain_name) with
      | Some e => Raise e
      | None =>
          match escaping (fst (firefox w None domain_name)) with
          | Some e => Raise e
          | None =>
              CookieJar.set_cookies CookieJar.empty
                (found (chrome w PathNone domain_name)
                   ++ found (fst (firefox w None domain_name)))
          end
      end
    /\
    snd (load w domain_name)
    = match escaping (chrome w PathNone domain_name) with
      | Some _ => []
      | None => snd (firefox w None domain_name)
      end.
Proof.
  intros w d. split; [apply load_cases | ].
  pose proof (load_cases w d) as Hfst.
  unfold load in *. rewrite snd_obind. rewrite snd_load_from. cbn [lift snd app].
  rewrite fst_obind in Hfst.
  destruct (fst (load_from CookieJar.empty (lift (chrome w PathNone d)))) as [cj1 | e1] eqn:E1.
  - destruct (escaping (chrome w PathNone d)) as [e | ] eqn:Ec.
    + unfold escaping in Ec. destruct (chrome w PathNone d) as [j | e0] eqn:Er;
        [discriminate Ec | ].
      destruct (isinstance e0 BrowserCookieError) eqn:Ei; [discriminate Ec | ].
      rewrite (load_from_propagates CookieJar.empty (lift (Raise e0)) e0 eq_refl Ei) in E1.
      discriminate E1.
    + rewrite snd_obind, snd_load_from.
      destruct (fst (load_from cj1 (firefox w None d))); cbn [oret snd]; rewrite ?app_nil_r;
        reflexivity.
  - destruct (escaping (chrome w PathNone d)) as [e | ] eqn:Ec; [reflexivity | ].
    exfalso.
    assert (Ha : absorbed (chrome w PathNone d)).
    { unfold escaping in Ec. unfold absorbed.
      destruct (chrome w PathNone d) as [j | e0]; [exact I | ].
      destruct (isinstance e0 BrowserCookieError); [reflexivity | discriminate Ec]. }
    destruct (load_from_absorbed CookieJar.empty (lift (chrome w PathNone d)) Ha
                (fun j Hj => chrome_keyed w PathNone d j Hj)) as [E [cj1 H1]].
    cbn [lift fst] in E, H1. rewrite E, H1 in E1. discriminate E1.
Qed.

(** X17. On macOS [load] raises for every host and every domain filter, and
    what it raises is no [BrowserCookieError]: either Chrome's exception, or
    the [UnboundLocalError] of the Firefox path resolution, which nothing can
    prevent because [load] gives Firefox no cookie file. *)
Theorem load_always_raises_on_macos :
  forall (w : world) (domain_name : string),
    sys_platform w = "darwin" ->
    exists e,
      fst (load w domain_name) = Raise e /\ isinstance e BrowserCookieError = false.
Proof.
  intros w d Hmac. rewrite load_cases.
  destruct (escaping (chrome w PathNone d)) as [e | ] eqn:Ec.
  - exists e. split; [reflexivity | ].
    unfold escaping in Ec. destruct (chrome w PathNone d) as [j | e0]; [discriminate Ec | ].
    destruct (isinstance e0 BrowserCookieError) eqn:Ei; [discriminate Ec | ].
    injection Ec as <-. exact Ei.
  - assert (Hf : fst (firefox w None d)
                 = Raise (mkExn UnboundLocalError
                            "local variable 'profiles_ini_path' referenced before assignment")).
    { unfold firefox, Firefox.__init__, Firefox.find_cookie_file. rewrite Hmac. reflexivity. }
    rewrite Hf. eexists. split; reflexivity.
Qed.

Lemma load_always_raises_on_macos_witness :
  exists e,
    fst (load Examples.bare_macos "") = Raise e /\ isinstance e BrowserCookieError = false.
Proof.
  apply (load_always_raises_on_macos Examples.bare_macos ""). reflexivity.
Defined.

(** X18. On a platform that is neither macOS, Linux nor Windows, both [Chrome()]
    and the Firefox path resolution raise [BrowserCookieError], and [load]
    returns the empty jar and prints nothing. *)
Theorem load_on_unsupported_platform :
  forall (w : world) (cookie_file : path_arg) (domain_name : string),
    unsupported w ->
    chrome w cookie_file domain_name
    = Raise (mkExn BrowserCookieError
               "OS not recognized. Works on Chrome for OSX, Windows, and Linux.") /\
    Firefox.find_cookie_file w
    = Raise (mkExn BrowserCookieError
               (String.append "Unsupported operating system: " (sys_platform w))) /\
    load w domain_name = (Ok CookieJar.empty, []).
Proof.
  intros w cf d [Hd [Hl Hw]].
  assert (Hc : forall cf0, chrome w cf0 d
               = Raise (mkExn BrowserCookieError
                          "OS not recognized. Works on Chrome for OSX, Windows, and Linux.")).
  { intros cf0. unfold chrome, Chrome.__init__. rewrite Hd, Hl, Hw. reflexivity. }
  assert (Hf : Firefox.find_cookie_file w
               = Raise (mkExn BrowserCookieError
                          (String.append "Unsupported operating system: " (sys_platform w)))).
  { unfold Firefox.find_cookie_file. rewrite Hd, Hl, Hw. reflexivity. }
  split; [apply Hc | ]. split; [exact Hf | ].
  unfold load, load_from, firefox, Firefox.__init__. rewrite Hc, Hf. reflexivity.
Qed.

Lemma load_on_unsupported_platform_witness :
  chrome Examples.bare_freebsd PathNone ""
  = Raise (mkExn BrowserCookieError
             "OS not recognized. Works on Chrome for OSX, Windows, and Linux.") /\
  Firefox.find_cookie_file Examples.bare_freebsd
  = Raise (mkExn BrowserCookieError "Unsupported operating system: freebsd13") /\
  load Examples.bare_freebsd "" = (Ok CookieJar.empty, []).
Proof.
  apply (load_on_unsupported_platform Examples.bare_freebsd PathNone "").
  split; [reflexivity | split; reflexivity].
Defined.

(** *** Firefox: the profile manifest *)

(** The loop passes over every section it does not return from. *)
Lemma default_profile_loop_skips (w : world) (c : config) (template : string)
    (rest : list string) :
  forall before : list string,
    (forall s, In s before -> section_passed_over c s) ->
    Firefox.default_profile_loop w c (before ++ rest) template
    = Firefox.default_profile_loop w c rest template.
Proof.
  induction before as [ | s before IH]; intros Hno; [reflexivity | ].
  cbn [app Firefox.default_profile_loop].
  assert (Hrest : Firefox.default_profile_loop w c (before ++ rest) template
                  = Firefox.default_profile_loop w c rest template).
  { apply IH. intros x Hx. apply Hno. right. exact Hx. }
  destruct (Hno s (or_introl eq_refl)) as [[Hdefault Hrelative] Hpath].
  destruct (config_getitem c s "Default") as [d | e] eqn:Hd.
  - cbn [Py.bind]. destruct (String.eqb d "1") eqn:Hd1.
    + apply String.eqb_eq in Hd1. subst d.
      destruct (config_getitem c s "IsRelative") as [r | e] eqn:Hr.
      * cbn [Py.bind]. destruct (String.eqb r "1") eqn:Hr1.
        -- apply String.eqb_eq in Hr1. subst r.
           destruct (Hpath eq_refl eq_refl) as [e [Hp He]]. rewrite Hp.
           cbn [Py.bind].
           rewrite (try_except_KeyError (Raise e) e (fun _ => Ok None) eq_refl He).
           cbn [Py.bind]. exact Hrest.
        -- cbn [try_except Py.bind]. exact Hrest.
      * cbn [Py.bind].
        rewrite (try_except_KeyError (Raise e) e (fun _ => Ok None) eq_refl
                   (Hrelative e eq_refl eq_refl)).
        cbn [Py.bind]. exact Hrest.
    + cbn [try_except Py.bind]. exact Hrest.
  - cbn [Py.bind].
    rewrite (try_except_KeyError (Raise e) e (fun _ => Ok None) eq_refl (Hdefault e eq_refl)).
    cbn [Py.bind]. exact Hrest.
Qed.

(** X19. For a template whose only braces are those of [{0}],
    [get_default_profile] returns the template filled with the interpolated
    [Path] of the first section, in the order of the manifest, that is marked
    [Default=1] and [IsRelative=1] and has a [Path]; a section before it is
    passed over when its marks are read without another error than that of a
    missing option and it lacks a mark, has another value for one, or lacks
    the [Path]. *)
Theorem get_default_profile_first_marked_section :
  forall (w : world) (profiles_ini_path : list string) (template_for_relative : string)
         (manifest : config) (before : list string) (section : string)
         (after : list string) (p : string),
    config_read w profiles_ini_path (mkConfig [] []) = Ok manifest ->
    map fst (cfg_sections manifest) = before ++ section :: after ->
    (forall s, In s before -> section_passed_over manifest s) ->
    config_getitem manifest section "Default" = Ok "1" ->
    config_getitem manifest section "IsRelative" = Ok "1" ->
    config_getitem manifest section "Path" = Ok p ->
    only_field_0 template_for_relative = true ->
    Firefox.get_default_profile w profiles_ini_path template_for_relative
    = Ok (format0 template_for_relative p).
Proof.
  intros w paths template manifest before section after p Hread Hsections Hbefore Hd Hr Hp
         Htemplate.
  unfold Firefox.get_default_profile. rewrite Hread. cbn [Py.bind]. rewrite Hsections.
  rewrite (default_profile_loop_skips w manifest template (section :: after) before Hbefore).
  cbn [Firefox.default_profile_loop]. rewrite Hd. cbn [Py.bind String.eqb Ascii.eqb Bool.eqb].
  rewrite Hr. cbn [Py.bind String.eqb Ascii.eqb Bool.eqb]. rewrite Hp.
  unfold format. rewrite Htemplate. reflexivity.
Qed.

Lemma get_default_profile_first_marked_section_witness :
  Firefox.get_default_profile Examples.linux_with_two_profiles [Examples.profiles_ini]
    "/home/u/.mozilla/firefox/{0}/cookies.sqlite"
  = Ok "/home/u/.mozilla/firefox/abc.default/cookies.sqlite".
Proof.
  apply (get_default_profile_first_marked_section Examples.linux_with_two_profiles
           [Examples.profiles_ini] "/home/u/.mozilla/firefox/{0}/cookies.sqlite"
           Examples.manifest_two ["General"; "Profile1"] "Profile0" [] "abc.default").
  - vm_compute. reflexivity.
  - reflexivity.
  - intros s Hin. simpl in Hin.
    destruct Hin as [<- | [<- | []]].
    + split; [split | ].
      * intros e H. vm_compute in H. injection H as <-. reflexivity.
      * intros e H. vm_compute in H. discriminate H.
      * intros H. vm_compute in H. discriminate H.
    + split; [split | ].
      * intros e H. vm_compute in H. discriminate H.
      * intros e _ H. vm_compute in H. discriminate H.
      * intros _ _. eexists. split; [vm_compute; reflexivity | reflexivity].
  - reflexivity.
  - reflexivity.
  - reflexivity.
  - reflexivity.
Defined.

(** X20. On Linux and on Windows, when the manifest that was read (or the empty
    one, when no manifest file is found) has no section marked both
    [Default=1] and [IsRelative=1], and its marks are read without another
    error than that of a missing option, [find_cookie_file] raises the
    [NameError] of [get_default_profile] before it globs for a store,
    whatever store the host has; [firefox()] raises it without printing, and
    [load] raises an exception that is no [BrowserCookieError]. *)
Theorem find_cookie_file_needs_marked_profile :
  forall (w : world) (manifest : config) (domain_name : string),
    String.prefix "linux" (sys_platform w) = true \/ sys_platform w = "win32" ->
    config_read w (manifest_paths w) (mkConfig [] []) = Ok manifest ->
    no_default_relative manifest ->
    marks_readable manifest ->
    Firefox.find_cookie_file w = Raise (mkExn NameError "name 'none' is not defined") /\
    firefox w None domain_name = (Raise (mkExn NameError "name 'none' is not defined"), []) /\
    exists e,
      fst (load w domain_name) = Raise e /\ isinstance e BrowserCookieError = false.
Proof.
  intros w manifest d Hplatform Hread Hno Hmarks.
  assert (Hfind : Firefox.find_cookie_file w
                  = Raise (mkExn NameError "name 'none' is not defined")).
  { unfold Firefox.find_cookie_file, Firefox.get_default_profile.
    unfold manifest_paths in Hread.
    destruct Hplatform as [Hlinux | Hwin].
    - rewrite (linux_is_not_darwin _ Hlinux), Hlinux. rewrite Hlinux in Hread.
      rewrite Hread. cbn [Py.bind].
      rewrite (default_profile_loop_falls_through w manifest _ _ Hno Hmarks). reflexivity.
    - assert (Hw : String.eqb (sys_platform w) "win32" = true)
        by (rewrite Hwin; reflexivity).
      destruct (win32_is_not_others _ Hw) as [Hd Hl].
      rewrite Hd, Hl, Hw. rewrite Hl in Hread.
      rewrite Hread. cbn [Py.bind].
      rewrite (default_profile_loop_falls_through w manifest _ _ Hno Hmarks). reflexivity. }
  assert (Hfirefox : firefox w None d
                     = (Raise (mkExn NameError "name 'none' is not defined"), [])).
  { unfold firefox, Firefox.__init__. rewrite Hfind. reflexivity. }
  split; [exact Hfind | ]. split; [exact Hfirefox | ].
  rewrite load_cases.
  destruct (escaping (chrome w PathNone d)) as [e | ] eqn:Ec.
  - exists e. split; [reflexivity | ].
    unfold escaping in Ec. destruct (chrome w PathNone d) as [j | e0]; [discriminate Ec | ].
    destruct (isinstance e0 BrowserCookieError) eqn:Ei; [discriminate Ec | ].
    injection Ec as <-. exact Ei.
  - rewrite Hfirefox. eexists. split; reflexivity.
Qed.

Lemma find_cookie_file_needs_marked_profile_witness :
  (path_exists Examples.linux_without_manifest Examples.firefox_path = true /\
   Firefox.find_cookie_file Examples.linux_without_manifest
   = Raise (mkExn NameError "name 'none' is not defined")) /\
  Firefox.find_cookie_file Examples.linux_with_absolute_profile
  = Raise (mkExn NameError "name 'none' is not defined").
Proof.
  split; [split; [reflexivity | ] | ].
  - refine (proj1 (find_cookie_file_needs_marked_profile Examples.linux_without_manifest
                     (mkConfig [] []) "" _ _ _ _)).
    + left. reflexivity.
    + reflexivity.
    + intros section Hin. destruct Hin.
    + intros section Hin. destruct Hin.
  - refine (proj1 (find_cookie_file_needs_marked_profile Examples.linux_with_absolute_profile
                     Examples.manifest_absolute "" _ _ _ _)).
    + left. reflexivity.
    + vm_compute. reflexivity.
    + intros section Hin [Hd Hr]. simpl in Hin.
      destruct Hin as [<- | [<- | []]]; vm_compute in Hd, Hr; discriminate.
    + intros section Hin. simpl in Hin.
      destruct Hin as [<- | [<- | []]]; split; intros e;
        [intros H | intros H0 H | intros H | intros H0 H];
        vm_compute in H; try discriminate H; try (injection H as <-; reflexivity).
Defined.

(** *** Firefox: the session logs *)

(** X21. A session log that parses, but to a JSON value that is no object (an
    array, a number, a text, [null]), makes [__add_session_cookies] raise
    [AttributeError] for [get]: it is no [ValueError], so nothing is printed,
    and [Firefox.load] raises it instead of returning the cookies of the
    store. *)
Theorem session_log_that_is_no_object_aborts :
  forall (w : world) (self : Firefox.t) (cj : CookieJar.jar) (content : bytes) (v : pyval),
    file_bytes w (Firefox.session_file self) = Some content ->
    Firefox.read_session w content = Ok v ->
    (forall d, v <> PDict d) ->
    Firefox.__add_session_cookies w self cj
    = (Raise (mkExn AttributeError "object has no attribute 'get'"), []) /\
    (Firefox.load_store w self = Ok cj ->
     Firefox.load w self = (Raise (mkExn AttributeError "object has no attribute 'get'"), [])).
Proof.
  intros w self cj content v Hfile Hread Hv.
  assert (H : forall cj0, Firefox.__add_session_cookies w self cj0
              = (Raise (mkExn AttributeError "object has no attribute 'get'"), [])).
  { intros cj0. unfold Firefox.__add_session_cookies, path_exists, open_read.
    rewrite Hfile. cbn [negb Py.bind]. rewrite Hread.
    cbn [try_except_else].
    destruct v; try reflexivity. exfalso. exact (Hv d eq_refl). }
  split; [apply H | ].
  intros Hstore. unfold Firefox.load. rewrite Hstore.
  unfold obind, lift. cbn [fst snd]. rewrite H. reflexivity.
Qed.

Lemma session_log_that_is_no_object_aborts_witness :
  exists cj,
    Firefox.load_store Examples.linux_with_array_session Examples.a_firefox = Ok cj /\
    Firefox.load Examples.linux_with_array_session Examples.a_firefox
    = (Raise (mkExn AttributeError "object has no attribute 'get'"), []).
Proof.
  eexists. split; [vm_compute; reflexivity | ].
  refine (proj2 (session_log_that_is_no_object_aborts Examples.linux_with_array_session
                   Examples.a_firefox _ (b_ "[]") (PList []) _ _ _) _).
  - reflexivity.
  - vm_compute. reflexivity.
  - discriminate.
  - vm_compute. reflexivity.
Defined.

(** The loop over the entries of a log sets the cookies of the entries, one
    after the other. *)
Lemma add_cookies_sets_session_cookies (w : world) :
  forall (entries : list pyval) (cj cj' : CookieJar.jar),
    Firefox.add_cookies w cj entries = Ok cj' ->
    exists l, session_cookies w entries = Ok l /\ CookieJar.set_cookies cj l = Ok cj'.
Proof.
  induction entries as [ | entry rest IH]; intros cj cj' H.
  - exists []. split; [reflexivity | exact H].
  - cbn [Firefox.add_cookies session_cookies] in *.
    destruct (Firefox.__create_session_cookie w entry) as [c | e]; [ | discriminate H].
    cbn [Py.bind] in *.
    destruct (CookieJar.set_cookie cj c) as [cj1 | e] eqn:E1; [ | discriminate H].
    cbn [Py.bind] in H.
    destruct (IH cj1 cj' H) as [l [Hl Hset]].
    exists (c :: l). rewrite Hl. split; [reflexivity | ].
    cbn [CookieJar.set_cookies]. rewrite E1. exact Hset.
Qed.

(** X22. After the entries of a session log have been added, the jar holds
    under every key (domain, path, name) the cookie of the last entry of the
    log with that key, and else the cookie it held before: an entry of the log
    replaces the cookie of the store, and an earlier entry, with its key. *)
Theorem session_entry_replaces_cookie_with_its_key :
  forall (w : world) (cj cj' : CookieJar.jar) (entries : list pyval),
    Firefox.add_cookies w cj entries = Ok cj' ->
    exists l,
      session_cookies w entries = Ok l /\
      forall d p n,
        CookieJar.lookup cj' d p n
        = match last_with_key l d p n with
          | Some c => Some c
          | None => CookieJar.lookup cj d p n
          end.
Proof.
  intros w cj cj' entries H.
  destruct (add_cookies_sets_session_cookies w entries cj cj' H) as [l [Hl Hset]].
  exists l. split; [exact Hl | ].
  intros d p n. exact (lookup_set_cookies l cj cj' d p n Hset).
Qed.

Lemma session_entry_replaces_cookie_with_its_key_witness :
  exists cj cj',
    Firefox.load_store (Examples.linux_with_firefox []) Examples.a_firefox = Ok cj /\
    Firefox.add_cookies (Examples.linux_with_firefox []) cj Examples.session_entries = Ok cj' /\
    option_map CookieJar.value
      (CookieJar.lookup cj (PStr ".example.net") (PStr "/") (PStr "token"))
    = Some (PStr "t0") /\
    option_map CookieJar.value
      (CookieJar.lookup cj' (PStr ".example.net") (PStr "/") (PStr "token"))
    = Some (PStr "second").
Proof.
  let r := eval vm_compute in
             (Firefox.load_store (Examples.linux_with_firefox []) Examples.a_firefox) in
  match r with
  | Ok ?stored =>
      let r' := eval vm_compute in
                  (Firefox.add_cookies (Examples.linux_with_firefox []) stored
                     Examples.session_entries) in
      match r' with
      | Ok ?added =>
          exists stored, added;
          destruct (session_entry_replaces_cookie_with_its_key
                      (Examples.linux_with_firefox []) stored added Examples.session_entries
                      ltac:(vm_compute; reflexivity)) as [l [Hl Hlookup]]
      end
  end.
  split; [vm_compute; reflexivity | ].
  split; [vm_compute; reflexivity | ].
  split; [vm_compute; reflexivity | ].
  rewrite Hlookup. vm_compute in Hl. injection Hl as <-. vm_compute. reflexivity.
Defined.

(** *** What every cookie of a jar has *)

Section JarInvariant.

Variable P : CookieJar.Cookie -> Prop.

Hypothesis created :
  forall host path secure expires name value c,
    create_cookie host path secure expires name value = Ok c -> P c.

Lemma set_cookie_inv (cj cj' : CookieJar.jar) (c : CookieJar.Cookie) :
  Forall P (CookieJar.cookies cj) -> P c -> CookieJar.set_cookie cj c = Ok cj' ->
  Forall P (CookieJar.cookies cj').
Proof.
  intros Hcj Hc H. apply Forall_forall. intros x Hx.
  destruct (set_cookie_In cj cj' c x H Hx) as [-> | Hin]; [exact Hc | ].
  rewrite Forall_forall in Hcj. apply Hcj. exact Hin.
Qed.

Lemma set_cookies_inv :
  forall (l : list CookieJar.Cookie) (cj cj' : CookieJar.jar),
    Forall P (CookieJar.cookies cj) -> Forall P l -> CookieJar.set_cookies cj l = Ok cj' ->
    Forall P (CookieJar.cookies cj').
Proof.
  induction l as [ | c l IH]; intros cj cj' Hcj Hl H.
  - injection H as <-. exact Hcj.
  - cbn [CookieJar.set_cookies] in H.
    destruct (CookieJar.set_cookie cj c) as [cj1 | e] eqn:E; [ | discriminate H].
    cbn [Py.bind] in H. inversion Hl as [ | c0 l0 Hc Hl']. subst.
    apply (IH cj1 cj'); [exact (set_cookie_inv cj cj1 c Hcj Hc E) | exact Hl' | exact H].
Qed.

Lemma chrome_load_items_inv (w : world) (self : Chrome.t) :
  forall (items : list (list pyval)) (cj cj' : CookieJar.jar),
    Forall P (CookieJar.cookies cj) -> Chrome.load_items w self cj items = Ok cj' ->
    Forall P (CookieJar.cookies cj').
Proof.
  induction items as [ | item items IH]; intros cj cj' Hcj H.
  - injection H as <-. exact Hcj.
  - cbn [Chrome.load_items] in H. unfold try_except in H.
    destruct (Chrome.load_item w self cj item) as [cj1 | e] eqn:E.
    + cbn [Py.bind] in H. apply (IH cj1 cj'); [ | exact H].
      unfold Chrome.load_item in E.
      destruct item as [ | a0 [ | a1 [ | a2 [ | a3 [ | a4 [ | a5 [ | a6 [ | a7 l]]]]]]]];
        try discriminate E.
      bind_inv E.
      match goal with
      | Hc : create_cookie _ _ _ _ _ _ = Ok ?c |- _ =>
          exact (set_cookie_inv cj cj1 c Hcj (created _ _ _ _ _ _ c Hc) E)
      end.
    + destruct (existsb (isinstance e) [OverflowError; OSError]); [ | discriminate H].
      cbn [Py.bind] in H. apply (IH cj cj'); assumption.
Qed.

Lemma chrome_inv (w : world) (cookie_file : path_arg) (d : string) (cj : CookieJar.jar) :
  chrome w cookie_file d = Ok cj -> Forall P (CookieJar.cookies cj).
Proof.
  unfold chrome, Chrome.load. intros H. bind_inv H.
  exact (chrome_load_items_inv w _ _ CookieJar.empty _ (Forall_nil P) H).
Qed.

Lemma firefox_load_items_inv :
  forall (items : list (list pyval)) (cj cj' : CookieJar.jar),
    Forall P (CookieJar.cookies cj) -> Firefox.load_items cj items = Ok cj' ->
    Forall P (CookieJar.cookies cj').
Proof.
  induction items as [ | item items IH]; intros cj cj' Hcj H.
  - injection H as <-. exact Hcj.
  - cbn [Firefox.load_items] in H.
    destruct item as [ | a0 [ | a1 [ | a2 [ | a3 [ | a4 [ | a5 [ | a6 l]]]]]]];
      try discriminate H.
    bind_inv H.
    match goal with
    | Hc : create_cookie _ _ _ _ _ _ = Ok ?c, Hs : CookieJar.set_cookie cj ?c = Ok ?b |- _ =>
        apply (IH b cj');
          [exact (set_cookie_inv cj b c Hcj (created _ _ _ _ _ _ c Hc) Hs) | exact H]
    end.
Qed.

Lemma add_cookies_inv (w : world) :
  forall (l : list pyval) (cj cj' : CookieJar.jar),
    Forall P (CookieJar.cookies cj) -> Firefox.add_cookies w cj l = Ok cj' ->
    Forall P (CookieJar.cookies cj').
Proof.
  induction l as [ | x l IH]; intros cj cj' Hcj H.
  - injection H as <-. exact Hcj.
  - cbn [Firefox.add_cookies] in H. bind_inv H.
    match goal with
    | Hc : Firefox.__create_session_cookie w x = Ok ?c,
      Hs : CookieJar.set_cookie cj ?c = Ok ?b |- _ =>
        apply (IH b cj'); [ | exact H];
        apply (set_cookie_inv cj b c Hcj); [ | exact Hs];
        unfold Firefox.__create_session_cookie in Hc; bind_inv Hc;
        exact (created _ _ _ _ _ _ c Hc)
    end.
Qed.

Lemma add_windows_inv (w : world) :
  forall (l : list pyval) (cj cj' : CookieJar.jar),
    Forall P (CookieJar.cookies cj) -> Firefox.add_windows w cj l = Ok cj' ->
    Forall P (CookieJar.cookies cj').
Proof.
  induction l as [ | x l IH]; intros cj cj' Hcj H.
  - injection H as <-. exact Hcj.
  - cbn [Firefox.add_windows] in H. bind_inv H.
    match goal with
    | Hs : Firefox.add_cookies w cj ?l0 = Ok ?b |- _ =>
        apply (IH b cj'); [exact (add_cookies_inv w l0 cj b Hcj Hs) | exact H]
    end.
Qed.

Lemma add_session_cookies_inv (w : world) (self : Firefox.t) (cj cj' : CookieJar.jar) :
  Forall P (CookieJar.cookies cj) ->
  fst (Firefox.__add_session_cookies w self cj) = Ok cj' ->
  Forall P (CookieJar.cookies cj').
Proof.
  unfold Firefox.__add_session_cookies. intros Hcj H.
  destruct (path_exists w (Firefox.session_file self)); cbn [negb] in H.
  - unfold try_except_else in H.
    destruct (content <- open_read w (Firefox.session_file self) ;; Firefox.read_session w content)
      as [json_data | e].
    + cbn [lift fst] in H. bind_inv H. exact (add_windows_inv w _ cj cj' Hcj H).
    + destruct (existsb (isinstance e) [ValueError]).
      * cbn in H. injection H as <-. exact Hcj.
      * discriminate H.
  - injection H as <-. exact Hcj.
Qed.

Lemma add_session_cookies_lz4_inv (w : world) (self : Firefox.t) (cj cj' : CookieJar.jar) :
  Forall P (CookieJar.cookies cj) ->
  fst (Firefox.__add_session_cookies_lz4 w self cj) = Ok cj' ->
  Forall P (CookieJar.cookies cj').
Proof.
  unfold Firefox.__add_session_cookies_lz4. intros Hcj H.
  destruct (path_exists w (Firefox.session_file_lz4 self)); cbn [negb] in H.
  - unfold try_except_else in H.
    destruct (content <- open_read w (Firefox.session_file_lz4 self) ;; Firefox.read_session_lz4 w content)
      as [json_data | e].
    + cbn [lift fst] in H. bind_inv H. exact (add_cookies_inv w _ cj cj' Hcj H).
    + destruct (existsb (isinstance e) [ValueError]).
      * cbn in H. injection H as <-. exact Hcj.
      * discriminate H.
  - injection H as <-. exact Hcj.
Qed.

Lemma firefox_inv (w : world) (cookie_file : option string) (d : string)
    (cj : CookieJar.jar) :
  fst (firefox w cookie_file d) = Ok cj -> Forall P (CookieJar.cookies cj).
Proof.
  unfold firefox, Firefox.load. rewrite !fst_obind. cbn [lift fst].
  destruct (Firefox.__init__ w cookie_file d) as [self | e]; [ | discriminate].
  rewrite !fst_obind. cbn [lift fst].
  unfold Firefox.load_store.
  destruct (sqlite_query w (Firefox.tmp_cookie_file self)
              (Firefox.select_cookies (Firefox.domain_name self))) as [[items | e] | e];
    [ | discriminate | discriminate].
  cbn [Py.bind fetchall].
  destruct (Firefox.load_items CookieJar.empty items) as [cj0 | e] eqn:E0; [ | discriminate].
  rewrite !fst_obind.
  destruct (fst (Firefox.__add_session_cookies w self cj0)) as [cj1 | e] eqn:E1;
    [ | discriminate].
  rewrite !fst_obind.
  destruct (fst (Firefox.__add_session_cookies_lz4 w self cj1)) as [cj2 | e] eqn:E2;
    [ | discriminate].
  cbn [oret fst]. intros [= <-].
  apply (add_session_cookies_lz4_inv w self cj1 cj2); [ | exact E2].
  apply (add_session_cookies_inv w self cj0 cj1); [ | exact E1].
  exact (firefox_load_items_inv items CookieJar.empty cj0 (Forall_nil P) E0).
Qed.

Lemma load_inv (w : world) (d : string) (cj : CookieJar.jar) :
  fst (load w d) = Ok cj -> Forall P (CookieJar.cookies cj).
Proof.
  rewrite load_cases.
  destruct (escaping (chrome w PathNone d)); [discriminate | ].
  destruct (escaping (fst (firefox w None d))); [discriminate | ].
  intros H.
  refine (set_cookies_inv _ CookieJar.empty cj (Forall_nil P) _ H).
  apply Forall_app. split.
  - pose proof (chrome_inv w PathNone d) as Hc.
    destruct (chrome w PathNone d) as [j | e]; [exact (Hc j eq_refl) | constructor].
  - pose proof (firefox_inv w None d) as Hf.
    destruct (fst (firefox w None d)) as [j | e]; [exact (Hf j eq_refl) | constructor].
Qed.

End JarInvariant.

Lemma lower_ascii_idempotent (c : ascii) : lower_ascii (lower_ascii c) = lower_ascii c.
Proof. destruct c as [[] [] [] [] [] [] [] []]; reflexivity. Qed.

Lemma lower_str_idempotent (s : string) : lower_str (lower_str s) = lower_str s.
Proof.
  induction s as [ | c s IH]; [reflexivity | ].
  cbn [lower_str]. rewrite lower_ascii_idempotent, IH. reflexivity.
Qed.

Lemma lower_str_app (a b : string) :
  lower_str (String.append a b) = String.append (lower_str a) (lower_str b).
Proof.
  induction a as [ | c a IH]; [reflexivity | ].
  cbn [String.append lower_str]. rewrite IH. reflexivity.
Qed.

Lemma lower_ascii_dot (c : ascii) : lower_ascii c = "."%char <-> c = "."%char.
Proof.
  destruct c as [[] [] [] [] [] [] [] []]; split; intros H;
    try reflexivity; vm_compute in H; discriminate H.
Qed.

Lemma prefix_dot (c : ascii) (r : string) :
  String.prefix "." (String c r) = if ascii_dec "." c then true else false.
Proof.
  cbn [String.prefix]. destruct (ascii_dec "." c); [destruct r; reflexivity | reflexivity].
Qed.

(** A byte above the ASCII capital letters is neither lowered nor a dot. *)
Lemma high_byte (x : N) :
  (91 <= x < 256)%N ->
  lower_ascii (ascii_of_N x) = ascii_of_N x /\ ascii_of_N x <> "."%char.
Proof.
  intros H. split.
  - unfold lower_ascii. rewrite N_ascii_embedding by lia.
    destruct ((65 <=? x) && (x <=? 90))%N eqn:E; [ | reflexivity].
    apply andb_prop in E. destruct E as [_ E]. apply N.leb_le in E. lia.
  - intros E. apply (f_equal N_of_ascii) in E. rewrite N_ascii_embedding in E by lia.
    change (N_of_ascii ".") with 46%N in E. lia.
Qed.

Lemma high_byte_sum (base x bound : N) :
  (x < bound)%N -> (91 <= base)%N -> (base + bound <= 256)%N ->
  lower_ascii (ascii_of_N (base + x)) = ascii_of_N (base + x) /\
  ascii_of_N (base + x) <> "."%char.
Proof. intros Hx Hbase Hbound. apply high_byte. lia. Qed.

(** The encoding of a character from [a] on has no ASCII capital letter and
    does not start with a dot. *)
Lemma utf8_encode_high (t : N) :
  (97 <= t)%N ->
  lower_str (utf8_encode t) = utf8_encode t /\
  exists c r, utf8_encode t = String c r /\ c <> "."%char.
Proof.
  intros Ht. unfold utf8_encode.
  assert (Hmod : forall x : N, (x mod 64 < 64)%N) by (intros x; apply N.mod_lt; discriminate).
  destruct (t <? 128)%N eqn:E1; [apply N.ltb_lt in E1 | apply N.ltb_ge in E1].
  { destruct (high_byte t ltac:(lia)) as [H1 H2].
    split; [cbn [lower_str]; rewrite H1; reflexivity | eauto]. }
  destruct (t <? 2048)%N eqn:E2; [apply N.ltb_lt in E2 | apply N.ltb_ge in E2].
  { assert (Hdiv : (t / 64 < 32)%N) by (apply N.Div0.div_lt_upper_bound; lia).
    destruct (high_byte_sum 192 (t / 64) 32 Hdiv ltac:(lia) ltac:(lia)) as [H1 H2].
    destruct (high_byte_sum 128 (t mod 64) 64 (Hmod _) ltac:(lia) ltac:(lia)) as [H3 _].
    split; [cbn [lower_str]; rewrite H1, H3; reflexivity | eauto]. }
  destruct (t <? 65536)%N eqn:E3; [apply N.ltb_lt in E3 | apply N.ltb_ge in E3].
  { assert (Hdiv : (t / 4096 < 16)%N) by (apply N.Div0.div_lt_upper_bound; lia).
    destruct (high_byte_sum 224 (t / 4096) 16 Hdiv ltac:(lia) ltac:(lia)) as [H1 H2].
    destruct (high_byte_sum 128 ((t / 64) mod 64) 64 (Hmod _) ltac:(lia) ltac:(lia))
      as [H3 _].
    destruct (high_byte_sum 128 (t mod 64) 64 (Hmod _) ltac:(lia) ltac:(lia)) as [H4 _].
    split; [cbn [lower_str]; rewrite H1, H3, H4; reflexivity | eauto]. }
  assert (Hmod8 : ((t / 262144) mod 8 < 8)%N) by (apply N.mod_lt; discriminate).
  destruct (high_byte_sum 240 ((t / 262144) mod 8) 8 Hmod8 ltac:(lia) ltac:(lia)) as [H1 H2].
  destruct (high_byte_sum 128 ((t / 4096) mod 64) 64 (Hmod _) ltac:(lia) ltac:(lia))
    as [H3 _].
  destruct (high_byte_sum 128 ((t / 64) mod 64) 64 (Hmod _) ltac:(lia) ltac:(lia))
    as [H4 _].
  destruct (high_byte_sum 128 (t mod 64) 64 (Hmod _) ltac:(lia) ltac:(lia)) as [H5 _].
  split; [cbn [lower_str]; rewrite H1, H3, H4, H5; reflexivity | eauto].
Qed.

(** A character that changes in lower case becomes characters from [a] on. *)
Lemma to_lower_high (n : N) (l : list N) :
  to_lower n = Some l ->
  exists t l', l = t :: l' /\ Forall (fun x => (97 <= x)%N) l.
Proof.
  unfold to_lower. intros H.
  destruct (n <? 128)%N.
  - destruct ((65 <=? n) && (n <=? 90))%N eqn:E; [ | discriminate H].
    injection H as <-. apply andb_prop in E. destruct E as [E _]. apply N.leb_le in E.
    eexists. eexists. split; [reflexivity | ]. repeat constructor. lia.
  - destruct (n =? 304)%N.
    + injection H as <-. eexists. eexists. split; [reflexivity | ].
      repeat constructor; lia.
    + destruct (find (in_run n) lower_table) as [[[[first last] step] target] | ] eqn:F;
        [ | discriminate H].
      injection H as <-. apply find_some in F. destruct F as [Hin _].
      assert (Htable : forallb (fun r : N * N * N * N => (97 <=? snd r)%N) lower_table = true)
        by (vm_compute; reflexivity).
      pose proof (proj1 (forallb_forall _ _) Htable _ Hin) as Htarget.
      cbn [snd] in Htarget. apply N.leb_le in Htarget.
      eexists. eexists. split; [reflexivity | ]. repeat constructor. lia.
Qed.

Lemma decode_dot (k : string) (n : N) : utf8_decode (String "." k) = Some n -> n = 46%N.
Proof.
  unfold utf8_decode. cbn [list_ascii_of_string map].
  change (N_of_ascii ".") with 46%N.
  destruct (map N_of_ascii (list_ascii_of_string k)) as [ | b [ | c [ | d [ | e l]]]];
    cbn; intros H; try discriminate H.
  injection H as <-. reflexivity.
Qed.

Lemma lower_ascii_keeps (c : ascii) :
  ((65 <=? N_of_ascii c) && (N_of_ascii c <=? 90))%N = false -> lower_ascii c = c.
Proof. intros H. unfold lower_ascii. rewrite H. reflexivity. Qed.

Lemma lower_ascii_high (c : ascii) : (128 <= N_of_ascii c)%N -> lower_ascii c = c.
Proof.
  intros H. apply lower_ascii_keeps.
  destruct (N_of_ascii c <=? 90)%N eqn:E; [ | apply andb_false_r].
  apply N.leb_le in E. lia.
Qed.

Ltac split_conditions :=
  repeat match goal with
         | H : _ && _ = true |- _ => apply andb_prop in H; destruct H
         | H : (_ <=? _)%N = true |- _ => apply N.leb_le in H
         end.

Lemma lower_char_lowered (before : list (option N)) (rest : list string) (ch : string) :
  lower_str (lower_char before rest ch) = lower_char before rest ch.
Proof.
  unfold lower_char.
  destruct (utf8_decode ch) as [n | ] eqn:D; [ | apply lower_str_idempotent].
  destruct (n =? 931)%N eqn:Sigma.
  - destruct (final_sigma before (map utf8_decode rest));
      apply utf8_encode_high; lia.
  - destruct (to_lower n) as [l | ] eqn:L.
    + destruct (to_lower_high n l L) as [t0 [l0 [_ Hl]]]. clear L.
      induction Hl as [ | t l' Ht Hl' IH]; [reflexivity | ].
      cbn [fold_right]. rewrite lower_str_app, IH.
      rewrite (proj1 (utf8_encode_high t Ht)). reflexivity.
    + unfold utf8_decode in D.
      destruct ch as [ | c1 [ | c2 [ | c3 [ | c4 [ | c5 ch]]]]];
        cbn [list_ascii_of_string map] in D; try discriminate D.
      * destruct (N_of_ascii c1 <? 128)%N eqn:E; [ | discriminate D].
        injection D as <-. unfold to_lower in L. rewrite E in L.
        destruct ((65 <=? N_of_ascii c1) && (N_of_ascii c1 <=? 90))%N eqn:E2; [discriminate L | ].
        cbn [lower_str]. rewrite (lower_ascii_keeps c1 E2). reflexivity.
      * match type of D with (if ?b then _ else _) = _ => destruct b eqn:E end;
          [ | discriminate D].
        split_conditions. cbn [lower_str]. rewrite !lower_ascii_high by lia. reflexivity.
      * match type of D with (if ?b then _ else _) = _ => destruct b eqn:E end;
          [ | discriminate D].
        split_conditions. cbn [lower_str]. rewrite !lower_ascii_high by lia. reflexivity.
      * match type of D with (if ?b then _ else _) = _ => destruct b eqn:E end;
          [ | discriminate D].
        split_conditions. cbn [lower_str]. rewrite !lower_ascii_high by lia. reflexivity.
Qed.

Lemma lower_chars_lowered (chars : list string) :
  forall before, lower_str (lower_chars before chars) = lower_chars before chars.
Proof.
  induction chars as [ | ch rest IH]; intros before; [reflexivity | ].
  cbn [lower_chars]. rewrite lower_str_app, lower_char_lowered, IH. reflexivity.
Qed.

(** [s.lower()] has no ASCII capital letter. *)
Lemma str_lower_lowered (s : string) : lower_str (str_lower s) = str_lower s.
Proof. apply lower_chars_lowered. Qed.

Lemma append_empty (s : string) : String.append s EmptyString = s.
Proof. induction s as [ | c s IH]; [reflexivity | cbn [String.append]; rewrite IH; reflexivity]. Qed.

Lemma append_assoc (a b c : string) :
  String.append (String.append a b) c = String.append a (String.append b c).
Proof. induction a as [ | x a IH]; [reflexivity | cbn [String.append]; rewrite IH; reflexivity]. Qed.

(** The first character that [codepoints] gives starts with the bytes at hand. *)
Lemma codepoints_some (s : string) :
  forall cur, exists k l, codepoints (Some cur) s = String.append cur k :: l.
Proof.
  induction s as [ | c s IH]; intros cur.
  - exists EmptyString, []. cbn [codepoints]. rewrite append_empty. reflexivity.
  - cbn [codepoints]. destruct (is_continuation c).
    + destruct (IH (String.append cur (String c ""))) as [k [l E]].
      exists (String c k), l. rewrite E, append_assoc. reflexivity.
    + exists EmptyString. eexists. rewrite append_empty. reflexivity.
Qed.

(** The first byte of a character in lower case is a dot when the character
    starts with one, and then only. *)
Lemma lower_char_first (before : list (option N)) (rest : list string) (c : ascii)
    (k : string) :
  exists c' r', lower_char before rest (String c k) = String c' r' /\
                (c' = "."%char <-> c = "."%char).
Proof.
  unfold lower_char.
  destruct (utf8_decode (String c k)) as [n | ] eqn:D.
  - assert (Hdot : c = "."%char -> n = 46%N).
    { intros ->. exact (decode_dot k n D). }
    destruct (n =? 931)%N eqn:Sigma.
    + destruct (utf8_encode_high
                  (if final_sigma before (map utf8_decode rest) then 962 else 963)%N
                  ltac:(destruct (final_sigma before (map utf8_decode rest)); lia))
        as [_ [c' [r' [E Hc']]]].
      exists c', r'. split; [exact E | ].
      split; [intros H; contradiction | ].
      intros H. specialize (Hdot H). subst n. discriminate Sigma.
    + destruct (to_lower n) as [l | ] eqn:L.
      * destruct (to_lower_high n l L) as [t [l' [-> Hl]]].
        inversion Hl as [ | t0 l0 Ht Hl0]. subst.
        destruct (utf8_encode_high t Ht) as [_ [c' [r' [E Hc']]]].
        cbn [fold_right]. rewrite E. cbn [String.append].
        eexists. eexists. split; [reflexivity | ].
        split; [intros H; contradiction | ].
        intros H. specialize (Hdot H). subst n. vm_compute in L. discriminate L.
      * exists c, k. split; [reflexivity | tauto].
  - cbn [lower_str]. eexists. eexists. split; [reflexivity | ]. apply lower_ascii_dot.
Qed.

Lemma prefix_dot_lower (s : string) : String.prefix "." (str_lower s) = String.prefix "." s.
Proof.
  destruct s as [ | c s]; [reflexivity | ].
  unfold str_lower.
  assert (E : codepoints None (String c s) = codepoints (Some (String c "")) s).
  { cbn [codepoints]. destruct (is_continuation c); reflexivity. }
  rewrite E. destruct (codepoints_some s (String c "")) as [k [l ->]].
  cbn [String.append lower_chars].
  destruct (lower_char_first [] l c k) as [c' [r' [-> Hc']]].
  cbn [String.append]. rewrite !prefix_dot.
  destruct (ascii_dec "." c') as [<- | Hn'], (ascii_dec "." c) as [<- | Hn];
    try reflexivity.
  - exfalso. apply Hn. symmetry. apply Hc'. reflexivity.
  - exfalso. apply Hn'. symmetry. apply Hc'. reflexivity.
Qed.

Lemma create_cookie_well_formed (host path secure : pyval) (expires : CookieJar.expires_arg)
    (name value : pyval) (c : CookieJar.Cookie) :
  create_cookie host path secure expires name value = Ok c -> well_formed c.
Proof.
  unfold create_cookie, CookieJar.Cookie_init. intros H.
  destruct host as [ | b | z | h | b | l | d]; try discriminate H.
  cbn [startswith_dot Py.bind lower] in H. bind_inv H. injection H as <-.
  exists (str_lower h). cbn [CookieJar.domain CookieJar.domain_specified
                              CookieJar.domain_initial_dot CookieJar.discard].
  rewrite str_lower_lowered, prefix_dot_lower. repeat split.
Qed.

(** X23. Every cookie of a jar that [chrome], [firefox] or [load] returns,
    whatever the host holds, has a domain that is a text without ASCII
    capital letters, has both domain flags set exactly when the domain starts
    with a dot, and has [discard] off. *)
Theorem every_returned_cookie_is_well_formed :
  forall (w : world) (chrome_file : path_arg) (firefox_file : option string)
         (domain_name : string) (cj : CookieJar.jar),
    chrome w chrome_file domain_name = Ok cj \/
    fst (firefox w firefox_file domain_name) = Ok cj \/
    fst (load w domain_name) = Ok cj ->
    Forall well_formed (CookieJar.cookies cj).
Proof.
  intros w cf ff d cj [H | [H | H]].
  - exact (chrome_inv well_formed create_cookie_well_formed w cf d cj H).
  - exact (firefox_inv well_formed create_cookie_well_formed w ff d cj H).
  - exact (load_inv well_formed create_cookie_well_formed w d cj H).
Qed.

Lemma every_returned_cookie_is_well_formed_witness :
  exists cj,
    fst (load Examples.linux_with_both "") = Ok cj /\
    List.length (CookieJar.cookies cj) = 2%nat /\
    Forall well_formed (CookieJar.cookies cj).
Proof.
  eexists. split; [vm_compute; reflexivity | ]. split; [reflexivity | ].
  apply (every_returned_cookie_is_well_formed Examples.linux_with_both PathNone None "").
  right. right. vm_compute. reflexivity.
Defined.

(** *** What [Firefox()] holds *)

(** X24. A [Firefox] object that [__init__] returns holds the bytes of a file
    of the host as its snapshot and the domain filter it was given, and looks
    for the two session logs in the directory of that file; a non-empty path
    that was given is that file, on every platform. *)
Theorem firefox_init_result :
  forall (w : world) (cookie_file : option string) (domain_name : string) (self : Firefox.t),
    Firefox.__init__ w cookie_file domain_name = Ok self ->
    exists f,
      file_bytes w f = Some (Firefox.tmp_cookie_file self) /\
      Firefox.session_file self = path_join w (path_dirname w f) "sessionstore.js" /\
      Firefox.session_file_lz4 self
      = path_join w (path_join w (path_dirname w f) "sessionstore-backups")
          "recovery.jsonlz4" /\
      Firefox.domain_name self = domain_name /\
      (forall g, cookie_file = Some g -> g <> "" -> f = g).
Proof.
  intros w cf d self H. unfold Firefox.__init__ in H.
  assert (Hcopy : forall f,
            (tmp <- create_local_copy w f ;;
             Ok (Firefox.mk tmp
                   (path_join w (path_dirname w f) "sessionstore.js")
                   (path_join w (path_join w (path_dirname w f) "sessionstore-backups")
                      "recovery.jsonlz4") d)) = Ok self ->
            file_bytes w f = Some (Firefox.tmp_cookie_file self) /\
            Firefox.session_file self = path_join w (path_dirname w f) "sessionstore.js" /\
            Firefox.session_file_lz4 self
            = path_join w (path_join w (path_dirname w f) "sessionstore-backups")
                "recovery.jsonlz4" /\
            Firefox.domain_name self = d).
  { intros f Hf. unfold create_local_copy, path_exists, open_read in Hf.
    destruct (file_bytes w f) as [b | ] eqn:Ef;
      [ | destruct (path_unreadable w f); discriminate Hf].
    cbn [Py.bind] in Hf. injection Hf as <-. repeat split. }
  destruct cf as [g | ].
  - destruct (String.eqb g "") eqn:Eg; cbn [negb] in H.
    + destruct (Firefox.find_cookie_file w) as [f | e]; [ | discriminate H].
      cbn [Py.bind] in H. exists f.
      destruct (Hcopy f H) as [H1 [H2 [H3 H4]]]. repeat split; try assumption.
      intros g' [= <-] Hne. apply String.eqb_eq in Eg. contradiction.
    + cbn [Py.bind] in H. exists g.
      destruct (Hcopy g H) as [H1 [H2 [H3 H4]]]. repeat split; try assumption.
      intros g' [= <-] _. reflexivity.
  - destruct (Firefox.find_cookie_file w) as [f | e]; [ | discriminate H].
    cbn [Py.bind] in H. exists f.
    destruct (Hcopy f H) as [H1 [H2 [H3 H4]]]. repeat split; try assumption.
    intros g' Hg. discriminate Hg.
Qed.

Lemma firefox_init_result_witness :
  exists self,
    Firefox.__init__ (Examples.linux_with_firefox []) None "example" = Ok self /\
    Firefox.session_file self = Examples.session_path /\
    Firefox.session_file_lz4 self = Examples.recovery_path /\
    Firefox.domain_name self = "example".
Proof.
  eexists. split; [vm_compute; reflexivity | ].
  destruct (firefox_init_result (Examples.linux_with_firefox []) None "example" _
              ltac:(vm_compute; reflexivity)) as [f [_ [_ [_ [Hd _]]]]].
  split; [reflexivity | ]. split; [reflexivity | ]. exact Hd.
Defined.
